(** * smdv: the synchronization hub and the renderer dispatch

    A shallow embedding of the websocket hub of [smdv.py]
    ([handle_message], [register_client], [unregister_client],
    [send_message_to_all_js_clients], [validate_message]) and of the
    renderer dispatch ([encode], [txt2body]), followed by the properties
    of the specification that concern them.

    Conventions.
    - A message is a Python [dict] decoded from a JSON text frame; it is a
      finite map from key strings to JSON scalars ([null], booleans,
      integers, strings; no field of the protocol holds an array, an
      object or a fraction).  Strings are byte strings (the UTF-8
      encoding of the Python text); the only characters the code inspects
      are ["."] and ["/"], which are single bytes.
    - The file system does not change while the hub runs: [os.chdir]
      and [dir2body] answer the same for the same path.
    - A [send] on a connection succeeds; [asyncio.wait] collects the
      failures of a broadcast and raises none.
    - A Python call either returns or raises: [result].
    - The module globals [MESSAGE], [BACKMESSAGES], [FORWARDMESSAGES],
      [JSCLIENTS], [PYCLIENTS] and the mutable [ARGS.nvim_address] are the
      fields of the record [hub], threaded explicitly; the state reached
      when an exception is raised is kept, as the globals keep it.
    - The two deques are lists whose head is the left end:
      [appendleft] is [cons], [popleft] removes the head, [pop] removes the
      last element.
    - What the hub calls outside this file's reach - the file system, the
      markdown and notebook renderers, the editor - is collected in the
      record [env]. *)

From Stdlib Require Import ZArith String Ascii List Lia Bool.
From Stdlib Require Strings.Byte OrderedTypeEx.
From Stdlib Require Import Sorting.Sorted.
From stdpp Require Import gmap strings list fin_maps pretty.

Local Open Scope string_scope.

(** ** JSON scalars and the Python operations applied to them *)

Inductive value : Type :=
| VNone
| VBool (b : bool)
| VInt (n : Z)
| VStr (s : string).

#[global] Instance value_eq_dec : EqDecision value.
Proof. solve_decision. Defined.

(** Python exceptions raised by the modelled code. *)
Inductive exn : Type :=
| AssertionError
| AttributeError
| ImportError
| IndexError
| KeyError
| OSError
| TypeError
| ValueError
| OtherError (name : string).

#[global] Instance exn_eq_dec : EqDecision exn.
Proof. solve_decision. Defined.

Inductive result (A : Type) : Type :=
| Ret (a : A)
| Raise (e : exn).
Arguments Ret {A} a.
Arguments Raise {A} e.

Definition result_bind {A B} (r : result A) (k : A -> result B) : result B :=
  match r with
  | Ret a => k a
  | Raise e => Raise e
  end.

Definition returns {A} (r : result A) : Prop := exists a, r = Ret a.

(** [bool(v)] *)
Definition truthy (v : value) : bool :=
  match v with
  | VNone => false
  | VBool b => b
  | VInt n => negb (n =? 0)%Z
  | VStr s => negb (String.eqb s "")
  end.

(** [v == w]; [bool] is a subclass of [int], so [True == 1]. *)
Definition py_eq (v w : value) : bool :=
  match v, w with
  | VNone, VNone => true
  | VStr s, VStr t => String.eqb s t
  | VBool a, VBool b => Bool.eqb a b
  | VBool a, VInt n | VInt n, VBool a => (n =? (if a then 1 else 0))%Z
  | VInt n, VInt m => (n =? m)%Z
  | _, _ => false
  end.

(** [v in {s1, s2, ...}] for a set of string literals. *)
Definition py_in (v : value) (lits : list string) : bool :=
  existsb (fun s => py_eq v (VStr s)) lits.

(** [str(v)], as used by an f-string. *)
Definition py_str (v : value) : string :=
  match v with
  | VNone => "None"
  | VBool true => "True"
  | VBool false => "False"
  | VInt n => pretty n
  | VStr s => s
  end.

Abbreviation msg := (gmap string value).

(** [d.get(k)] and [d.get(k, dflt)] *)
Definition py_get (d : msg) (k : string) : value := default VNone (d !! k).
Definition py_get_or (d : msg) (k : string) (dflt : value) : value :=
  default dflt (d !! k).

(** [d[k]] *)
Definition py_item (d : msg) (k : string) : result value :=
  match d !! k with
  | Some v => Ret v
  | None => Raise KeyError
  end.

(** [d.update(e)]: the keys of [e] win. *)
Definition py_update (d e : msg) : msg := e ∪ d.

(** ** Strings: the slices and searches [encode] performs *)

Fixpoint str_drop (n : nat) (s : string) : string :=
  match n, s with
  | O, _ => s
  | S n', String _ s' => str_drop n' s'
  | S _, EmptyString => EmptyString
  end.

Fixpoint str_take (n : nat) (s : string) : string :=
  match n, s with
  | S n', String c s' => String c (str_take n' s')
  | _, _ => EmptyString
  end.

(** [c in s] for a one-character [c] *)
Fixpoint str_mem (c : ascii) (s : string) : bool :=
  match s with
  | EmptyString => false
  | String a s' => Ascii.eqb a c || str_mem c s'
  end.

(** [s.rfind(c)] for a one-character [c]: the last index, or [-1]. *)
Fixpoint rfind_from (c : ascii) (s : string) (i last : Z) : Z :=
  match s with
  | EmptyString => last
  | String a s' => rfind_from c s' (i + 1) (if Ascii.eqb a c then i else last)
  end.
Definition rfind (c : ascii) (s : string) : Z := rfind_from c s 0 (-1).

Fixpoint str_all (c : ascii) (s : string) : bool :=
  match s with
  | EmptyString => true
  | String a s' => Ascii.eqb a c && str_all c s'
  end.

(** [os.path.splitext] of [posixpath] (the library's [_splitext] with
    [sep = "/"], [extsep = "."]): the extension starts at the last dot of
    the last path component, unless that component has only dots before
    it. *)
Definition splitext (p : string) : string * string :=
  let sepIndex := rfind "/" p in
  let dotIndex := rfind "." p in
  if (sepIndex <? dotIndex)%Z then
    let lead := str_take (Z.to_nat (dotIndex - (sepIndex + 1)))
                         (str_drop (Z.to_nat (sepIndex + 1)) p) in
    if str_all "." lead then (p, "")
    else (str_take (Z.to_nat dotIndex) p, str_drop (Z.to_nat dotIndex) p)
  else (p, "").

(** ** The environment of the hub *)

Record env : Type := {
  (** [ARGS.home], [ARGS.stdin], [ARGS.interactive] and the initial
      [ARGS.nvim_address] *)
  ARGS_home : string;
  ARGS_stdin : string;
  ARGS_interactive : bool;
  ARGS_nvim_address : string;
  (** [os.chdir(path)]: [None] when it raises, else the new
      [os.getcwd()] *)
  os_chdir : string -> option string;
  (** [dir2body(cwd)]: the directory listing, or the exception of
      [os.listdir] *)
  dir2body : string -> result string;
  (** [md2body(content)] on a text: [MD_INTERPRETER.convert], which
      [md2body] calls without a handler and which raises on some texts,
      followed by the rewriting of relative URLs against [os.getcwd()],
      which is the first argument *)
  md2body_text : string -> string -> result string;
  (** [ipynb2body(content)]: raises [ImportError] when [nbconvert] is
      missing *)
  ipynb2body : value -> result string;
  (** [edit_in_neovim(path)] under the current [ARGS.nvim_address] *)
  edit_in_neovim : value -> string -> result unit
}.

Section Encode.

Variable E : env.
(** the process working directory, read by [md2body] *)
Variable oscwd : string.

(** [md2body(content)]: [Markdown.convert] calls [source.strip()] first,
    which only a [str] has. *)
Definition md2body (content : value) : result string :=
  match content with
  | VStr s => md2body_text E oscwd s
  | _ => Raise AttributeError
  end.

(** [txt2body(content)]: the f-string formats any value. *)
Definition fence (content : value) : string :=
  "```" ++ String "010" (py_str content ++ String "010" "```").

Definition txt2body (content : value) : result string :=
  md2body (VStr (fence content)).

(** The block of [encode] that runs when no encoding is declared
    (lines 995-1002): returns the message and the local [encoding]. *)
Definition encode_infer (message : msg) : result (msg * value) :=
  let encoding := py_get message "fileEncoding" in
  let filename := py_get message "filename" in
  if truthy encoding then Ret (message, encoding)
  else
    match filename with
    | VStr EmptyString => Raise IndexError
    | VStr (String c rest as fn) =>
        let encoding :=
          if Ascii.eqb c "." && negb (str_mem "." rest) then "txt"
          else
            let ext := str_drop 1 (snd (splitext fn)) in
            if String.eqb ext "" then ARGS_stdin E else ext in
        Ret (<["fileEncoding" := VStr encoding]> message, VStr encoding)
    | _ => Raise TypeError
    end.

(** [message["fileBody"] = f(message["fileBody"]); return message] *)
Definition render_body (f : value -> result string) (message : msg)
  : result msg :=
  result_bind (py_item message "fileBody") (fun body =>
  result_bind (f body) (fun html =>
  Ret (<["fileBody" := VStr html]> message))).

(** The chain of an [encode] call: one frame per invocation of [encode]
    on the call stack, outermost first; a frame lists the encodings whose
    rendering path that invocation enters, in order ([txt2body] enters
    the markdown path through [md2body]). *)
Definition enter (encoding : value) (frames : list (list value))
  : list (list value) :=
  match frames with
  | own :: inner => (encoding :: own) :: inner
  | [] => [[encoding]]
  end.

(** The [txt] branch and what follows it (lines 1012-1020); [retry] is
    the recursive call. *)
Definition encode_tail (retry : msg -> option (list (list value) * result msg))
    (encoding : value) (message : msg)
  : option (list (list value) * result msg) :=
  if py_eq encoding (VStr "txt") then
    Some ([[VStr "txt"; VStr "md"]], render_body txt2body message)
  else
    match py_item message "fileEncoding" with
    | Raise e => Some ([[]], Raise e)
    | Ret declared =>
        if py_eq declared (VStr "html") then Some ([[VStr "html"]], Ret message)
        else
          match retry (<["fileEncoded" := VBool false]>
                         (<["fileEncoding" := VStr "txt"]> message)) with
          | Some (frames, r) => Some ([encoding] :: frames, r)
          | None => None
          end
    end.

(** The body of [encode(message)] (lines 988-1020), the recursive call
    being [retry]. *)
Definition encode_body (retry : msg -> option (list (list value) * result msg))
    (message : msg) : option (list (list value) * result msg) :=
  if truthy (py_get_or message "fileEncoded" (VBool false)) then
    Some ([[]], Ret message)
  else
    let message := <["fileEncoded" := VBool true]> message in
    match encode_infer message with
    | Raise e => Some ([[]], Raise e)
    | Ret (message, encoding) =>
        if py_eq encoding (VStr "md") then
          Some ([[VStr "md"]], render_body md2body message)
        else if py_eq encoding (VStr "ipynb") then
          match py_item message "fileBody" with
          | Raise e => Some ([[VStr "ipynb"]], Raise e)
          | Ret body =>
              match ipynb2body E body with
              | Ret html =>
                  Some ([[VStr "ipynb"]],
                        Ret (<["fileBody" := VStr html]> message))
              | Raise ImportError =>
                  match encode_tail retry (VStr "txt")
                          (<["fileEncoding" := VStr "txt"]> message) with
                  | Some (frames, r) => Some (enter (VStr "ipynb") frames, r)
                  | None => None
                  end
              | Raise e => Some ([[VStr "ipynb"]], Raise e)
              end
          end
        else encode_tail retry encoding message
    end.

(** [encode(message)], with the depth of the Python call stack as fuel:
    [None] when the fuel runs out. *)
Fixpoint encode_fuel (fuel : nat) (message : msg)
  : option (list (list value) * result msg) :=
  match fuel with
  | O => None
  | S fuel' => encode_body (encode_fuel fuel') message
  end.

(** Two frames always suffice (lemma [encode_fuel_enough]). *)
Definition encode_run (message : msg) : list (list value) * result msg :=
  match encode_fuel 2 message with
  | Some r => r
  | None => ([], Raise (OtherError "RecursionError"))
  end.

Definition encode (message : msg) : result msg := snd (encode_run message).
Definition encode_chain (message : msg) : list (list value) :=
  fst (encode_run message).
(** The rendering steps of the call, in order. *)
Definition encode_steps (message : msg) : list value :=
  concat (encode_chain message).

End Encode.

(** ** The hub *)

(** What the hub writes to a connection: [json.dumps(MESSAGE)] is a
    snapshot of [MESSAGE]; [str(len(JSCLIENTS))] is the count. *)
Inductive frame : Type :=
| FState (m : msg)
| FCount (n : nat).

(** [client.send(...)] to one connection, and the [asyncio.wait] over
    the sends to every connection of [JSCLIENTS]. *)
Inductive event : Type :=
| Send (client : nat) (f : frame)
| Broadcast (clients : gset nat) (f : frame).

Record hub : Type := {
  MESSAGE : msg;
  BACKMESSAGES : list msg;
  FORWARDMESSAGES : list msg;
  JSCLIENTS : gset nat;
  PYCLIENTS : gset nat;
  nvim_address : value;
  oscwd : string;
  (** every frame sent so far, oldest first *)
  outbox : list event
}.

Definition set_MESSAGE (m : msg) (h : hub) : hub :=
  {| MESSAGE := m; BACKMESSAGES := BACKMESSAGES h;
     FORWARDMESSAGES := FORWARDMESSAGES h; JSCLIENTS := JSCLIENTS h;
     PYCLIENTS := PYCLIENTS h; nvim_address := nvim_address h;
     oscwd := oscwd h; outbox := outbox h |}.

Definition set_BACKMESSAGES (l : list msg) (h : hub) : hub :=
  {| MESSAGE := MESSAGE h; BACKMESSAGES := l;
     FORWARDMESSAGES := FORWARDMESSAGES h; JSCLIENTS := JSCLIENTS h;
     PYCLIENTS := PYCLIENTS h; nvim_address := nvim_address h;
     oscwd := oscwd h; outbox := outbox h |}.

Definition set_FORWARDMESSAGES (l : list msg) (h : hub) : hub :=
  {| MESSAGE := MESSAGE h; BACKMESSAGES := BACKMESSAGES h;
     FORWARDMESSAGES := l; JSCLIENTS := JSCLIENTS h;
     PYCLIENTS := PYCLIENTS h; nvim_address := nvim_address h;
     oscwd := oscwd h; outbox := outbox h |}.

Definition set_clients (js py : gset nat) (h : hub) : hub :=
  {| MESSAGE := MESSAGE h; BACKMESSAGES := BACKMESSAGES h;
     FORWARDMESSAGES := FORWARDMESSAGES h; JSCLIENTS := js;
     PYCLIENTS := py; nvim_address := nvim_address h;
     oscwd := oscwd h; outbox := outbox h |}.

Definition set_nvim_address (v : value) (h : hub) : hub :=
  {| MESSAGE := MESSAGE h; BACKMESSAGES := BACKMESSAGES h;
     FORWARDMESSAGES := FORWARDMESSAGES h; JSCLIENTS := JSCLIENTS h;
     PYCLIENTS := PYCLIENTS h; nvim_address := v;
     oscwd := oscwd h; outbox := outbox h |}.

Definition set_oscwd (d : string) (h : hub) : hub :=
  {| MESSAGE := MESSAGE h; BACKMESSAGES := BACKMESSAGES h;
     FORWARDMESSAGES := FORWARDMESSAGES h; JSCLIENTS := JSCLIENTS h;
     PYCLIENTS := PYCLIENTS h; nvim_address := nvim_address h;
     oscwd := d; outbox := outbox h |}.

Definition emit (e : event) (h : hub) : hub :=
  {| MESSAGE := MESSAGE h; BACKMESSAGES := BACKMESSAGES h;
     FORWARDMESSAGES := FORWARDMESSAGES h; JSCLIENTS := JSCLIENTS h;
     PYCLIENTS := PYCLIENTS h; nvim_address := nvim_address h;
     oscwd := oscwd h; outbox := outbox h ++ [e] |}.

(** A computation on the globals: the result, and the globals as the
    call leaves them. *)
Definition M (A : Type) : Type := hub -> result A * hub.

Definition ret {A} (a : A) : M A := fun h => (Ret a, h).
Definition raise {A} (e : exn) : M A := fun h => (Raise e, h).
Definition lift {A} (r : result A) : M A := fun h => (r, h).
Definition bind {A B} (c : M A) (k : A -> M B) : M B :=
  fun h => match c h with
           | (Ret a, h') => k a h'
           | (Raise e, h') => (Raise e, h')
           end.

Notation "'do' x <- c ; k" := (bind c (fun x => k))
  (at level 10, x name, c at level 100, k at level 200).
Notation "c ;; k" := (bind c (fun _ => k))
  (at level 100, k at level 200, right associativity).

(** The set of keys of a [dir]/[file] message, as [validate_message]
    lists it. *)
Definition message_keys : list string :=
  ["client"; "func"; "cwd"; "cwdBody"; "cwdEncoded"; "filename"; "fileBody";
   "fileCwd"; "fileOpen"; "fileEncoding"; "fileEncoded"].

(** [validate_message(message)]: the test reads the key ["client"], with
    the string ["func"] as default; the loop runs over [keys]. *)
Definition validate_message (message : msg) : result unit :=
  if py_in (py_get_or message "client" (VStr "func")) ["dir"; "file"] then
    if forallb (fun key => bool_decide (is_Some (message !! key))
                           && bool_decide (key ∈ message_keys)) message_keys
    then Ret tt else Raise AssertionError
  else Ret tt.

(** [deque.appendleft(x)] followed by
    [if len(deque) > 20: deque.pop()] *)
Definition cap_20 (l : list msg) : list msg :=
  if (20 <? length l)%nat then removelast l else l.
Definition appendleft_capped (x : msg) (l : list msg) : list msg :=
  cap_20 (x :: l).

(** The directory-only snapshot pushed on the back stack. *)
Definition history_entry (cwd cwdBody cwdEncoded : value) : msg :=
  list_to_map
    [("client", VStr "py"); ("func", VStr "dir"); ("cwd", cwd);
     ("cwdBody", cwdBody); ("cwdEncoded", cwdEncoded);
     ("filename", VStr ""); ("fileBody", VStr ""); ("fileCwd", VStr "");
     ("fileOpen", VBool false); ("fileEncoding", VStr "");
     ("fileEncoded", VBool false)].

Section Hub.

Variable E : env.

(** [if "cwd" in message: os.chdir(ARGS.home + message["cwd"])] *)
Definition chdir_to_cwd (message : msg) : M unit := fun h =>
  match message !! "cwd" with
  | None => (Ret tt, h)
  | Some (VStr d) =>
      match os_chdir E (ARGS_home E ++ d) with
      | Some wd => (Ret tt, set_oscwd wd h)
      | None => (Raise OSError, h)
      end
  | Some _ => (Raise TypeError, h)
  end.

(** [edit_in_neovim(ARGS.home + MESSAGE["fileCwd"] + MESSAGE["filename"])] *)
Definition edit_current_file : M unit := fun h =>
  match MESSAGE h !! "fileCwd" with
  | None => (Raise KeyError, h)
  | Some (VStr d) =>
      match MESSAGE h !! "filename" with
      | None => (Raise KeyError, h)
      | Some (VStr f) =>
          (edit_in_neovim E (nvim_address h) (ARGS_home E ++ d ++ f), h)
      | Some _ => (Raise TypeError, h)
      end
  | Some _ => (Raise TypeError, h)
  end.

(** The test of the first [if] of [send_message_to_all_js_clients]. *)
Definition cwd_changed (h : hub) : result bool :=
  match BACKMESSAGES h with
  | [] => Ret true
  | top :: _ =>
      result_bind (py_item (MESSAGE h) "cwd") (fun cwd =>
      result_bind (py_item top "cwd") (fun last =>
      Ret (negb (py_eq cwd last))))
  end.

Definition push_history : M unit := fun h =>
  match py_item (MESSAGE h) "cwd" with
  | Raise e => (Raise e, h)
  | Ret cwd =>
  match py_item (MESSAGE h) "cwdBody" with
  | Raise e => (Raise e, h)
  | Ret cwdBody =>
  match py_item (MESSAGE h) "cwdEncoded" with
  | Raise e => (Raise e, h)
  | Ret cwdEncoded =>
      (Ret tt,
       set_BACKMESSAGES
         (appendleft_capped (history_entry cwd cwdBody cwdEncoded)
                            (BACKMESSAGES h)) h)
  end end end.

Definition broadcast : M unit := fun h =>
  if decide (JSCLIENTS h = ∅) then (Ret tt, h)
  else (Ret tt, emit (Broadcast (JSCLIENTS h) (FState (MESSAGE h))) h).

Definition send_message_to_all_js_clients : M unit :=
  do changed <- (fun h => (cwd_changed h, h));
  (if changed : bool then push_history else ret tt) ;;
  broadcast.

(** [message[k] = MESSAGE[k]] *)
Definition copy_key (src : msg) (k : string) (dst : msg) : result msg :=
  result_bind (py_item src k) (fun v => Ret (<[k := v]> dst)).

Definition file_keys : list string :=
  ["filename"; "fileCwd"; "fileBody"; "fileEncoding"; "fileEncoded"].

Definition copy_file_fields (src dst : msg) : result msg :=
  foldl (fun acc k => result_bind acc (copy_key src k)) (Ret dst) file_keys.

(** The first [if] of the [dir] branch (lines 714-723), [canonical]
    being [MESSAGE].  The [pop] of ["forceClose"] is evaluated only when
    the two tests before it hold. *)
Definition merge_open_file (canonical message : msg) : result msg :=
  if negb (truthy (py_get message "filename"))
     && truthy (py_get canonical "filename")
  then
    let force := py_get_or message "forceClose" (VBool false) in
    let message := delete "forceClose" message in
    if negb (truthy force) then copy_file_fields canonical message
    else Ret message
  else Ret message.

(** The second [if] of the [dir] branch (lines 724-726). *)
Definition render_cwd (message : msg) : result msg :=
  result_bind (py_item message "cwdEncoded") (fun encoded =>
  if negb (truthy encoded) then
    result_bind (py_item message "cwd") (fun cwd =>
    result_bind (match cwd with
                 | VStr d => dir2body E d
                 | _ => Raise TypeError
                 end) (fun body =>
    Ret (<["cwdEncoded" := VBool true]> (<["cwdBody" := VStr body]> message))))
  else Ret message).

(** Lines 713-728: the message as the [dir] branch and the [file] branch
    leave it; neither writes a global. *)
Definition prepare (func : value) (message : msg) (h : hub) : result msg :=
  result_bind
    (if py_eq func (VStr "dir") then
       result_bind (merge_open_file (MESSAGE h) message) render_cwd
     else Ret message) (fun message =>
  if py_eq func (VStr "file") then encode E (oscwd h) message
  else Ret message).

(** Lines 730-733: [MESSAGE.update(message)], the editor in interactive
    mode, the broadcast. *)
Definition publish (message : msg) : M unit :=
  (fun h => (Ret tt, set_MESSAGE (py_update (MESSAGE h) message) h)) ;;
  (if ARGS_interactive E then
     do shown <- (fun h => (py_item (MESSAGE h) "func", h));
     if py_eq shown (VStr "file") then edit_current_file else ret tt
   else ret tt) ;;
  send_message_to_all_js_clients.

(** Lines 713-734: what [handle_message] does once [func] is none of
    [numJSClients], [editFile], [back]. *)
Definition handle_update (func : value) (message : msg) : M unit := fun h =>
  match prepare func message h with
  | Raise e => (Raise e, h)
  | Ret message =>
      if py_in func ["dir"; "file"] then publish message h else (Ret tt, h)
  end.

(** The two pops of the [back] branch and the cap on the forward stack
    (lines 704-710), for a back stack [e1 :: e2 :: rest]. *)
Definition back_pop (message e1 e2 : msg) (rest : list msg) (h : hub)
  : msg * hub :=
  let '(restored, h) :=
    if truthy (py_get message "fileOpen") then
      (e1, set_BACKMESSAGES (e2 :: rest) h)
    else
      (e2, set_BACKMESSAGES rest
             (set_FORWARDMESSAGES (e1 :: FORWARDMESSAGES h) h)) in
  (restored, set_FORWARDMESSAGES (cap_20 (FORWARDMESSAGES h)) h).

(** One activation of [handle_message]: it ends with a result, or with
    the call [await handle_message(client, message)] of line 711. *)
Inductive next : Type :=
| Done (r : result unit * hub)
| Recurse (restored : msg) (h : hub).

(** The body of [handle_message(client, message)] (lines 688-734). *)
Definition handle_message_body (client : nat) (message : msg) (h : hub)
  : next :=
  let func := py_get message "func" in
  let h := set_nvim_address
             (py_get_or message "nvimAddress" (nvim_address h)) h in
  let message := delete "nvimAddress" message in
  match validate_message message with
  | Raise e => Done (Raise e, h)
  | Ret _ =>
  match chdir_to_cwd message h with
  | (Raise e, h) => Done (Raise e, h)
  | (Ret _, h) =>
      if negb (truthy func) then Done (Ret tt, h)
      else if py_eq func (VStr "numJSClients") then
        Done (Ret tt, emit (Send client (FCount (size (JSCLIENTS h)))) h)
      else if py_eq func (VStr "editFile") then
        Done (edit_current_file h)
      else if py_eq func (VStr "back") then
        match BACKMESSAGES h with
        | e1 :: e2 :: rest =>
            let '(restored, h) := back_pop message e1 e2 rest h in
            Recurse restored h
        | _ => Done (Ret tt, h)
        end
      else Done (handle_update func message h)
  end end.

(** [handle_message(client, message)], with the depth of the call stack
    as fuel: [None] when the fuel runs out. *)
Fixpoint handle_message_fuel (fuel : nat) (client : nat) (message : msg)
    (h : hub) : option (result unit * hub) :=
  match fuel with
  | O => None
  | S fuel' =>
      match handle_message_body client message h with
      | Done r => Some r
      | Recurse restored h' => handle_message_fuel fuel' client restored h'
      end
  end.

(** Each recursive call has popped at least one entry of the back stack
    (lemma [handle_message_fuel_enough]). *)
Definition handle_message (client : nat) (message : msg) : M unit := fun h =>
  match handle_message_fuel (S (length (BACKMESSAGES h))) client message h with
  | Some r => r
  | None => (Raise (OtherError "RecursionError"), h)
  end.

(** [register_client(client)], [message] being the first frame received
    on the connection, decoded. *)
Definition register_client (client : nat) (message : msg) : M unit :=
  let clienttype := py_get_or message "client" (VStr "") in
  (if py_eq clienttype (VStr "js") then
     fun h =>
       let h := set_clients ({[client]} ∪ JSCLIENTS h) (PYCLIENTS h) h in
       (Ret tt, emit (Send client (FState (MESSAGE h))) h)
   else if py_eq clienttype (VStr "py") then
     fun h => (Ret tt, set_clients (JSCLIENTS h) ({[client]} ∪ PYCLIENTS h) h)
   else raise ValueError) ;;
  handle_message client message.

Definition unregister_client (client : nat) : M unit := fun h =>
  (Ret tt, set_clients (JSCLIENTS h ∖ {[client]}) (PYCLIENTS h ∖ {[client]}) h).

(** The hub when the server starts, in working directory [startdir]. *)
Definition fresh_hub (startdir : string) : hub :=
  {| MESSAGE := ∅; BACKMESSAGES := []; FORWARDMESSAGES := [];
     JSCLIENTS := ∅; PYCLIENTS := ∅;
     nvim_address := VStr (ARGS_nvim_address E);
     oscwd := startdir; outbox := [] |}.

(** The operations the event loop runs on the hub, one at a time. *)
Inductive op : Type :=
| Register (client : nat) (first : msg)
| Handle (client : nat) (message : msg)
| Unregister (client : nat).

Definition step (o : op) : M unit :=
  match o with
  | Register c m => register_client c m
  | Handle c m => handle_message c m
  | Unregister c => unregister_client c
  end.

(** The hub after a sequence of operations; an operation that raises
    closes its connection only, the hub goes on from the state it left. *)
Definition run (ops : list op) (h : hub) : hub :=
  foldl (fun h o => snd (step o h)) h ops.

End Hub.

(** ** An environment to run the hub in

    Every directory exists, the listing and the markdown renderer are
    marked wrappers, [nbconvert] is not installed, the editor opens. *)
Definition demo_env : env :=
  {| ARGS_home := "/home/u"; ARGS_stdin := "md"; ARGS_interactive := false;
     ARGS_nvim_address := "127.0.0.1:9878";
     os_chdir := fun path => Some path;
     dir2body := fun cwd => Ret ("<ls>" ++ cwd ++ "</ls>");
     md2body_text := fun _ text => Ret ("<md>" ++ text ++ "</md>");
     ipynb2body := fun _ => Raise ImportError;
     edit_in_neovim := fun _ _ => Ret tt |}.


(** A directory message as the HTTP layer sends it on a GET. *)
Definition dir_message (cwd : string) : msg :=
  list_to_map
    [("client", VStr "py"); ("func", VStr "dir"); ("cwd", VStr cwd);
     ("cwdBody", VStr ("<ls>" ++ cwd ++ "</ls>")); ("cwdEncoded", VBool true);
     ("filename", VStr ""); ("fileBody", VStr ""); ("fileCwd", VStr cwd);
     ("fileOpen", VBool false); ("fileEncoding", VStr "");
     ("fileEncoded", VBool false)].

(** A file message as the HTTP layer sends it on a GET. *)
Definition file_message (cwd filename body encoding : string) : msg :=
  list_to_map
    [("client", VStr "py"); ("func", VStr "file"); ("cwd", VStr cwd);
     ("cwdBody", VStr ("<ls>" ++ cwd ++ "</ls>")); ("cwdEncoded", VBool true);
     ("filename", VStr filename); ("fileBody", VStr body);
     ("fileCwd", VStr cwd); ("fileOpen", VBool true);
     ("fileEncoding", VStr encoding); ("fileEncoded", VBool false)].

(** The first frame of a browser tab ([websocket.onopen]) and its back
    button. *)
Definition newjsclient : msg :=
  list_to_map [("func", VStr "newjsclient"); ("client", VStr "js")].
Definition back_request : msg :=
  list_to_map [("func", VStr "back"); ("client", VStr "js")].

(** ** Notions used in the statements *)

(** The chains [encode] can produce. *)
Inductive chain_shape : list (list value) -> Prop :=
| shape_guard : chain_shape [[]]
| shape_md : chain_shape [[VStr "md"]]
| shape_ipynb : chain_shape [[VStr "ipynb"]]
| shape_ipynb_degraded : chain_shape [[VStr "ipynb"; VStr "txt"; VStr "md"]]
| shape_txt : chain_shape [[VStr "txt"; VStr "md"]]
| shape_html : chain_shape [[VStr "html"]]
| shape_unknown (v : value) :
    py_in v ["md"; "ipynb"; "txt"; "html"] = false ->
    chain_shape [[v]; [VStr "txt"; VStr "md"]].

(** Fields of the hub that the prologue of [handle_message] (the
    [nvimAddress] pop, the validation, the [chdir]) leaves alone. *)
Definition same_canonical (h h' : hub) : Prop :=
  MESSAGE h' = MESSAGE h /\ BACKMESSAGES h' = BACKMESSAGES h
  /\ FORWARDMESSAGES h' = FORWARDMESSAGES h /\ JSCLIENTS h' = JSCLIENTS h
  /\ PYCLIENTS h' = PYCLIENTS h /\ outbox h' = outbox h.

(** A back-stack entry as [send_message_to_all_js_clients] builds it. *)
Definition is_snapshot (e : msg) : Prop :=
  exists cwd cwdBody cwdEncoded, e = history_entry cwd cwdBody cwdEncoded.

(** The frames a broadcast adds to the outbox. *)
Definition broadcast_frames (h : hub) : list event :=
  if decide (JSCLIENTS h = ∅) then []
  else [Broadcast (JSCLIENTS h) (FState (MESSAGE h))].

(** The two stacks are within their capacity and hold snapshots only. *)
Definition stacks_ok (h : hub) : Prop :=
  length (BACKMESSAGES h) <= 20 /\ length (FORWARDMESSAGES h) <= 20
  /\ Forall is_snapshot (BACKMESSAGES h)
  /\ Forall is_snapshot (FORWARDMESSAGES h).

(** The last frame broadcast to the viewers, with its addressees. *)
Definition last_broadcast (out : list event) : option (gset nat * frame) :=
  last (omap (fun e => match e with
                       | Broadcast clients f => Some (clients, f)
                       | Send _ _ => None
                       end) out).

Section Processed.

Variable E : env.

(** Every operation of the sequence returns, none raises. *)
Fixpoint all_return (ops : list op) (h : hub) : Prop :=
  match ops with
  | [] => True
  | o :: ops' =>
      fst (step E o h) = Ret tt /\ all_return ops' (snd (step E o h))
  end.

End Processed.

(** A [dir] message that lacks five of the required keys and carries a
    key that no message has. *)
Definition unvalidated_message : msg :=
  list_to_map
    [("client", VStr "py"); ("func", VStr "dir"); ("cwd", VStr "/a/");
     ("cwdBody", VStr ""); ("cwdEncoded", VBool true); ("bogus", VInt 1)].

(** ** Inputs of the scenarios *)

(** A file with an extension no renderer knows, as sent, and the same
    message once marked as encoded. *)
Definition weird_message : msg := file_message "/" "notes.xyz" "raw" "weird".
Definition encoded_weird_message : msg :=
  <["fileEncoded" := VBool true]> weird_message.

(** A file message without a name and without an encoding. *)
Definition nameless_message : msg := file_message "/" "" "raw" "".

(** Two directories visited in sequence, on a hub a browser tab is
    connected to. *)
Definition visit_a_then_b : list op :=
  [Register 7 newjsclient; Handle 0 (dir_message "/a/");
   Handle 0 (dir_message "/b/")].

(** The back request of a client that also sends [fileOpen]. *)
Definition back_request_file_open : msg :=
  <["fileOpen" := VBool true]> back_request.

(** Twenty directories visited in sequence. *)
Definition visit (n : nat) : op :=
  Handle 0 (dir_message ("/d" ++ pretty n ++ "/")).
Definition twenty_visits : list op := map visit (seq 0 20).

(** From [/a/], twenty directories each visited and left again with the
    back button, then [/z/]. *)
Definition there_and_back (n : nat) : list op :=
  [visit n; Handle 7 back_request].
Definition twenty_returns : list op :=
  (Handle 0 (dir_message "/a/") :: concat (map there_and_back (seq 0 20)))
  ++ [Handle 0 (dir_message "/z/")].

(** A file opened, then the directory above it requested, as the
    [upDirectory] button does, and the same with [forceClose]. *)
Definition open_notes : list op :=
  [Handle 0 (file_message "/docs/" "notes.md" "# hi" "")].
Definition close_file : msg := <["forceClose" := VBool true]> (dir_message "/docs/").

(** A forced close that carries an empty [filename] and no other file
    field. *)
Definition bare_close : msg :=
  list_to_map
    [("client", VStr "py"); ("func", VStr "dir"); ("cwd", VStr "/docs/");
     ("cwdBody", VStr ""); ("cwdEncoded", VBool false);
     ("filename", VStr ""); ("fileOpen", VBool false);
     ("forceClose", VBool true)].

(** ** The connection loop *)

Section Serve.

Variable E : env.

(** The [async for] of [serve_client]: the frames of a connection are
    handled in order until one raises. *)
Fixpoint handle_frames (client : nat) (frames : list msg) : M unit :=
  match frames with
  | [] => ret tt
  | message :: frames' =>
      handle_message E client message ;; handle_frames client frames'
  end.

(** [serve_client(client, path)]: [first] is the frame [register_client]
    receives, [frames] are those received until the connection closes.
    The registration is outside the [try]; the [finally] unregisters and
    lets the exception of the loop through.  The frames of other
    connections, which the event loop may interleave, are not part of
    this function. *)
Definition serve_client (client : nat) (first : msg) (frames : list msg)
  : M unit :=
  register_client E client first ;;
  (fun h => let '(r, h') := handle_frames client frames h in
            (r, snd (unregister_client client h'))).

End Serve.

(** The frame of [ask_num_js_clients]. *)
Definition num_js_clients_query : msg :=
  list_to_map [("client", VStr "py"); ("func", VStr "numJSClients")].

(** ** The producers *)

(** [send_as_pyclient_async]: the message goes out with
    [message["client"] = "py"], as the first frame of a new connection. *)
Definition send_as_pyclient (message : msg) : msg :=
  <["client" := VStr "py"]> message.

(** The three messages of the route [index] of the HTTP layer
    (lines 926-973): [listing] is [dir2body(cwd)], [content] what the
    file holds or the body of the PUT. *)
Definition index_file_message (cwd listing filename content : string) : msg :=
  list_to_map
    [("func", VStr "file"); ("cwd", VStr cwd); ("cwdBody", VStr listing);
     ("cwdEncoded", VBool true); ("filename", VStr filename);
     ("fileBody", VStr content); ("fileCwd", VStr cwd);
     ("fileOpen", VBool true); ("fileEncoding", VStr "");
     ("fileEncoded", VBool false)].

Definition index_dir_message (cwd listing filename : string) : msg :=
  list_to_map
    [("func", VStr "dir"); ("cwd", VStr cwd); ("cwdBody", VStr listing);
     ("cwdEncoded", VBool true); ("filename", VStr filename);
     ("fileBody", VStr ""); ("fileCwd", VStr cwd);
     ("fileOpen", VBool false); ("fileEncoding", VStr "");
     ("fileEncoded", VBool false)].

Definition index_put_message (cwd listing data : string) : msg :=
  list_to_map
    [("func", VStr "file"); ("cwd", VStr cwd); ("cwdBody", VStr listing);
     ("cwdEncoded", VBool true); ("filename", VStr "@put");
     ("fileBody", VStr data); ("fileCwd", VStr cwd);
     ("fileOpen", VBool true); ("fileEncoding", VStr "md");
     ("fileEncoded", VBool false)].

(** The message of [update_filename] (lines 1653-1665); the last key is
    spelled with a capital. *)
Definition update_filename_message
    (cwd listing filename content nvim_address : string) : msg :=
  list_to_map
    [("func", VStr "file"); ("cwd", VStr cwd); ("cwdBody", VStr listing);
     ("cwdEncoded", VBool true); ("filename", VStr filename);
     ("fileBody", VStr content); ("fileCwd", VStr cwd);
     ("fileOpen", VBool true); ("fileEncoding", VStr "");
     ("fileEncoded", VBool false); ("NvimAddress", VStr nvim_address)].

(** What [sys.stdin.read()] gave, as [json.loads] sees it: a JSON
    object, another JSON value, or a text that is not JSON. *)
Inductive stdin_content : Type :=
| StdinObject (m : msg)
| StdinScalar (v : value)
| StdinText (content : string).

(** [send_message_from_stdin] up to the call of [send_as_pyclient], whose
    argument it returns; [cwd] is the working directory relative to
    [ARGS.home], slash-terminated.  [dir2body(cwd)] is evaluated whether
    or not the input has a [cwdBody]. *)
Definition send_message_from_stdin (E : env) (cwd : string)
    (input : stdin_content) : result msg :=
  result_bind
    (match input with
     | StdinObject m => Ret m
     | StdinScalar _ => Raise AttributeError
     | StdinText content => Ret {["fileBody" := VStr content]}
     end) (fun message =>
  let message := <["func" := py_get_or message "func" (VStr "file")]> message in
  let message := <["cwd" := py_get_or message "cwd" (VStr cwd)]> message in
  let message :=
    <["cwdEncoded" :=
        VBool (truthy (py_get_or message "cwdEncoded" (VBool true)))]> message in
  result_bind (dir2body E cwd) (fun listing =>
  let message :=
    <["cwdBody" := py_get_or message "cwdBody" (VStr listing)]> message in
  let message :=
    <["cwdCwd" := py_get_or message "fileCwd" (VStr cwd)]> message in
  let message :=
    <["filename" := py_get_or message "filename" (VStr "@pipe")]> message in
  let message :=
    <["fileEncoding" :=
        py_get_or message "fileEncoding" (VStr (ARGS_stdin E))]> message in
  let message :=
    <["fileEncoded" :=
        VBool (truthy (py_get_or message "fileEncoded" (VBool false)))]>
      message in
  let message :=
    <["fileOpen" :=
        VBool (truthy (py_get_or message "fileOpen" (VBool true)))]> message in
  let message := <["nvimAddress" := VStr (ARGS_nvim_address E)]> message in
  Ret (send_as_pyclient message))).


(** ** Readiness polling *)

(** [connection.connect()]: it returns, is refused, or fails
    otherwise. *)
Inductive connect_result : Type :=
| Connected
| Refused
| ConnectError (e : exn).

Definition ConnectionRefusedError : exn := OtherError "ConnectionRefusedError".

Section Polling.

(** The outcome of the [k]-th connection attempt to a server. *)
Variable connect : string -> nat -> connect_result.

(** [request_server_status(server)], as the [k]-th probe. *)
Definition request_server_status (server : string) (k : nat) : result string :=
  if String.eqb server "websocket" || String.eqb server "flask" then
    match connect server k with
    | Connected => Ret "running"
    | Refused => Ret "stopped"
    | ConnectError e => Raise e
    end
  else Raise ValueError.

(** The loop of [wait_for_server], [k] probes having been made; the
    second component is the number of probes made when it ends.  Every
    probe that does not end the loop is followed by one
    [time.sleep(interval)]. *)
Fixpoint wait_for_server_loop (attempts : nat) (server : string) (k : nat)
  : result unit * nat :=
  match attempts with
  | O => (Raise ConnectionRefusedError, k)
  | S attempts' =>
      match request_server_status server k with
      | Raise e => (Raise e, S k)
      | Ret status =>
          if String.eqb status "running" then (Ret tt, S k)
          else wait_for_server_loop attempts' server (S k)
      end
  end.

(** [wait_for_server(interval, max_attempts, server, status)] *)
Definition wait_for_server (max_attempts : nat) (server status : string)
  : result unit * nat :=
  if String.eqb status "running" || String.eqb status "stopped" then
    wait_for_server_loop max_attempts server 0
  else (Raise ValueError, 0).

(** The answer of the [k]-th call of [number_of_connected_jsclients()]. *)
Variable jsclients : nat -> result nat.

Fixpoint wait_for_connected_jsclient_loop (attempts k : nat)
  : result unit * nat :=
  match attempts with
  | O => (Raise ConnectionRefusedError, k)
  | S attempts' =>
      match jsclients k with
      | Raise e => (Raise e, S k)
      | Ret n =>
          if (0 <? n)%nat then (Ret tt, S k)
          else wait_for_connected_jsclient_loop attempts' (S k)
      end
  end.

(** [wait_for_connected_jsclient(interval, max_attempts)] *)
Definition wait_for_connected_jsclient (max_attempts : nat)
  : result unit * nat :=
  wait_for_connected_jsclient_loop max_attempts 0.

End Polling.

(** ** Binary files *)




(** ** The directory projector *)

(** [os.path.join(a, b)] of [posixpath], for one component [b]. *)
Fixpoint ends_with_slash (s : string) : bool :=
  match s with
  | EmptyString => false
  | String c EmptyString => Ascii.eqb c "/"
  | String _ s' => ends_with_slash s'
  end.

Definition path_join (a b : string) : string :=
  if String.prefix "/" b then b
  else if String.eqb a "" || ends_with_slash a then a ++ b
  else a ++ String "/" b.

(** [os.path.basename(p)] *)
Definition basename (p : string) : string :=
  str_drop (Z.to_nat (rfind "/" p + 1)) p.

(** [s.replace(old, new)]: every occurrence, from the left, without
    overlap; an empty [old] matches before every character and at the
    end. *)
Fixpoint replace_from (old new : string) (skip : nat) (s : string) : string :=
  match s with
  | EmptyString => EmptyString
  | String c s' =>
      match skip with
      | S skip' => replace_from old new skip' s'
      | O =>
          if String.prefix old s
          then new ++ replace_from old new (String.length old - 1) s'
          else String c (replace_from old new 0 s')
      end
  end.

Fixpoint insert_after_each (new s : string) : string :=
  match s with
  | EmptyString => EmptyString
  | String c s' => String c (new ++ insert_after_each new s')
  end.

Definition str_replace (old new s : string) : string :=
  if String.eqb old "" then new ++ insert_after_each new s
  else replace_from old new 0 s.

(** [sep.join(l)] *)
Fixpoint str_join (sep : string) (l : list string) : string :=
  match l with
  | [] => EmptyString
  | [x] => x
  | x :: l' => x ++ sep ++ str_join sep l'
  end.

(** [sorted(l, key=key)]: the sort is stable; strings compare by code
    points, which is the order of their UTF-8 bytes. *)
Fixpoint insert_by_key (key : string -> string) (x : string)
    (l : list string) : list string :=
  match l with
  | [] => [x]
  | y :: l' =>
      if String.ltb (key y) (key x) then y :: insert_by_key key x l'
      else x :: y :: l'
  end.

Fixpoint sorted_by_key (key : string -> string) (l : list string)
  : list string :=
  match l with
  | [] => []
  | x :: l' => insert_by_key key x (sorted_by_key key l')
  end.

(** The double quote, the line feed, and the two pictograms of the
    listing in UTF-8 (U+1F4C1, U+1F4C4). *)
Definition dquote : string := String "034" EmptyString.
Definition line_feed : string := String "010" EmptyString.
Definition folder_sign : string :=
  String "240" (String "159" (String "147" (String "129" EmptyString))).
Definition page_sign : string :=
  String "240" (String "159" (String "147" (String "132" EmptyString))).

Section DirectoryProjector.

(** [ARGS.home], [ARGS.port], [os.listdir], [os.path.isdir] and
    [str.upper]. *)
Variable home port : string.
Variable listdir : string -> result (list string).
Variable isdir : string -> bool.
Variable upper : string -> string.

(** The [url] of [dir2body] *)
Definition dir2body_url (path : string) : string :=
  str_replace home ("http://127.0.0.1:" ++ port) path.

(** The [link] of [dir2body]: the name shown and the address.  [t0] is
    [t[0]], [t1] is [t[1:]]. *)
Definition dir2body_link (sign t t0 t1 path : string) : string * string :=
  (t ++ sign ++ "&nbsp;" ++ basename path ++ t0 ++ "/" ++ t1,
   dir2body_url path).

Definition dir_anchor (path : string) : string :=
  let '(name, url) := dir2body_link folder_sign "<b>" "<" "b>" path in
  "<a href=" ++ dquote ++ url ++ dquote ++ ">" ++ name ++ "</a>".

Definition file_anchor (path : string) : string :=
  let '(name, url) := dir2body_link page_sign " " " " "" path in
  "<a href=" ++ dquote ++ url ++ dquote ++ ">"
  ++ str_replace "/" "" name ++ "</a>".

(** The directory [dir2body] lists for [cwd] (lines 1033-1034). *)
Definition dir2body_path (cwd : string) : string :=
  let i := match cwd with
           | String c _ => if Ascii.eqb c "/" then 1 else 0
           | EmptyString => 0
           end in
  path_join home (str_drop i cwd).

(** The anchors of a listing, those of the directories first. *)
Definition dir2body_anchors (path : string) (names : list string)
  : list string :=
  let paths := map (path_join path) (sorted_by_key upper names) in
  map dir_anchor (List.filter isdir paths)
  ++ map file_anchor (List.filter (fun p => negb (isdir p)) paths).

(** [dir2body(cwd)] (lines 1024-1046) *)
Definition dir2body_fs (cwd : value) : result string :=
  match cwd with
  | VStr cwd =>
      let path := dir2body_path cwd in
      result_bind (listdir path) (fun names =>
      Ret (str_join ("<br>" ++ line_feed) (dir2body_anchors path names)))
  | _ => Raise TypeError
  end.

End DirectoryProjector.

(** ** Notions used in the further statements *)

(** The order [sorted] keeps under the key [key]. *)
Definition key_le (key : string -> string) (a b : string) : Prop :=
  String.leb (key a) (key b) = true.

(** No two neighbours of a stack show the same directory. *)
Fixpoint no_repeat (l : list msg) : Prop :=
  match l with
  | e1 :: ((e2 :: _) as l') =>
      py_eq (py_get e1 "cwd") (py_get e2 "cwd") = false /\ no_repeat l'
  | _ => True
  end.

(** ** Inputs of the further scenarios *)

(** [demo_env] with one directory that cannot be entered. *)
Definition closed_env : env :=
  {| ARGS_home := "/home/u"; ARGS_stdin := "md"; ARGS_interactive := false;
     ARGS_nvim_address := "127.0.0.1:9878";
     os_chdir := fun path =>
       if String.eqb path "/home/u/gone/" then None else Some path;
     dir2body := fun cwd => Ret ("<ls>" ++ cwd ++ "</ls>");
     md2body_text := fun _ text => Ret ("<md>" ++ text ++ "</md>");
     ipynb2body := fun _ => Raise ImportError;
     edit_in_neovim := fun _ _ => Ret tt |}.

(** The edit button of a browser tab, and a first frame with a role
    the hub does not know. *)
Definition edit_request : msg :=
  list_to_map [("func", VStr "editFile"); ("client", VStr "js")].
Definition robot_hello : msg :=
  list_to_map [("func", VStr "dir"); ("client", VStr "robot")].

(** A directory message that leaves the listing to the hub, and a
    notebook. *)
Definition unrendered_dir_message : msg :=
  <["cwdEncoded" := VBool false]> (dir_message "/docs/").
Definition notebook_message : msg := file_message "/" "nb.ipynb" "{}" "ipynb".

(** The message built from the text [# piped], piped in from [/tmp/]. *)
Definition piped_text_message : msg :=
  match send_message_from_stdin demo_env "/tmp/" (StdinText "# piped") with
  | Ret m => m
  | Raise _ => ∅
  end.

(** A server that accepts connections from the fourth attempt on, and a
    hub that counts a viewer from the third query on. *)
Definition up_after_three (server : string) (k : nat) : connect_result :=
  if (k <? 3)%nat then Refused else Connected.
Definition viewer_after_two (k : nat) : result nat :=
  Ret (if (k <? 2)%nat then 0 else 1)%nat.


(** A directory with two files and two sub-directories; names are
    upper-cased letter by letter. *)
Definition ascii_upper (c : ascii) : ascii :=
  let n := nat_of_ascii c in
  if ((97 <=? n) && (n <=? 122))%nat then ascii_of_nat (n - 32) else c.
Fixpoint letters_upper (s : string) : string :=
  match s with
  | EmptyString => EmptyString
  | String c s' => String (ascii_upper c) (letters_upper s')
  end.
Definition docs_listdir (path : string) : result (list string) :=
  if String.eqb path "/home/u/docs/" then Ret ["b.txt"; "Zed"; "a.md"; "src"]
  else Raise OSError.
Definition docs_isdir (path : string) : bool :=
  String.eqb path "/home/u/docs/Zed" || String.eqb path "/home/u/docs/src".

(** * Properties *)

(** Membership of a literal key in a literal list of keys. *)
Ltac key_in_list :=
  match goal with
  | H : ?k ∈ ?l |- _ =>
      apply (bool_decide_pack _) in H; vm_compute in H;
      first [discriminate H | destruct H]
  | |- ?k ∉ ?l =>
      apply (bool_decide_unpack _); vm_compute; first [reflexivity | exact I]
  | |- ?k ∈ ?l =>
      apply (bool_decide_unpack _); vm_compute; first [reflexivity | exact I]
  end.

(** ** Renderer dispatch *)

Section EncodeFacts.

Variable E : env.
Variable cwd : string.

Lemma py_eq_str (v : value) (s : string) :
  py_eq v (VStr s) = true <-> v = VStr s.
Proof.
  destruct v; simpl; split; try discriminate.
  - intros H. apply String.eqb_eq in H. by subst.
  - intros [= ->]. apply String.eqb_refl.
Qed.

Lemma py_eq_str_false (v : value) (s : string) :
  py_eq v (VStr s) = false -> v <> VStr s.
Proof. intros H Hv. apply py_eq_str in Hv. congruence. Qed.

Lemma encode_fuel_txt (fuel : nat) (m : msg) :
  encode_fuel E cwd (S fuel)
    (<["fileEncoded" := VBool false]> (<["fileEncoding" := VStr "txt"]> m))
  = Some ([[VStr "txt"; VStr "md"]],
          render_body (txt2body E cwd)
            (<["fileEncoded" := VBool true]>
               (<["fileEncoded" := VBool false]>
                  (<["fileEncoding" := VStr "txt"]> m)))).
Proof.
  simpl. unfold encode_body, py_get_or. rewrite lookup_insert_eq. simpl.
  unfold encode_infer, py_get.
  rewrite lookup_insert_ne by done. rewrite lookup_insert_ne by done.
  rewrite lookup_insert_eq. reflexivity.
Qed.

(** The recursive call never recurses: any deeper stack behaves as one
    of depth one. *)
Lemma encode_tail_retry (n : nat) (encoding : value) (m : msg) :
  encode_tail E cwd (encode_fuel E cwd (S n)) encoding m
  = encode_tail E cwd (encode_fuel E cwd 1) encoding m.
Proof.
  unfold encode_tail.
  destruct (py_eq encoding (VStr "txt")); [done|].
  destruct (py_item m "fileEncoding") as [declared|]; [|done].
  destruct (py_eq declared (VStr "html")); [done|].
  by rewrite !encode_fuel_txt.
Qed.

Lemma encode_tail_some (n : nat) (encoding : value) (m : msg) :
  is_Some (encode_tail E cwd (encode_fuel E cwd (S n)) encoding m).
Proof.
  unfold encode_tail.
  destruct (py_eq encoding (VStr "txt")); [done|].
  destruct (py_item m "fileEncoding") as [declared|]; [|done].
  destruct (py_eq declared (VStr "html")); [done|].
  by rewrite encode_fuel_txt.
Qed.

Lemma encode_body_retry (n : nat) (m : msg) :
  encode_body E cwd (encode_fuel E cwd (S n)) m
  = encode_body E cwd (encode_fuel E cwd 1) m.
Proof.
  unfold encode_body.
  destruct (truthy _); [done|].
  destruct (encode_infer _ _) as [[m' encoding]|]; [|done].
  destruct (py_eq encoding (VStr "md")); [done|].
  destruct (py_eq encoding (VStr "ipynb")); [|apply encode_tail_retry].
  destruct (py_item m' "fileBody") as [body|]; [|done].
  destruct (ipynb2body E body) as [html|e]; [done|].
  by rewrite encode_tail_retry.
Qed.

Lemma encode_body_some (n : nat) (m : msg) :
  is_Some (encode_body E cwd (encode_fuel E cwd (S n)) m).
Proof.
  unfold encode_body.
  destruct (truthy _); [done|].
  destruct (encode_infer _ _) as [[m' encoding]|]; [|done].
  destruct (py_eq encoding (VStr "md")); [done|].
  destruct (py_eq encoding (VStr "ipynb")); [|apply encode_tail_some].
  destruct (py_item m' "fileBody") as [body|]; [|done].
  destruct (ipynb2body E body) as [html|e]; [done|].
  destruct (encode_tail_some n (VStr "txt") (<["fileEncoding" := VStr "txt"]> m'))
    as [[frames r] Htail].
  destruct e; try done; by rewrite Htail.
Qed.

Lemma encode_fuel_enough (n : nat) (m : msg) :
  encode_fuel E cwd (2 + n) m = Some (encode_run E cwd m).
Proof.
  change (encode_fuel E cwd (2 + n) m)
    with (encode_body E cwd (encode_fuel E cwd (S n)) m).
  rewrite encode_body_retry. unfold encode_run.
  change (encode_fuel E cwd 2 m)
    with (encode_body E cwd (encode_fuel E cwd 1) m).
  by destruct (encode_body_some 0 m) as [r ->].
Qed.

Lemma encode_run_body (m : msg) :
  encode_body E cwd (encode_fuel E cwd 1) m = Some (encode_run E cwd m).
Proof. apply (encode_fuel_enough 0). Qed.

Lemma encode_tail_1 (encoding : value) (m : msg) :
  encode_tail E cwd (encode_fuel E cwd 1) encoding m
  = Some
      (if py_eq encoding (VStr "txt") then
         ([[VStr "txt"; VStr "md"]], render_body (txt2body E cwd) m)
       else
         match py_item m "fileEncoding" with
         | Raise e => ([[]], Raise e)
         | Ret declared =>
             if py_eq declared (VStr "html") then ([[VStr "html"]], Ret m)
             else
               ([[encoding]; [VStr "txt"; VStr "md"]],
                render_body (txt2body E cwd)
                  (<["fileEncoded" := VBool true]>
                     (<["fileEncoded" := VBool false]>
                        (<["fileEncoding" := VStr "txt"]> m))))
         end).
Proof.
  unfold encode_tail.
  destruct (py_eq encoding (VStr "txt")); [done|].
  destruct (py_item m "fileEncoding") as [declared|]; [|done].
  destruct (py_eq declared (VStr "html")); [done|].
  by rewrite encode_fuel_txt.
Qed.

Lemma render_body_ret (f : value -> result string) (m m' : msg) :
  render_body f m = Ret m' ->
  exists body html,
    m !! "fileBody" = Some body /\ f body = Ret html
    /\ m' = <["fileBody" := VStr html]> m.
Proof.
  unfold render_body, py_item.
  destruct (m !! "fileBody") as [body|]; [|done]. simpl.
  destruct (f body) as [html|] eqn:Hf; [|done]. simpl.
  intros [= <-]. eauto.
Qed.

Lemma encode_infer_ret (m m' : msg) (encoding : value) :
  encode_infer E m = Ret (m', encoding) ->
  m' !! "fileEncoding" = Some encoding
  \/ (m' = m /\ truthy (py_get m "fileEncoding") = true).
Proof.
  unfold encode_infer.
  destruct (truthy (py_get m "fileEncoding")) eqn:Hdeclared.
  - intros [= <- <-]. by right.
  - destruct (py_get m "filename") as [| |n|[|c rest]]; try done.
    intros [= <- <-]. left. apply lookup_insert_eq.
Qed.

Lemma encode_infer_frame (m m' : msg) (encoding : value) (k : string) :
  encode_infer E m = Ret (m', encoding) ->
  k <> "fileEncoding" -> m' !! k = m !! k.
Proof.
  unfold encode_infer.
  destruct (truthy (py_get m "fileEncoding")).
  - by intros [= <- <-].
  - destruct (py_get m "filename") as [| |n|[|c rest]]; try done.
    intros [= <- <-] Hk. by rewrite lookup_insert_ne.
Qed.

(** Whatever [encode] returns is marked as encoded. *)
Lemma encode_marks_encoded (m m' : msg) :
  encode E cwd m = Ret m' ->
  truthy (py_get_or m' "fileEncoded" (VBool false)) = true.
Proof.
  unfold encode. pose proof (encode_run_body m) as Hrun.
  destruct (encode_run E cwd m) as [frames r]. simpl. intros ->.
  unfold encode_body in Hrun.
  destruct (truthy (py_get_or m "fileEncoded" (VBool false))) eqn:Hdone.
  { simplify_eq. assumption. }
  destruct (encode_infer E _) as [[m1 encoding]|] eqn:Hinfer; [|done].
  assert (Hm1 : m1 !! "fileEncoded" = Some (VBool true)).
  { rewrite (encode_infer_frame _ _ _ "fileEncoded" Hinfer) by done.
    apply lookup_insert_eq. }
  assert (Hrender : forall f m2, m2 !! "fileEncoded" = Some (VBool true) ->
            render_body f m2 = Ret m' ->
            truthy (py_get_or m' "fileEncoded" (VBool false)) = true).
  { intros f m2 Hm2 (body & html & _ & _ & ->)%render_body_ret.
    unfold py_get_or. rewrite lookup_insert_ne by done. by rewrite Hm2. }
  rewrite !encode_tail_1 in Hrun.
  repeat (case_match; simplify_eq; try done);
    try (by unfold py_get_or; simplify_map_eq);
    try (eapply Hrender; [|eassumption]; by simplify_map_eq).
Qed.

(** C3. [encode] is idempotent: a message whose [fileEncoded] flag is
    true is returned unchanged, and for every message, applying [encode]
    to the result of [encode] gives that result again. *)
Theorem encode_idempotent (m : msg) :
  (truthy (py_get_or m "fileEncoded" (VBool false)) = true ->
   encode E cwd m = Ret m)
  /\ result_bind (encode E cwd m) (encode E cwd) = encode E cwd m.
Proof.
  assert (Hguard : forall m0,
            truthy (py_get_or m0 "fileEncoded" (VBool false)) = true ->
            encode E cwd m0 = Ret m0).
  { intros m0 Hdone. unfold encode.
    pose proof (encode_run_body m0) as Hrun. unfold encode_body in Hrun.
    rewrite Hdone in Hrun. by injection Hrun as <-. }
  split; [apply Hguard|].
  destruct (encode E cwd m) as [m'|e] eqn:Hfirst; [|done]. simpl.
  apply Hguard. by eapply encode_marks_encoded.
Qed.

Lemma encode_infer_declared (m m' : msg) (encoding : value) :
  encode_infer E m = Ret (m', encoding) ->
  m' !! "fileEncoding" = Some encoding.
Proof.
  unfold encode_infer, py_get.
  destruct (m !! "fileEncoding") as [declared|] eqn:Hdeclared; simpl.
  - destruct (truthy declared); [by intros [= <- <-]|].
    destruct (default VNone (m !! "filename")) as [| |n|[|c rest]]; try done.
    intros [= <- <-]. apply lookup_insert_eq.
  - destruct (default VNone (m !! "filename")) as [| |n|[|c rest]]; try done.
    intros [= <- <-]. apply lookup_insert_eq.
Qed.

Lemma encode_chain_shape (m : msg) : chain_shape (encode_chain E cwd m).
Proof.
  unfold encode_chain. pose proof (encode_run_body m) as Hrun.
  destruct (encode_run E cwd m) as [frames r]. simpl.
  unfold encode_body in Hrun.
  destruct (truthy (py_get_or m "fileEncoded" (VBool false))).
  { injection Hrun as <- <-. constructor. }
  destruct (encode_infer E _) as [[m1 encoding]|] eqn:Hinfer.
  2:{ injection Hrun as <- <-. constructor. }
  apply encode_infer_declared in Hinfer.
  destruct (py_eq encoding (VStr "md")) eqn:Hmd.
  { injection Hrun as <- <-. constructor. }
  destruct (py_eq encoding (VStr "ipynb")) eqn:Hipynb.
  { destruct (py_item m1 "fileBody") as [body|].
    2:{ injection Hrun as <- <-. constructor. }
    destruct (ipynb2body E body) as [html|e].
    { injection Hrun as <- <-. constructor. }
    rewrite encode_tail_1 in Hrun. simpl in Hrun.
    destruct e; injection Hrun as <- <-; constructor. }
  rewrite encode_tail_1 in Hrun.
  destruct (py_eq encoding (VStr "txt")) eqn:Htxt.
  { injection Hrun as <- <-. constructor. }
  unfold py_item in Hrun. rewrite Hinfer in Hrun.
  destruct (py_eq encoding (VStr "html")) eqn:Hhtml.
  { injection Hrun as <- <-. constructor. }
  injection Hrun as <- <-. constructor.
  simpl. by rewrite Hmd, Hipynb, Htxt, Hhtml.
Qed.

(** C4. For every message - whatever its declared [fileEncoding] -
    [encode] terminates: a call stack of depth two is enough, and more
    fuel changes nothing.  The chain enters at most three rendering
    paths, never the same one twice, and [encode] calls itself only
    after an unknown encoding, with [txt], which is rendered through the
    markdown path without a further call. *)
Theorem encode_chain_terminates (m : msg) :
  (forall n, encode_fuel E cwd (2 + n) m = Some (encode_run E cwd m))
  /\ length (encode_steps E cwd m) <= 3
  /\ NoDup (encode_steps E cwd m)
  /\ ((exists own, encode_chain E cwd m = [own])
      \/ (exists v, py_in v ["md"; "ipynb"; "txt"; "html"] = false
                    /\ encode_chain E cwd m = [[v]; [VStr "txt"; VStr "md"]])).
Proof.
  split; [intros n; apply encode_fuel_enough|].
  unfold encode_steps.
  destruct (encode_chain_shape m) as [| | | | | |v Hv]; simpl;
    (split; [lia|]);
    (split; [|first [by left; eexists | by right; eexists; split; [exact Hv|]]]);
    try (apply (bool_decide_unpack _); vm_compute; reflexivity).
  simpl in Hv. rewrite !orb_false_iff in Hv.
  destruct Hv as (Hmd & Hipynb & Htxt & Hhtml & _).
  apply py_eq_str_false in Hmd, Htxt.
  apply NoDup_cons_2.
  - rewrite !elem_of_cons. intros [?|[?|[]%elem_of_nil]]; congruence.
  - apply (bool_decide_unpack _). vm_compute. reflexivity.
Qed.


(** C10. The block of [encode] that infers a missing encoding indexes
    [filename[0]]: on a message whose [fileEncoding] and [filename] are
    both empty it raises [IndexError], and so does [encode] when it
    reaches the block (the message is not marked as encoded); on every
    message whose [fileEncoding] is non-empty or whose [filename] is a
    non-empty text the block returns. *)
Theorem encode_infer_needs_filename (m : msg) :
  (truthy (py_get m "fileEncoding") = false ->
   py_get m "filename" = VStr "" ->
   encode_infer E m = Raise IndexError
   /\ (truthy (py_get_or m "fileEncoded" (VBool false)) = false ->
       encode E cwd m = Raise IndexError))
  /\ (truthy (py_get m "fileEncoding") = true
      \/ (exists c rest, py_get m "filename" = VStr (String c rest)) ->
      exists m' encoding, encode_infer E m = Ret (m', encoding)).
Proof.
  split.
  - intros Hundeclared Hname. split.
    + unfold encode_infer. by rewrite Hundeclared, Hname.
    + intros Hfresh. unfold encode. pose proof (encode_run_body m) as Hrun.
      unfold encode_body in Hrun. rewrite Hfresh in Hrun.
      unfold encode_infer, py_get in Hrun, Hundeclared, Hname.
      do 2 (rewrite lookup_insert_ne in Hrun by done).
      rewrite Hundeclared, Hname in Hrun. by injection Hrun as <-.
  - unfold encode_infer. intros [Hdeclared|(c & rest & Hname)].
    + rewrite Hdeclared. eauto.
    + rewrite Hname. destruct (truthy _); eauto.
Qed.

End EncodeFacts.

(** ** The hub: termination of [handle_message] *)

Section HubFacts.

Variable E : env.

Lemma same_canonical_refl (h : hub) : same_canonical h h.
Proof. by repeat split. Qed.

Lemma same_canonical_trans (h1 h2 h3 : hub) :
  same_canonical h1 h2 -> same_canonical h2 h3 -> same_canonical h1 h3.
Proof.
  unfold same_canonical. intros (?&?&?&?&?&?) (?&?&?&?&?&?).
  repeat split; congruence.
Qed.

Lemma chdir_to_cwd_frame (m : msg) (h h' : hub) (r : result unit) :
  chdir_to_cwd E m h = (r, h') ->
  same_canonical h h' /\ nvim_address h' = nvim_address h.
Proof.
  unfold chdir_to_cwd. intros Hc.
  repeat case_match; simplify_eq; by repeat split.
Qed.

Lemma edit_current_file_frame (h h' : hub) (r : result unit) :
  edit_current_file E h = (r, h') -> h' = h.
Proof.
  unfold edit_current_file. intros Hc. repeat case_match; by simplify_eq.
Qed.

(** What an activation of [handle_message] can end with. *)
Lemma handle_message_body_cases (c : nat) (m : msg) (h : hub) :
  exists h1, same_canonical h h1 /\
    ((exists e, handle_message_body E c m h = Done (Raise e, h1))
     \/ (truthy (py_get m "func") = false
         /\ handle_message_body E c m h = Done (Ret tt, h1))
     \/ (py_get m "func" = VStr "numJSClients"
         /\ handle_message_body E c m h
            = Done (Ret tt, emit (Send c (FCount (size (JSCLIENTS h1)))) h1))
     \/ (py_get m "func" = VStr "editFile"
         /\ handle_message_body E c m h = Done (edit_current_file E h1))
     \/ (py_get m "func" = VStr "back" /\ length (BACKMESSAGES h) < 2
         /\ handle_message_body E c m h = Done (Ret tt, h1))
     \/ (py_get m "func" = VStr "back"
         /\ exists e1 e2 rest restored h2,
              BACKMESSAGES h = e1 :: e2 :: rest
              /\ back_pop (delete "nvimAddress" m) e1 e2 rest h1
                 = (restored, h2)
              /\ handle_message_body E c m h = Recurse restored h2)
     \/ (truthy (py_get m "func") = true
         /\ py_in (py_get m "func") ["numJSClients"; "editFile"; "back"] = false
         /\ handle_message_body E c m h
            = Done (handle_update E (py_get m "func")
                      (delete "nvimAddress" m) h1))).
Proof.
  unfold handle_message_body.
  set (h0 := set_nvim_address _ h).
  assert (H0 : same_canonical h h0) by by repeat split.
  destruct (validate_message _) as [[]|e].
  2:{ exists h0. split; [done|]. left. eauto. }
  destruct (chdir_to_cwd E _ h0) as [[[]|e] h1] eqn:Hchdir;
    apply chdir_to_cwd_frame in Hchdir as [Hsame _];
    pose proof (same_canonical_trans _ _ _ H0 Hsame) as H1;
    exists h1; (split; [done|]).
  2:{ left. eauto. }
  destruct (truthy (py_get m "func")) eqn:Htruthy; simpl.
  2:{ right. left. done. }
  destruct (py_eq _ (VStr "numJSClients")) eqn:Hnum.
  { apply py_eq_str in Hnum. do 2 right. left. done. }
  destruct (py_eq _ (VStr "editFile")) eqn:Hedit.
  { apply py_eq_str in Hedit. do 3 right. left. done. }
  destruct (py_eq _ (VStr "back")) eqn:Hback.
  { apply py_eq_str in Hback. destruct H1 as (_ & Hstack & _).
    destruct (BACKMESSAGES h1) as [|e1 [|e2 rest]] eqn:Hb1.
    - do 4 right. left. rewrite <- Hstack. simpl. split; [done|]. split; [lia|done].
    - do 4 right. left. rewrite <- Hstack. simpl. split; [done|]. split; [lia|done].
    - do 5 right. left. split; [done|].
      destruct (back_pop _ e1 e2 rest h1) as [restored h2] eqn:Hpop.
      exists e1, e2, rest, restored, h2. by rewrite <- Hstack. }
  do 6 right. split; [done|]. unfold py_in. cbn [existsb]. done.
Qed.

Lemma back_pop_spec (m e1 e2 restored : msg) (rest : list msg) (h h' : hub) :
  back_pop m e1 e2 rest h = (restored, h') ->
  MESSAGE h' = MESSAGE h /\ JSCLIENTS h' = JSCLIENTS h
  /\ PYCLIENTS h' = PYCLIENTS h /\ outbox h' = outbox h
  /\ nvim_address h' = nvim_address h /\ oscwd h' = oscwd h
  /\ ((truthy (py_get m "fileOpen") = true /\ restored = e1
       /\ BACKMESSAGES h' = e2 :: rest
       /\ FORWARDMESSAGES h' = cap_20 (FORWARDMESSAGES h))
      \/ (truthy (py_get m "fileOpen") = false /\ restored = e2
          /\ BACKMESSAGES h' = rest
          /\ FORWARDMESSAGES h' = cap_20 (e1 :: FORWARDMESSAGES h))).
Proof.
  unfold back_pop. destruct (truthy _); intros [= <- <-]; simpl;
    repeat split; auto.
Qed.

Lemma handle_message_body_recurse (c : nat) (m restored : msg) (h h' : hub) :
  handle_message_body E c m h = Recurse restored h' ->
  length (BACKMESSAGES h') < length (BACKMESSAGES h).
Proof.
  intros Hbody.
  destruct (handle_message_body_cases c m h) as (h1 & Hsame & Hcases).
  rewrite Hbody in Hcases.
  destruct Hcases as [[e ?]|[[_ ?]|[[_ ?]|[[_ ?]|[(_&_&?)|[Hback|(_&_&?)]]]]]];
    try done.
  destruct Hback as (_ & e1 & e2 & rest & restored' & h2 & Hstack & Hpop & [= -> ->]).
  apply back_pop_spec in Hpop as (_&_&_&_&_&_&Hpop). rewrite Hstack. simpl.
  destruct Hpop as [(_&_&->&_)|(_&_&->&_)]; simpl; lia.
Qed.

Lemma handle_message_fuel_some (fuel c : nat) (m : msg) (h : hub) :
  length (BACKMESSAGES h) < fuel ->
  is_Some (handle_message_fuel E fuel c m h).
Proof.
  revert m h. induction fuel as [|fuel IH]; intros m h Hlen; [lia|].
  simpl. destruct (handle_message_body E c m h) as [r|restored h'] eqn:Hbody.
  - done.
  - apply IH. apply handle_message_body_recurse in Hbody. lia.
Qed.

Lemma handle_message_fuel_more (fuel fuel' c : nat) (m : msg) (h : hub)
    (r : result unit * hub) :
  handle_message_fuel E fuel c m h = Some r -> fuel <= fuel' ->
  handle_message_fuel E fuel' c m h = Some r.
Proof.
  revert fuel' m h. induction fuel as [|fuel IH]; intros fuel' m h; [done|].
  destruct fuel' as [|fuel']; [lia|]. simpl.
  destruct (handle_message_body E c m h); [done|].
  intros Hrun Hle. apply IH; [done|lia].
Qed.

(** Fuel beyond the height of the back stack is never used. *)
Lemma handle_message_fuel_enough (fuel c : nat) (m : msg) (h : hub) :
  length (BACKMESSAGES h) < fuel ->
  handle_message_fuel E fuel c m h = Some (handle_message E c m h).
Proof.
  intros Hlen. unfold handle_message.
  destruct (handle_message_fuel_some (S (length (BACKMESSAGES h))) c m h)
    as [r Hr]; [lia|].
  rewrite Hr. eapply handle_message_fuel_more; [done|lia].
Qed.

Lemma handle_message_unfold (c : nat) (m : msg) (h : hub) :
  handle_message E c m h
  = match handle_message_body E c m h with
    | Done r => r
    | Recurse restored h' => handle_message E c restored h'
    end.
Proof.
  pose proof (handle_message_fuel_enough (S (length (BACKMESSAGES h))) c m h)
    as Hrun.
  simpl in Hrun.
  destruct (handle_message_body E c m h) as [r|restored h'] eqn:Hbody.
  - specialize (Hrun ltac:(lia)). by injection Hrun as <-.
  - apply handle_message_body_recurse in Hbody.
    specialize (Hrun ltac:(lia)).
    rewrite (handle_message_fuel_enough _ c restored h') in Hrun by lia.
    by injection Hrun as <-.
Qed.

(** Induction on the activations of [handle_message]. *)
Lemma handle_message_ind (P : hub -> Prop) :
  (forall c m h r h',
      P h -> handle_message_body E c m h = Done (r, h') -> P h') ->
  (forall c m h restored h',
      P h -> handle_message_body E c m h = Recurse restored h' -> P h') ->
  forall c m h, P h -> P (snd (handle_message E c m h)).
Proof.
  intros Hdone Hrec c m h.
  remember (length (BACKMESSAGES h)) as n eqn:Hn.
  revert m h Hn. induction (lt_wf n) as [n _ IH]. intros m h -> HP.
  rewrite handle_message_unfold.
  destruct (handle_message_body E c m h) as [[r h']|restored h'] eqn:Hbody.
  - simpl. by eapply Hdone.
  - eapply IH; [|reflexivity|by eapply Hrec].
    by eapply handle_message_body_recurse.
Qed.

(** ** The hub: what a merge into [MESSAGE] does *)

Lemma push_history_spec (h h' : hub) (r : result unit) :
  push_history h = (r, h') ->
  (exists e, r = Raise e /\ h' = h)
  \/ (exists cwd cwdBody cwdEncoded,
        r = Ret tt
        /\ MESSAGE h !! "cwd" = Some cwd
        /\ MESSAGE h !! "cwdBody" = Some cwdBody
        /\ MESSAGE h !! "cwdEncoded" = Some cwdEncoded
        /\ h' = set_BACKMESSAGES
                  (appendleft_capped (history_entry cwd cwdBody cwdEncoded)
                                     (BACKMESSAGES h)) h).
Proof.
  unfold push_history, py_item. intros Hpush.
  destruct (MESSAGE h !! "cwd") as [cwd|]; [|left; by simplify_eq; eauto].
  destruct (MESSAGE h !! "cwdBody") as [cwdBody|]; [|left; by simplify_eq; eauto].
  destruct (MESSAGE h !! "cwdEncoded") as [cwdEncoded|];
    [|left; by simplify_eq; eauto].
  right. exists cwd, cwdBody, cwdEncoded. by simplify_eq.
Qed.

Lemma send_message_to_all_js_clients_spec (h h' : hub) (r : result unit) :
  send_message_to_all_js_clients h = (r, h') ->
  MESSAGE h' = MESSAGE h /\ FORWARDMESSAGES h' = FORWARDMESSAGES h
  /\ JSCLIENTS h' = JSCLIENTS h /\ PYCLIENTS h' = PYCLIENTS h
  /\ nvim_address h' = nvim_address h /\ oscwd h' = oscwd h
  /\ ((exists e, r = Raise e /\ h' = h)
      \/ (r = Ret tt /\ outbox h' = (outbox h ++ broadcast_frames h)%list
          /\ ((cwd_changed h = Ret false /\ BACKMESSAGES h' = BACKMESSAGES h)
              \/ (exists cwd cwdBody cwdEncoded,
                    cwd_changed h = Ret true
                    /\ MESSAGE h !! "cwd" = Some cwd
                    /\ MESSAGE h !! "cwdBody" = Some cwdBody
                    /\ MESSAGE h !! "cwdEncoded" = Some cwdEncoded
                    /\ BACKMESSAGES h'
                       = appendleft_capped
                           (history_entry cwd cwdBody cwdEncoded)
                           (BACKMESSAGES h))))).
Proof.
  unfold send_message_to_all_js_clients, bind, broadcast, broadcast_frames, ret.
  destruct (cwd_changed h) as [[|]|e] eqn:Hchanged.
  - destruct (push_history h) as [r1 h1] eqn:Hpush.
    apply push_history_spec in Hpush
      as [(e & -> & ->)|(cwd & cwdBody & cwdEncoded & -> & ? & ? & ? & ->)].
    + intros [= <- <-]. repeat split; auto. left. eauto.
    + simpl. destruct (decide (JSCLIENTS h = ∅)); intros [= <- <-]; simpl;
        repeat split; auto; right; (split; [done|]);
        (split; [by rewrite ?app_nil_r|]); right; by eauto 10.
  - destruct (decide (JSCLIENTS h = ∅)); intros [= <- <-]; simpl;
      repeat split; auto; right; (split; [done|]);
      (split; [by rewrite ?app_nil_r|]); by left.
  - intros [= <- <-]. repeat split; auto. left. eauto.
Qed.

Lemma publish_spec (m : msg) (h h' : hub) (r : result unit) :
  publish E m h = (r, h') ->
  MESSAGE h' = py_update (MESSAGE h) m
  /\ FORWARDMESSAGES h' = FORWARDMESSAGES h
  /\ JSCLIENTS h' = JSCLIENTS h /\ PYCLIENTS h' = PYCLIENTS h
  /\ nvim_address h' = nvim_address h /\ oscwd h' = oscwd h
  /\ ((exists e, r = Raise e /\ outbox h' = outbox h
                 /\ BACKMESSAGES h' = BACKMESSAGES h)
      \/ (r = Ret tt
          /\ outbox h' = (outbox h ++ broadcast_frames h')%list
          /\ (BACKMESSAGES h' = BACKMESSAGES h
              \/ exists cwd cwdBody cwdEncoded,
                   MESSAGE h' !! "cwd" = Some cwd
                   /\ MESSAGE h' !! "cwdBody" = Some cwdBody
                   /\ MESSAGE h' !! "cwdEncoded" = Some cwdEncoded
                   /\ BACKMESSAGES h'
                      = appendleft_capped
                          (history_entry cwd cwdBody cwdEncoded)
                          (BACKMESSAGES h)))).
Proof.
  unfold publish, bind. cbv beta iota.
  set (h1 := set_MESSAGE (py_update (MESSAGE h) m) h).
  assert (Hedit : exists r1,
            (if ARGS_interactive E then
               fun h0 =>
                 match py_item (MESSAGE h0) "func" with
                 | Ret shown =>
                     (if py_eq shown (VStr "file")
                      then edit_current_file E else ret tt) h0
                 | Raise e => (Raise e, h0)
                 end
             else ret tt) h1 = (r1, h1)).
  { destruct (ARGS_interactive E); [|by eexists].
    destruct (py_item (MESSAGE h1) "func") as [shown|e]; [|by eexists].
    destruct (py_eq shown (VStr "file")); [|by eexists].
    destruct (edit_current_file E h1) as [r1 h2] eqn:Hed.
    apply edit_current_file_frame in Hed as ->. eauto. }
  destruct Hedit as [r1 Hedit].
  match goal with
  | |- context [match ?c h1 with _ => _ end] =>
      replace (c h1) with (r1, h1)
  end.
  destruct r1 as [[]|e].
  2:{ intros [= <- <-]. repeat split; auto. left. eauto. }
  intros Hsend. apply send_message_to_all_js_clients_spec in Hsend
    as (HM & HF & HJ & HP & HN & HO & Hsend).
  repeat split; try (by rewrite ?HM, ?HF, ?HJ, ?HP, ?HN, ?HO).
  destruct Hsend as [(e & -> & ->)|(-> & Hout & Hback)].
  - left. eauto.
  - right. split; [done|]. split.
    + rewrite Hout. unfold broadcast_frames. by rewrite HJ, HM.
    + destruct Hback as [[_ ?]|(cwd & cwdBody & cwdEncoded & _ & ? & ? & ? & ?)];
        [by left|right].
      exists cwd, cwdBody, cwdEncoded. by rewrite HM.
Qed.

(** [publish] ends with the broadcast, or has raised before it. *)
Lemma publish_send (m : msg) (h h' : hub) (r : result unit) :
  publish E m h = (r, h') ->
  (exists e, r = Raise e
             /\ h' = set_MESSAGE (py_update (MESSAGE h) m) h)
  \/ send_message_to_all_js_clients
       (set_MESSAGE (py_update (MESSAGE h) m) h) = (r, h').
Proof.
  unfold publish, bind. cbv beta iota.
  set (h1 := set_MESSAGE (py_update (MESSAGE h) m) h).
  assert (Hedit : exists r1,
            (if ARGS_interactive E then
               fun h0 =>
                 match py_item (MESSAGE h0) "func" with
                 | Ret shown =>
                     (if py_eq shown (VStr "file")
                      then edit_current_file E else ret tt) h0
                 | Raise e => (Raise e, h0)
                 end
             else ret tt) h1 = (r1, h1)).
  { destruct (ARGS_interactive E); [|by eexists].
    destruct (py_item (MESSAGE h1) "func") as [shown|e]; [|by eexists].
    destruct (py_eq shown (VStr "file")); [|by eexists].
    destruct (edit_current_file E h1) as [r1 h2] eqn:Hed.
    apply edit_current_file_frame in Hed as ->. eauto. }
  destruct Hedit as [r1 Hedit].
  match goal with
  | |- context [match ?c h1 with _ => _ end] =>
      replace (c h1) with (r1, h1)
  end.
  destruct r1 as [[]|e]; [by right|].
  intros [= <- <-]. left. eauto.
Qed.

Lemma handle_update_spec (func : value) (m : msg) (h h' : hub)
    (r : result unit) :
  handle_update E func m h = (r, h') ->
  (h' = h /\ (exists e, prepare E func m h = Raise e /\ r = Raise e))
  \/ (h' = h /\ r = Ret tt /\ py_in func ["dir"; "file"] = false)
  \/ (exists m', prepare E func m h = Ret m'
                 /\ py_in func ["dir"; "file"] = true
                 /\ publish E m' h = (r, h')).
Proof.
  unfold handle_update.
  destruct (prepare E func m h) as [m'|e].
  - destruct (py_in func ["dir"; "file"]) eqn:Hin.
    + intros Hpub. right. right. eauto.
    + intros [= <- <-]. right. left. done.
  - intros [= <- <-]. left. eauto.
Qed.

(** ** The hub: the bounded history *)

Lemma cap_20_take (l : list msg) :
  length l <= 21 -> cap_20 l = take 20 l.
Proof.
  intros Hlen. unfold cap_20. destruct (20 <? length l)%nat eqn:Hfull.
  - apply Nat.ltb_lt in Hfull. rewrite removelast_firstn_len.
    by replace (length l) with 21 by lia.
  - apply Nat.ltb_ge in Hfull. by rewrite take_ge.
Qed.

Lemma cap_20_ok (l : list msg) :
  length l <= 21 -> Forall is_snapshot l ->
  length (cap_20 l) <= 20 /\ Forall is_snapshot (cap_20 l).
Proof.
  intros Hlen Hall. rewrite cap_20_take by done. split.
  - rewrite length_take. lia.
  - by apply Forall_take.
Qed.

Lemma stacks_ok_same (h h' : hub) :
  BACKMESSAGES h' = BACKMESSAGES h ->
  FORWARDMESSAGES h' = FORWARDMESSAGES h ->
  stacks_ok h -> stacks_ok h'.
Proof. unfold stacks_ok. by intros -> ->. Qed.

Lemma stacks_ok_push (h h' : hub) (e : msg) :
  is_snapshot e ->
  BACKMESSAGES h' = appendleft_capped e (BACKMESSAGES h) ->
  FORWARDMESSAGES h' = FORWARDMESSAGES h ->
  stacks_ok h -> stacks_ok h'.
Proof.
  unfold stacks_ok, appendleft_capped. intros He -> -> (Hb & Hf & Hsb & Hsf).
  destruct (cap_20_ok (e :: BACKMESSAGES h)) as [? ?];
    [simpl; lia|by constructor|done].
Qed.

Lemma handle_update_stacks_ok (func : value) (m : msg) (h h' : hub)
    (r : result unit) :
  handle_update E func m h = (r, h') -> stacks_ok h -> stacks_ok h'.
Proof.
  intros [[-> _]|[[-> _]|(m' & _ & _ & Hpub)]]%handle_update_spec; try done.
  apply publish_spec in Hpub as (_ & HF & _ & _ & _ & _ & Hpub).
  destruct Hpub as [(e & _ & _ & HB)|(_ & _ & [HB|HB])].
  - by apply stacks_ok_same.
  - by apply stacks_ok_same.
  - destruct HB as (cwd & cwdBody & cwdEncoded & _ & _ & _ & HB).
    eapply stacks_ok_push; [|done..]. by exists cwd, cwdBody, cwdEncoded.
Qed.

Lemma handle_message_stacks_ok (c : nat) (m : msg) (h : hub) :
  stacks_ok h -> stacks_ok (snd (handle_message E c m h)).
Proof.
  apply handle_message_ind; clear c m h.
  - intros c m h r h' Hok Hbody.
    destruct (handle_message_body_cases c m h) as (h1 & Hsame & Hcases).
    assert (Hok1 : stacks_ok h1).
    { destruct Hsame as (_ & ? & ? & _). by eapply stacks_ok_same. }
    rewrite Hbody in Hcases.
    destruct Hcases
      as [[e ?]|[[_ ?]|[[_ ?]|[[_ Hed]|[(_&_&?)|[Hback|(_&_&Hupd)]]]]]];
      simplify_eq; try done.
    + symmetry in Hed. by apply edit_current_file_frame in Hed as ->.
    + by destruct Hback as (_ & ? & ? & ? & ? & ? & _ & _ & ?).
    + eapply handle_update_stacks_ok; [symmetry; eassumption|done].
  - intros c m h restored h' Hok Hbody.
    destruct (handle_message_body_cases c m h) as (h1 & Hsame & Hcases).
    assert (Hok1 : stacks_ok h1).
    { destruct Hsame as (_ & ? & ? & _). by eapply stacks_ok_same. }
    rewrite Hbody in Hcases.
    destruct Hcases
      as [[e ?]|[[_ ?]|[[_ ?]|[[_ ?]|[(_&_&?)|[Hback|(_&_&?)]]]]]]; try done.
    destruct Hback
      as (_ & e1 & e2 & rest & restored' & h2 & Hstack & Hpop & [= -> ->]).
    destruct Hsame as (_ & Hb1 & _). rewrite <- Hb1 in Hstack.
    destruct Hok1 as (Hb & Hf & Hsb & Hsf). rewrite Hstack in Hb, Hsb.
    simpl in Hb. apply Forall_cons in Hsb as [He1 Hsb].
    apply Forall_cons in Hsb as [He2 Hsb].
    apply back_pop_spec in Hpop as (_&_&_&_&_&_&Hpop). unfold stacks_ok.
    destruct Hpop as [(_&_&->&->)|(_&_&->&->)].
    + destruct (cap_20_ok (FORWARDMESSAGES h1)) as [? ?]; [lia|done|].
      repeat split; simpl; auto; lia.
    + destruct (cap_20_ok (e1 :: FORWARDMESSAGES h1)) as [? ?];
        [simpl; lia|by constructor|].
      repeat split; simpl; auto; lia.
Qed.

Lemma step_stacks_ok (o : op) (h : hub) :
  stacks_ok h -> stacks_ok (snd (step E o h)).
Proof.
  intros Hok. destruct o as [c m|c m|c]; simpl.
  - unfold register_client, bind.
    destruct (py_eq _ (VStr "js")); [|destruct (py_eq _ (VStr "py"))]; simpl.
    + apply handle_message_stacks_ok. by eapply stacks_ok_same.
    + apply handle_message_stacks_ok. by eapply stacks_ok_same.
    + done.
  - by apply handle_message_stacks_ok.
  - done.
Qed.

Lemma run_stacks_ok (ops : list op) (h : hub) :
  stacks_ok h -> stacks_ok (run E ops h).
Proof.
  revert h. induction ops as [|o ops IH]; intros h Hok; [done|].
  simpl. apply IH. by apply step_stacks_ok.
Qed.

Lemma fresh_hub_stacks_ok (startdir : string) :
  stacks_ok (fresh_hub E startdir).
Proof. unfold stacks_ok. simpl. repeat split; auto; lia. Qed.

(** A merge that returns, on a back stack that is not empty: the push
    happens exactly when the directory differs from that of the top. *)
Lemma publish_history (m : msg) (h h' : hub) (top : msg) (rest : list msg) :
  publish E m h = (Ret tt, h') ->
  BACKMESSAGES h = top :: rest ->
  exists cwd,
    MESSAGE h' !! "cwd" = Some cwd
    /\ if py_eq cwd (py_get top "cwd") then BACKMESSAGES h' = BACKMESSAGES h
       else exists cwdBody cwdEncoded,
              MESSAGE h' !! "cwdBody" = Some cwdBody
              /\ MESSAGE h' !! "cwdEncoded" = Some cwdEncoded
              /\ BACKMESSAGES h'
                 = appendleft_capped (history_entry cwd cwdBody cwdEncoded)
                                     (BACKMESSAGES h).
Proof.
  intros [(e & ? & _)|Hsend]%publish_send Hstack; [done|].
  apply send_message_to_all_js_clients_spec in Hsend
    as (HM & _ & _ & _ & _ & _ & Hsend).
  set (h1 := set_MESSAGE (py_update (MESSAGE h) m) h) in *.
  change (BACKMESSAGES h) with (BACKMESSAGES h1) in *.
  destruct Hsend as [(e & ? & _)|(_ & _ & Hpush)]; [done|].
  assert (Hchanged : forall b, cwd_changed h1 = Ret b ->
            exists cwd, MESSAGE h1 !! "cwd" = Some cwd
                        /\ py_eq cwd (py_get top "cwd") = negb b).
  { intros b. unfold cwd_changed, py_item, py_get. rewrite Hstack.
    destruct (MESSAGE h1 !! "cwd") as [cwd|]; [|done]. simpl.
    destruct (top !! "cwd") as [last|]; [|done]. simpl.
    intros [= <-]. exists cwd. by rewrite negb_involutive. }
  rewrite HM.
  destruct Hpush
    as [[Hsame HB]|(cwd & cwdBody & cwdEncoded & Hch & Hcwd & ? & ? & HB)].
  - destruct (Hchanged _ Hsame) as (cwd & Hcwd & Heq).
    exists cwd. split; [done|]. by rewrite Heq.
  - destruct (Hchanged _ Hch) as (cwd' & Hcwd' & Heq).
    assert (cwd' = cwd) as -> by congruence.
    exists cwd. split; [done|]. rewrite Heq. simpl. eauto.
Qed.

(** A [dir] or [file] message that is handled with normal return has
    been merged by [publish], on the stacks as they were. *)
Lemma handle_message_publish (c : nat) (m : msg) (h h' : hub) :
  py_in (py_get m "func") ["dir"; "file"] = true ->
  handle_message E c m h = (Ret tt, h') ->
  exists h1 m', BACKMESSAGES h1 = BACKMESSAGES h
                /\ publish E m' h1 = (Ret tt, h').
Proof.
  intros Hfunc Hrun. rewrite handle_message_unfold in Hrun.
  destruct (handle_message_body_cases c m h) as (h1 & Hsame & Hcases).
  destruct Hsame as (_ & HB & _).
  assert (Hdirfile : py_get m "func" = VStr "dir"
                     \/ py_get m "func" = VStr "file").
  { unfold py_in in Hfunc. cbn [existsb] in Hfunc.
    rewrite !orb_true_iff in Hfunc.
    destruct Hfunc as [?%py_eq_str|[?%py_eq_str|?]]; auto. done. }
  destruct Hcases
    as [[e He]|[[Hf _]|[[Hf _]|[[Hf _]|[(Hf&_)|[(Hf&_)|(_&_&Hbody)]]]]]];
    try (by rewrite He in Hrun);
    try (by destruct Hdirfile as [Hd|Hd]; rewrite Hd in Hf).
  rewrite Hbody in Hrun.
  apply handle_update_spec in Hrun
    as [[_ [e [_ ?]]]|[(_ & _ & Hno)|(m' & _ & _ & Hpub)]]; try done.
  { by rewrite Hfunc in Hno. }
  eauto.
Qed.

(** An activation that ends without the recursive call leaves the
    forward stack as it is. *)
Lemma handle_message_body_done_forward (c : nat) (m : msg) (h : hub)
    (r : result unit * hub) :
  handle_message_body E c m h = Done r ->
  FORWARDMESSAGES (snd r) = FORWARDMESSAGES h.
Proof.
  intros Hbody.
  destruct (handle_message_body_cases c m h) as (h1 & Hsame & Hcases).
  destruct Hsame as (_ & _ & HF & _). rewrite <- HF.
  rewrite Hbody in Hcases.
  destruct Hcases
    as [[e ?]|[[_ ?]|[[_ ?]|[[_ Hed]|[(_&_&?)|[Hback|(_&_&Hupd)]]]]]];
    simplify_eq; try done.
  - destruct (edit_current_file E h1) as [r2 h2] eqn:Hed.
    by apply edit_current_file_frame in Hed as ->.
  - by destruct Hback as (_ & ? & ? & ? & ? & ? & _ & _ & ?).
  - destruct (handle_update E _ _ h1) as [r2 h2] eqn:Hupd.
    apply handle_update_spec in Hupd
      as [[-> _]|[[-> _]|(m'' & _ & _ & Hpub)]]; try done.
    by apply publish_spec in Hpub as (_ & ? & _).
Qed.

(** A [back] request without [fileOpen] that is handled with normal
    return has pushed the top of the back stack on the forward stack. *)
Lemma handle_back_forward (c : nat) (m : msg) (h h' : hub) (e1 e2 : msg)
    (rest : list msg) :
  stacks_ok h ->
  py_get m "func" = VStr "back" ->
  truthy (py_get m "fileOpen") = false ->
  BACKMESSAGES h = e1 :: e2 :: rest ->
  handle_message E c m h = (Ret tt, h') ->
  FORWARDMESSAGES h' = cap_20 (e1 :: FORWARDMESSAGES h).
Proof.
  intros Hok Hfunc Hclosed Hstack Hrun.
  rewrite handle_message_unfold in Hrun.
  destruct (handle_message_body_cases c m h) as (h1 & Hsame & Hcases).
  destruct Hsame as (_ & HB & HF & _).
  rewrite Hfunc in Hcases.
  destruct Hcases
    as [[e He]|[[? _]|[[? _]|[[? _]|[(_&Hshort&_)|[Hback|(_&?&_)]]]]]];
    try done.
  { by rewrite He in Hrun. }
  { rewrite Hstack in Hshort. simpl in Hshort. lia. }
  destruct Hback
    as (_ & e1' & e2' & rest' & restored & h2 & Hstack' & Hpop & Hbody).
  rewrite Hstack in Hstack'. injection Hstack' as <- <- <-.
  rewrite Hbody in Hrun.
  apply back_pop_spec in Hpop as (_&_&_&_&_&_&Hpop).
  assert (Hget : py_get (delete "nvimAddress" m) "fileOpen"
                 = py_get m "fileOpen").
  { unfold py_get. by rewrite lookup_delete_ne. }
  rewrite Hget in Hpop.
  destruct Hpop as [(Hopen & _)|(_ & -> & _ & HF2)]; [congruence|].
  destruct Hok as (_ & _ & Hsnap & _). rewrite Hstack in Hsnap.
  apply Forall_cons in Hsnap as [_ [(cwd & cwdBody & cwdEncoded & ->) _]%Forall_cons].
  rewrite handle_message_unfold in Hrun.
  destruct (handle_message_body E c _ h2) as [r3|restored3 h4] eqn:Hbody3.
  - apply handle_message_body_done_forward in Hbody3.
    subst r3. simpl in Hbody3. by rewrite Hbody3, HF2, HF.
  - destruct (handle_message_body_cases c
                (history_entry cwd cwdBody cwdEncoded) h2)
      as (h5 & _ & Hcases).
    rewrite Hbody3 in Hcases.
    change (py_get (history_entry cwd cwdBody cwdEncoded) "func")
      with (VStr "dir") in Hcases.
    by destruct Hcases
      as [[e ?]|[[_ ?]|[[_ ?]|[[_ ?]|[(_&_&?)|[(?&_)|(_&_&?)]]]]]].
Qed.

(** C8. After every sequence of hub operations (registrations,
    messages - whether they return or raise - and unregistrations) on a
    fresh hub, the back stack and the forward stack hold at most 20
    entries each.  On a back stack of 20, a [dir] or [file] message that
    is handled leaves the stack as it is when it names the directory of
    the top, and otherwise puts the entry of its directory at the left
    end and drops the entry at the right end, the oldest.  On a forward
    stack of 20, a [back] request without [fileOpen] that is handled
    puts the top of the back stack at the left end and drops the entry
    at the right end. *)
Theorem history_stacks_bounded (startdir : string) (ops : list op) :
  let h := run E ops (fresh_hub E startdir) in
  length (BACKMESSAGES h) <= 20
  /\ length (FORWARDMESSAGES h) <= 20
  /\ (forall c m h',
        py_in (py_get m "func") ["dir"; "file"] = true ->
        handle_message E c m h = (Ret tt, h') ->
        length (BACKMESSAGES h) = 20 ->
        exists top cwd,
          head (BACKMESSAGES h) = Some top
          /\ MESSAGE h' !! "cwd" = Some cwd
          /\ if py_eq cwd (py_get top "cwd")
             then BACKMESSAGES h' = BACKMESSAGES h
             else exists cwdBody cwdEncoded,
                    MESSAGE h' !! "cwdBody" = Some cwdBody
                    /\ MESSAGE h' !! "cwdEncoded" = Some cwdEncoded
                    /\ BACKMESSAGES h'
                       = history_entry cwd cwdBody cwdEncoded
                         :: removelast (BACKMESSAGES h))
  /\ (forall c m h' e1 e2 rest,
        py_get m "func" = VStr "back" ->
        truthy (py_get m "fileOpen") = false ->
        BACKMESSAGES h = e1 :: e2 :: rest ->
        handle_message E c m h = (Ret tt, h') ->
        length (FORWARDMESSAGES h) = 20 ->
        FORWARDMESSAGES h' = e1 :: removelast (FORWARDMESSAGES h)).
Proof.
  intros h.
  pose proof (run_stacks_ok ops _ (fresh_hub_stacks_ok startdir)) as Hok.
  fold h in Hok.
  assert (Hfull : forall (e : msg) (l : list msg),
            length l = 20 -> cap_20 (e :: l) = e :: removelast l).
  { intros e l Hl. unfold cap_20. simpl length. rewrite Hl. simpl.
    destruct l; [done|]. reflexivity. }
  split; [apply Hok|]. split; [apply Hok|]. split.
  - intros c m h' Hfunc Hrun Hlen.
    apply handle_message_publish in Hrun as (h1 & m' & HB & Hpub); [|done].
    destruct (BACKMESSAGES h) as [|top rest] eqn:Hstack; [done|].
    rewrite <- Hstack in *.
    destruct (publish_history _ _ _ top rest Hpub) as (cwd & Hcwd & Hpush).
    { by rewrite HB. }
    exists top, cwd. split; [by rewrite Hstack|]. split; [done|].
    rewrite HB in Hpush.
    destruct (py_eq cwd (py_get top "cwd")); [done|].
    destruct Hpush as (cwdBody & cwdEncoded & ? & ? & ->).
    exists cwdBody, cwdEncoded. repeat split; try done.
    by apply Hfull.
  - intros c m h' e1 e2 rest Hfunc Hclosed Hstack Hrun Hlen.
    rewrite (handle_back_forward c m h h' e1 e2 rest) by done.
    by apply Hfull.
Qed.

(** C9. A [back] message handled while the back stack holds fewer than
    two entries changes neither [MESSAGE] nor the two stacks nor the set
    of viewers, and sends nothing: the outbox is as it was. *)
Theorem back_without_history_is_noop (c : nat) (m : msg) (h : hub) :
  py_get m "func" = VStr "back" ->
  length (BACKMESSAGES h) < 2 ->
  let h' := snd (handle_message E c m h) in
  MESSAGE h' = MESSAGE h
  /\ BACKMESSAGES h' = BACKMESSAGES h
  /\ FORWARDMESSAGES h' = FORWARDMESSAGES h
  /\ JSCLIENTS h' = JSCLIENTS h
  /\ outbox h' = outbox h.
Proof.
  intros Hfunc Hshort h'. subst h'. rewrite handle_message_unfold.
  destruct (handle_message_body_cases c m h) as (h1 & Hsame & Hcases).
  destruct Hsame as (HM & HB & HF & HJ & _ & HO).
  rewrite Hfunc in Hcases.
  destruct Hcases
    as [[e ->]|[[? _]|[[? _]|[[? _]|[(_&_&->)|[Hback|(_&?&_)]]]]]];
    try done.
  destruct Hback as (_ & e1 & e2 & rest & _ & _ & Hstack & _).
  rewrite Hstack in Hshort. simpl in Hshort. lia.
Qed.

(** ** The hub: directory messages and the open file *)

Lemma copy_file_fields_spec (src dst m' : msg) :
  copy_file_fields src dst = Ret m' ->
  (forall k, k ∈ file_keys -> is_Some (src !! k) /\ m' !! k = src !! k)
  /\ (forall k, k ∉ file_keys -> m' !! k = dst !! k).
Proof.
  unfold copy_file_fields, file_keys, copy_key, py_item. simpl.
  destruct (src !! "filename") as [v1|] eqn:H1; [|done]. simpl.
  destruct (src !! "fileCwd") as [v2|] eqn:H2; [|done]. simpl.
  destruct (src !! "fileBody") as [v3|] eqn:H3; [|done]. simpl.
  destruct (src !! "fileEncoding") as [v4|] eqn:H4; [|done]. simpl.
  destruct (src !! "fileEncoded") as [v5|] eqn:H5; [|done]. simpl.
  intros [= <-]. split.
  - intros k Hk. rewrite !elem_of_cons in Hk.
    destruct Hk as [->|[->|[->|[->|[->|[]%elem_of_nil]]]]];
      by simplify_map_eq.
  - intros k Hk. rewrite !elem_of_cons in Hk.
    repeat (rewrite lookup_insert_ne; [|intros <-; tauto]). done.
Qed.

Lemma render_cwd_frame (m m' : msg) (k : string) :
  render_cwd E m = Ret m' ->
  k <> "cwdBody" -> k <> "cwdEncoded" -> m' !! k = m !! k.
Proof.
  unfold render_cwd, py_item. intros Hr ? ?.
  destruct (m !! "cwdEncoded") as [encoded|]; [|done]. simpl in Hr.
  destruct (truthy encoded); simpl in Hr; [by simplify_eq|].
  destruct (m !! "cwd") as [[| | |d]|]; simpl in Hr; try done.
  destruct (dir2body E d) as [body|]; simpl in Hr; [|done].
  simplify_eq. by simplify_map_eq.
Qed.

Lemma render_cwd_encoded (m m' : msg) :
  render_cwd E m = Ret m' -> truthy (py_get m "cwdEncoded") = true -> m' = m.
Proof.
  unfold render_cwd, py_item, py_get. intros Hr Henc.
  destruct (m !! "cwdEncoded") as [encoded|]; [|done]. simpl in *.
  rewrite Henc in Hr. simpl in Hr. by simplify_eq.
Qed.


Lemma py_update_lookup_new (d e : msg) (k : string) :
  is_Some (e !! k) -> py_update d e !! k = e !! k.
Proof.
  intros [v Hv]. unfold py_update. rewrite Hv.
  by apply lookup_union_Some_l.
Qed.

Lemma py_update_lookup_old (d e : msg) (k : string) :
  e !! k = None -> py_update d e !! k = d !! k.
Proof. intros Hk. unfold py_update. by apply lookup_union_r. Qed.

Lemma py_get_delete (m : msg) (k k' : string) :
  k <> k' -> py_get (delete k' m) k = py_get m k.
Proof. intros. unfold py_get. by rewrite lookup_delete_ne. Qed.

Lemma py_get_or_delete (m : msg) (k k' : string) (dflt : value) :
  k <> k' -> py_get_or (delete k' m) k dflt = py_get_or m k dflt.
Proof. intros. unfold py_get_or. by rewrite lookup_delete_ne. Qed.


(** ** The hub: going back *)

Lemma history_entry_no_address (cwd cwdBody cwdEncoded : value) :
  delete "nvimAddress" (history_entry cwd cwdBody cwdEncoded)
  = history_entry cwd cwdBody cwdEncoded.
Proof. by apply delete_id. Qed.

(** The [dir] branch on a back-stack entry. *)
Lemma prepare_snapshot (cwd cwdBody cwdEncoded : value) (h : hub) (m' : msg) :
  let e := history_entry cwd cwdBody cwdEncoded in
  prepare E (VStr "dir") e h = Ret m' ->
  (forall k, k ∈ ["client"; "func"; "cwd"; "fileOpen"] -> m' !! k = e !! k)
  /\ (truthy cwdEncoded = true -> forall k, k ∈ ["cwdBody"; "cwdEncoded"] ->
                                            m' !! k = e !! k)
  /\ (forall k, k ∈ file_keys ->
        is_Some (m' !! k)
        /\ m' !! k = (if truthy (py_get (MESSAGE h) "filename")
                      then MESSAGE h !! k else e !! k)).
Proof.
  intros e. unfold prepare, merge_open_file. simpl.
  change (py_get e "filename") with (VStr ""). simpl.
  change (py_get_or e "forceClose" (VBool false)) with (VBool false). simpl.
  assert (Hkeys : forall k, k ∈ ["client"; "func"; "cwd"; "fileOpen"] ->
            (k ∉ file_keys) /\ k <> "cwdBody" /\ k <> "cwdEncoded"
            /\ k <> "forceClose").
  { intros k Hk. rewrite !elem_of_cons in Hk.
    destruct Hk as [->|[->|[->|[->|[]%elem_of_nil]]]];
      (split; [key_in_list|done]). }
  assert (Hfile : forall k, k ∈ file_keys ->
            is_Some (e !! k) /\ k <> "cwdBody" /\ k <> "cwdEncoded"
            /\ k <> "forceClose").
  { intros k Hk. unfold file_keys in Hk. rewrite !elem_of_cons in Hk.
    destruct Hk as [->|[->|[->|[->|[->|[]%elem_of_nil]]]]];
      (split; [by eexists|done]). }
  assert (Hencoded : forall m0, m0 !! "cwdEncoded" = Some cwdEncoded ->
            truthy cwdEncoded = true -> render_cwd E m0 = Ret m' -> m' = m0).
  { intros m0 Hm0 Htruthy Hr. apply (render_cwd_encoded _ _ Hr).
    unfold py_get. by rewrite Hm0. }
  destruct (truthy (py_get (MESSAGE h) "filename")); simpl.
  - destruct (copy_file_fields (MESSAGE h) (delete "forceClose" e))
      as [m0|] eqn:Hcopy; [|done]. simpl.
    destruct (render_cwd E m0) as [m1|] eqn:Hr; [|done]. simpl. intros [= <-].
    apply copy_file_fields_spec in Hcopy as [Hcopied Hrest].
    split; [|split].
    + intros k Hk. destruct (Hkeys k Hk) as (? & ? & ? & ?).
      rewrite (render_cwd_frame _ _ k Hr) by done.
      rewrite Hrest by done. by apply lookup_delete_ne.
    + intros Htruthy k Hk.
      rewrite (Hencoded m0) by (try done; rewrite Hrest by key_in_list; done).
      rewrite Hrest.
      * rewrite !elem_of_cons in Hk.
        by destruct Hk as [->|[->|[]%elem_of_nil]].
      * intros Hin. rewrite !elem_of_cons in Hk.
        destruct Hk as [->|[->|[]%elem_of_nil]]; key_in_list.
    + intros k Hk. destruct (Hfile k Hk) as (_ & ? & ? & _).
      rewrite (render_cwd_frame _ _ k Hr) by done.
      destruct (Hcopied k Hk) as [? ->]. done.
  - destruct (render_cwd E e) as [m1|] eqn:Hr; [|done]. simpl. intros [= <-].
    split; [|split].
    + intros k Hk. destruct (Hkeys k Hk) as (? & ? & ? & ?).
      by apply (render_cwd_frame _ _ k Hr).
    + intros Htruthy k Hk. by rewrite (Hencoded e).
    + intros k Hk. destruct (Hfile k Hk) as (? & ? & ? & _).
      by rewrite (render_cwd_frame _ _ k Hr).
Qed.

(** C7 (amended). A [back] request that does not itself carry a true
    [fileOpen] flag, handled on a hub whose back stack is
    [e1 :: e2 :: rest], the call returning: [e1] is pushed on the forward
    stack (capped at 20), and [e2] becomes the directory view of
    [MESSAGE] - its [client], [func], [cwd] and [fileOpen], and its
    listing when it is rendered; the file fields are those of [e2] (empty)
    unless [MESSAGE] names a file, whose fields are then kept.  [e1] is
    off the back stack, whose top is [rest] or a fresh snapshot of the
    restored directory.  The branch is chosen by the request's
    [fileOpen], not by that of [MESSAGE]. *)
Theorem back_restores_previous_directory (startdir : string) (ops : list op)
    (c : nat) (m e1 e2 : msg) (rest : list msg) (h' : hub) :
  let h := run E ops (fresh_hub E startdir) in
  py_get m "func" = VStr "back" ->
  truthy (py_get m "fileOpen") = false ->
  BACKMESSAGES h = e1 :: e2 :: rest ->
  handle_message E c m h = (Ret tt, h') ->
  FORWARDMESSAGES h' = appendleft_capped e1 (FORWARDMESSAGES h)
  /\ (forall k, k ∈ ["client"; "func"; "cwd"; "fileOpen"] ->
                MESSAGE h' !! k = e2 !! k)
  /\ (truthy (py_get e2 "cwdEncoded") = true ->
      forall k, k ∈ ["cwdBody"; "cwdEncoded"] -> MESSAGE h' !! k = e2 !! k)
  /\ (forall k, k ∈ file_keys ->
        MESSAGE h' !! k = (if truthy (py_get (MESSAGE h) "filename")
                           then MESSAGE h !! k else e2 !! k))
  /\ (BACKMESSAGES h' = rest
      \/ exists e, is_snapshot e /\ e !! "cwd" = e2 !! "cwd"
                   /\ BACKMESSAGES h' = appendleft_capped e rest).
Proof.
  intros h Hfunc Hdir Hstack Hrun.
  assert (Hsnap : is_snapshot e2).
  { destruct (run_stacks_ok ops _ (fresh_hub_stacks_ok startdir))
      as (_ & _ & Hall & _).
    fold h in Hall. rewrite Hstack in Hall.
    by apply Forall_cons in Hall as [_ [? _]%Forall_cons]. }
  destruct Hsnap as (cwd & cwdBody & cwdEncoded & ->).
  rewrite handle_message_unfold in Hrun.
  destruct (handle_message_body_cases c m h) as (h1 & Hsame & Hcases).
  destruct Hsame as (HM1 & HB1 & HF1 & _).
  rewrite Hfunc in Hcases.
  destruct Hcases
    as [[e He]|[[? _]|[[? _]|[[? _]|[(_&Hshort&_)|[Hback|(_&?&_)]]]]]];
    try done.
  { by rewrite He in Hrun. }
  { rewrite Hstack in Hshort. simpl in Hshort. lia. }
  destruct Hback as (_ & e1' & e2' & rest' & restored & h2 & Hstack' & Hpop & Hbody).
  rewrite Hstack in Hstack'. injection Hstack' as <- <- <-.
  rewrite Hbody in Hrun. clear Hbody.
  apply back_pop_spec in Hpop as (HM2 & _ & _ & _ & _ & _ & Hpop).
  rewrite py_get_delete, Hdir in Hpop by done.
  destruct Hpop as [(? & _)|(_ & -> & HB2 & HF2)]; [done|].
  rewrite handle_message_unfold in Hrun.
  destruct (handle_message_body_cases c (history_entry cwd cwdBody cwdEncoded) h2)
    as (h3 & Hsame & Hcases).
  destruct Hsame as (HM3 & HB3 & HF3 & _).
  change (py_get (history_entry cwd cwdBody cwdEncoded) "func")
    with (VStr "dir") in Hcases.
  destruct Hcases
    as [[e He]|[[? _]|[[? _]|[[? _]|[(?&_)|[(?&_)|(_&_&Hbody)]]]]]];
    try done.
  { by rewrite He in Hrun. }
  rewrite Hbody, history_entry_no_address in Hrun. clear Hbody.
  apply handle_update_spec in Hrun
    as [[_ [e [_ ?]]]|[(_ & _ & ?)|(m' & Hprep & _ & Hpub)]]; try done.
  apply publish_spec in Hpub as (HM' & HF' & _ & _ & _ & _ & Hpub).
  apply prepare_snapshot in Hprep as (Hdirkeys & Hlisting & Hfilekeys).
  assert (HM : MESSAGE h3 = MESSAGE h) by congruence.
  rewrite HM in *.
  split; [|split; [|split; [|split]]].
  - rewrite HF', HF3, HF2, HF1. reflexivity.
  - intros k Hk. rewrite HM'. rewrite <- (Hdirkeys k Hk).
    apply py_update_lookup_new. rewrite (Hdirkeys k Hk).
    rewrite !elem_of_cons in Hk.
    destruct Hk as [->|[->|[->|[->|[]%elem_of_nil]]]]; by eexists.
  - intros Htruthy k Hk. rewrite HM'.
    rewrite <- (Hlisting Htruthy k Hk).
    apply py_update_lookup_new. rewrite (Hlisting Htruthy k Hk).
    rewrite !elem_of_cons in Hk.
    destruct Hk as [->|[->|[]%elem_of_nil]]; by eexists.
  - intros k Hk. destruct (Hfilekeys k Hk) as [Hsome <-].
    rewrite HM'. by apply py_update_lookup_new.
  - destruct Hpub as [(e & ? & _)|(_ & _ & [HB'|HB'])]; [done| |].
    + left. congruence.
    + right. destruct HB' as (cwd' & body' & enc' & Hcwd & _ & _ & HB').
      exists (history_entry cwd' body' enc'). split; [by eexists _, _, _|].
      split.
      * change (history_entry cwd' body' enc' !! "cwd") with (Some cwd').
        rewrite <- Hcwd, HM'. rewrite <- (Hdirkeys "cwd") by key_in_list.
        apply py_update_lookup_new.
        rewrite (Hdirkeys "cwd") by key_in_list. by eexists.
      * rewrite HB'. congruence.
Qed.

(** ** The hub: replay to a late viewer *)

Lemma run_app (ops1 ops2 : list op) (h : hub) :
  run E (ops1 ++ ops2) h = run E ops2 (run E ops1 h).
Proof. unfold run. apply foldl_app. Qed.

Lemma all_return_app (ops1 ops2 : list op) (h : hub) :
  all_return E (ops1 ++ ops2) h ->
  all_return E ops1 h /\ all_return E ops2 (run E ops1 h).
Proof.
  revert h. induction ops1 as [|o ops1 IH]; intros h; simpl; [done|].
  intros [Hret Hrest]. apply IH in Hrest as [? ?]. done.
Qed.

Lemma handle_message_viewers (c : nat) (m : msg) (h : hub) :
  JSCLIENTS (snd (handle_message E c m h)) = JSCLIENTS h.
Proof.
  apply (handle_message_ind (fun h' => JSCLIENTS h' = JSCLIENTS h));
    [| |done].
  - intros c' m' h0 r h' Hinv Hbody.
    destruct (handle_message_body_cases c' m' h0) as (h1 & Hsame & Hcases).
    destruct Hsame as (_ & _ & _ & HJ & _). rewrite <- Hinv, <- HJ.
    rewrite Hbody in Hcases.
    destruct Hcases
      as [[e ?]|[[_ ?]|[[_ ?]|[[_ Hed]|[(_&_&?)|[Hback|(_&_&Hupd)]]]]]];
      simplify_eq; try done.
    + symmetry in Hed. by apply edit_current_file_frame in Hed as ->.
    + by destruct Hback as (_ & ? & ? & ? & ? & ? & _ & _ & ?).
    + symmetry in Hupd. apply handle_update_spec in Hupd
        as [[-> _]|[[-> _]|(m'' & _ & _ & Hpub)]]; try done.
      by apply publish_spec in Hpub as (_ & _ & ? & _).
  - intros c' m' h0 restored h' Hinv Hbody.
    destruct (handle_message_body_cases c' m' h0) as (h1 & Hsame & Hcases).
    destruct Hsame as (_ & _ & _ & HJ & _). rewrite <- Hinv, <- HJ.
    rewrite Hbody in Hcases.
    destruct Hcases
      as [[e ?]|[[_ ?]|[[_ ?]|[[_ ?]|[(_&_&?)|[Hback|(_&_&?)]]]]]]; try done.
    destruct Hback as (_ & e1 & e2 & rest & restored' & h2 & _ & Hpop & [= -> ->]).
    by apply back_pop_spec in Hpop as (_ & ? & _).
Qed.

Lemma run_handle_viewers (msgs : list (nat * msg)) (h : hub) :
  JSCLIENTS (run E (map (fun cm => Handle cm.1 cm.2) msgs) h) = JSCLIENTS h.
Proof.
  revert h. induction msgs as [|[c m] msgs IH]; intros h; [done|].
  simpl. rewrite IH. apply handle_message_viewers.
Qed.

(** A [dir] or [file] message whose handling returns has been merged
    and broadcast. *)
Lemma handle_message_publishes (c : nat) (m : msg) (h h' : hub) :
  py_in (py_get m "func") ["dir"; "file"] = true ->
  handle_message E c m h = (Ret tt, h') ->
  outbox h' = (outbox h ++ broadcast_frames h')%list.
Proof.
  intros Hfunc Hrun. rewrite handle_message_unfold in Hrun.
  destruct (handle_message_body_cases c m h) as (h1 & Hsame & Hcases).
  destruct Hsame as (_ & _ & _ & _ & _ & HO).
  assert (Hdirfile : py_get m "func" = VStr "dir"
                     \/ py_get m "func" = VStr "file").
  { unfold py_in in Hfunc. cbn [existsb] in Hfunc.
    rewrite !orb_true_iff in Hfunc.
    destruct Hfunc as [?%py_eq_str|[?%py_eq_str|?]]; auto. done. }
  destruct Hcases
    as [[e He]|[[Hf _]|[[Hf _]|[[Hf _]|[(Hf&_)|[(Hf&_)|(_&_&Hbody)]]]]]];
    try (by rewrite He in Hrun);
    try (by destruct Hdirfile as [Hd|Hd]; rewrite Hd in Hf).
  rewrite Hbody in Hrun.
  apply handle_update_spec in Hrun
    as [[_ [e [_ ?]]]|[(_ & _ & Hno)|(m' & _ & _ & Hpub)]]; try done.
  { by rewrite Hfunc in Hno. }
  apply publish_spec in Hpub as (_ & _ & _ & _ & _ & _ & Hpub).
  destruct Hpub as [(e & ? & _)|(_ & Hout & _)]; [done|]. by rewrite Hout, HO.
Qed.

(** The first frame of a browser tab registers it and replays
    [MESSAGE]; handling the frame itself changes nothing more. *)
Lemma register_newjsclient (c : nat) (h : hub) :
  exists h',
    register_client E c newjsclient h = (Ret tt, h')
    /\ outbox h' = (outbox h ++ [Send c (FState (MESSAGE h))])%list
    /\ MESSAGE h' = MESSAGE h
    /\ JSCLIENTS h' = {[c]} ∪ JSCLIENTS h.
Proof.
  unfold register_client, bind.
  change (py_eq (py_get_or newjsclient "client" (VStr "")) (VStr "js"))
    with true. cbv beta iota.
  set (h1 := emit _ _).
  rewrite handle_message_unfold. unfold handle_message_body.
  change (validate_message (delete "nvimAddress" newjsclient)) with (Ret tt).
  unfold chdir_to_cwd.
  change (delete "nvimAddress" newjsclient !! "cwd") with (@None value).
  change (py_get newjsclient "func") with (VStr "newjsclient").
  cbn [truthy negb String.eqb Ascii.eqb Bool.eqb py_eq].
  unfold handle_update, prepare. 
  cbn [py_eq String.eqb Ascii.eqb Bool.eqb result_bind py_in existsb orb].
  eexists. split; [reflexivity|]. by repeat split.
Qed.

(** C2. On a hub started fresh that has viewers connected, after a
    non-empty sequence of [dir]/[file] messages each of which is
    processed (its handling returns), a viewer that registers is sent at
    once, in one frame, the whole of [MESSAGE]; and that is the frame
    last broadcast to the viewers already connected. *)
Theorem replay_equals_last_broadcast (startdir : string) (pre : list op)
    (msgs : list (nat * msg)) (c : nat) :
  let h0 := run E pre (fresh_hub E startdir) in
  let ops := map (fun cm => Handle cm.1 cm.2) msgs in
  let h := run E ops h0 in
  JSCLIENTS h0 <> ∅ ->
  msgs <> [] ->
  Forall (fun cm => py_in (py_get cm.2 "func") ["dir"; "file"] = true) msgs ->
  all_return E ops h0 ->
  exists h',
    register_client E c newjsclient h = (Ret tt, h')
    /\ outbox h' = (outbox h ++ [Send c (FState (MESSAGE h))])%list
    /\ MESSAGE h' = MESSAGE h
    /\ last_broadcast (outbox h) = Some (JSCLIENTS h0, FState (MESSAGE h)).
Proof.
  intros h0 ops h Hviewers Hne Hfuncs Hall.
  destruct (register_newjsclient c h) as (h' & Hreg & Hout & HM & _).
  exists h'. repeat split; try done.
  destruct (exists_last Hne) as (init & [c' m] & Hmsgs).
  subst ops h. rewrite Hmsgs in *. clear Hmsgs Hne.
  rewrite map_app in *. simpl in *.
  rewrite run_app in *. simpl in *.
  apply all_return_app in Hall as [_ [Hret _]]. simpl in Hret.
  apply Forall_app in Hfuncs as [_ [Hfunc _]%Forall_cons]. simpl in Hfunc.
  set (hi := run E (map (fun cm => Handle cm.1 cm.2) init) h0) in *.
  destruct (handle_message E c' m hi) as [r hl] eqn:Hlast. simpl in *.
  subst r.
  assert (HJ : JSCLIENTS hl = JSCLIENTS h0).
  { pose proof (handle_message_viewers c' m hi) as HJ.
    rewrite Hlast in HJ. simpl in HJ. rewrite HJ.
    apply run_handle_viewers. }
  rewrite (handle_message_publishes c' m hi hl Hfunc Hlast).
  unfold last_broadcast, broadcast_frames. rewrite omap_app.
  rewrite HJ. destruct (decide (JSCLIENTS h0 = ∅)); [done|].
  simpl. by rewrite last_snoc.
Qed.

End HubFacts.

(** ** Validation *)

(** The test of [validate_message] looks at the key ["client"]: a
    message whose client is neither ["dir"] nor ["file"] - every message
    of a registered connection - is accepted whatever its keys. *)
Lemma validate_message_by_client (m : msg) :
  py_in (py_get_or m "client" (VStr "func")) ["dir"; "file"] = false ->
  validate_message m = Ret tt.
Proof. unfold validate_message. by intros ->. Qed.

(** C1 (the code at the failing input). On a fresh hub, a [dir] message
    of a producer that has no [filename] (nor [fileBody], [fileCwd],
    [fileOpen], [fileEncoding], [fileEncoded]) and carries the key
    [bogus] passes [validate_message], is handled without any error, and
    is merged into [MESSAGE], which was empty. *)
Theorem unvalidated_message_is_merged :
  let h := fresh_hub demo_env "/" in
  unvalidated_message !! "filename" = None
  /\ unvalidated_message !! "bogus" = Some (VInt 1)
  /\ validate_message unvalidated_message = Ret tt
  /\ fst (handle_message demo_env 0 unvalidated_message h) = Ret tt
  /\ MESSAGE h = ∅
  /\ MESSAGE (snd (handle_message demo_env 0 unvalidated_message h))
     = unvalidated_message.
Proof. vm_compute. repeat split. Qed.

(** ** Scenarios *)

Lemma encode_idempotent_witness :
  truthy (py_get_or encoded_weird_message "fileEncoded" (VBool false)) = true
  /\ encode demo_env "/" encoded_weird_message = Ret encoded_weird_message.
Proof.
  split; [reflexivity|].
  apply (proj1 (encode_idempotent demo_env "/" encoded_weird_message)).
  reflexivity.
Defined.



Lemma encode_infer_needs_filename_witness :
  (encode_infer demo_env nameless_message = Raise IndexError
   /\ encode demo_env "/" nameless_message = Raise IndexError)
  /\ exists m' encoding,
       encode_infer demo_env (file_message "/" "notes.md" "# hi" "")
       = Ret (m', encoding).
Proof.
  split.
  - destruct (proj1 (encode_infer_needs_filename demo_env "/" nameless_message))
      as [Hblock Hcall]; [reflexivity|reflexivity|].
    split; [exact Hblock|]. apply Hcall. reflexivity.
  - apply (proj2 (encode_infer_needs_filename demo_env "/"
                    (file_message "/" "notes.md" "# hi" ""))).
    right. exists "n"%char, "otes.md". reflexivity.
Defined.

Lemma history_stacks_bounded_witness :
  let h := run demo_env twenty_visits (fresh_hub demo_env "/") in
  let h' := snd (handle_message demo_env 0 (dir_message "/new/") h) in
  let g := run demo_env twenty_returns (fresh_hub demo_env "/") in
  let g' := snd (handle_message demo_env 7 back_request g) in
  (length (BACKMESSAGES h) = 20
   /\ BACKMESSAGES h'
      = history_entry (VStr "/new/") (VStr "<ls>/new/</ls>") (VBool true)
        :: removelast (BACKMESSAGES h))
  /\ (length (FORWARDMESSAGES g) = 20
      /\ FORWARDMESSAGES g'
         = history_entry (VStr "/z/") (VStr "<ls>/z/</ls>") (VBool true)
           :: removelast (FORWARDMESSAGES g)).
Proof.
  intros h h' g g'. split; (split; [vm_compute; reflexivity|]).
  - destruct (proj1 (proj2 (proj2
                (history_stacks_bounded demo_env "/" twenty_visits)))
                0 (dir_message "/new/") h')
      as (top & cwd & Hhead & Hcwd & Hpush).
    + reflexivity.
    + vm_compute. reflexivity.
    + vm_compute. reflexivity.
    + assert (Htop : head (BACKMESSAGES h)
                     = Some (history_entry (VStr "/d19/")
                               (VStr "<ls>/d19/</ls>") (VBool true))).
      { vm_compute. reflexivity. }
      assert (Hnew : MESSAGE h' !! "cwd" = Some (VStr "/new/")
                     /\ MESSAGE h' !! "cwdBody" = Some (VStr "<ls>/new/</ls>")
                     /\ MESSAGE h' !! "cwdEncoded" = Some (VBool true)).
      { vm_compute. repeat split; reflexivity. }
      destruct Hnew as (Hnew & Hbody & Hencoded).
      fold h in Hhead. rewrite Htop in Hhead. rewrite Hnew in Hcwd.
      injection Hhead as <-. injection Hcwd as <-.
      change (py_eq (VStr "/new/")
                (py_get (history_entry (VStr "/d19/") (VStr "<ls>/d19/</ls>")
                           (VBool true)) "cwd")) with false in Hpush.
      destruct Hpush as (cwdBody & cwdEncoded & Hb & He & Hstack).
      rewrite Hbody in Hb. rewrite Hencoded in He.
      injection Hb as <-. injection He as <-. exact Hstack.
  - apply (proj2 (proj2 (proj2
             (history_stacks_bounded demo_env "/" twenty_returns)))
             7 back_request g'
             (history_entry (VStr "/z/") (VStr "<ls>/z/</ls>") (VBool true))
             (history_entry (VStr "/a/") (VStr "<ls>/a/</ls>") (VBool true))
             []).
    + reflexivity.
    + reflexivity.
    + vm_compute. reflexivity.
    + vm_compute. reflexivity.
    + vm_compute. reflexivity.
Defined.

Lemma back_without_history_is_noop_witness :
  let h := fresh_hub demo_env "/" in
  let h' := snd (handle_message demo_env 7 back_request h) in
  MESSAGE h' = MESSAGE h
  /\ BACKMESSAGES h' = BACKMESSAGES h
  /\ FORWARDMESSAGES h' = FORWARDMESSAGES h
  /\ JSCLIENTS h' = JSCLIENTS h
  /\ outbox h' = outbox h.
Proof.
  apply (back_without_history_is_noop demo_env 7 back_request
           (fresh_hub demo_env "/")).
  - reflexivity.
  - simpl. lia.
Defined.


(** C6 as stated fails in its last part: a forced close that carries
    an empty [filename] and no other file field is handled without
    error, and [MESSAGE] still holds the body, the directory and the
    encoding of the file shown before. *)
Lemma forced_close_keeps_missing_file_fields :
  ~ (forall (c : nat) (m : msg) (h h' : hub),
       py_get m "func" = VStr "dir" ->
       truthy (py_get m "filename") = false ->
       truthy (py_get (MESSAGE h) "filename") = true ->
       truthy (py_get_or m "forceClose" (VBool false)) = true ->
       handle_message demo_env c m h = (Ret tt, h') ->
       forall k, k ∈ file_keys -> truthy (py_get (MESSAGE h') k) = false).
Proof.
  intros Hclaim.
  pose (h := run demo_env open_notes (fresh_hub demo_env "/")).
  assert (Hbody : truthy (py_get
                    (MESSAGE (snd (handle_message demo_env 7 bare_close h)))
                    "fileBody") = false).
  { apply (Hclaim 7 bare_close h).
    - reflexivity.
    - reflexivity.
    - reflexivity.
    - reflexivity.
    - vm_compute. reflexivity.
    - key_in_list. }
  vm_compute in Hbody. discriminate Hbody.
Qed.

(** After [/a/] then [/b/], the back button restores [/a/] and puts the
    entry of [/b/] on the forward stack. *)
Lemma back_restores_previous_directory_witness :
  let h := run demo_env visit_a_then_b (fresh_hub demo_env "/") in
  let h' := snd (handle_message demo_env 7 back_request h) in
  FORWARDMESSAGES h'
  = [history_entry (VStr "/b/") (VStr "<ls>/b/</ls>") (VBool true)]
  /\ MESSAGE h' !! "cwd" = Some (VStr "/a/").
Proof.
  intros h h'.
  destruct (back_restores_previous_directory demo_env "/" visit_a_then_b 7
              back_request
              (history_entry (VStr "/b/") (VStr "<ls>/b/</ls>") (VBool true))
              (history_entry (VStr "/a/") (VStr "<ls>/a/</ls>") (VBool true))
              [] h')
    as (Hforward & Hdir & _).
  - reflexivity.
  - reflexivity.
  - vm_compute. reflexivity.
  - vm_compute. reflexivity.
  - split.
    + fold h h' in Hforward. rewrite Hforward. vm_compute. reflexivity.
    + fold h' in Hdir. rewrite (Hdir "cwd"); [reflexivity|key_in_list].
Defined.

(** C7 as stated fails for a back request that carries a true
    [fileOpen]: the hub shows a directory and its back stack holds two
    entries, yet the top entry is not moved to the forward stack and the
    directory shown stays the same. *)
Lemma back_with_fileOpen_skips_forward_stack :
  ~ (forall (ops : list op) (c : nat) (m e1 e2 : msg) (rest : list msg)
            (h' : hub),
       let h := run demo_env ops (fresh_hub demo_env "/") in
       py_get m "func" = VStr "back" ->
       truthy (py_get (MESSAGE h) "fileOpen") = false ->
       BACKMESSAGES h = e1 :: e2 :: rest ->
       handle_message demo_env c m h = (Ret tt, h') ->
       FORWARDMESSAGES h' = appendleft_capped e1 (FORWARDMESSAGES h)
       /\ MESSAGE h' !! "cwd" = e2 !! "cwd").
Proof.
  intros Hclaim.
  destruct (Hclaim visit_a_then_b 7 back_request_file_open
              (history_entry (VStr "/b/") (VStr "<ls>/b/</ls>") (VBool true))
              (history_entry (VStr "/a/") (VStr "<ls>/a/</ls>") (VBool true))
              []
              (snd (handle_message demo_env 7 back_request_file_open
                      (run demo_env visit_a_then_b (fresh_hub demo_env "/")))))
    as [Hforward Hdir].
  - reflexivity.
  - reflexivity.
  - vm_compute. reflexivity.
  - vm_compute. reflexivity.
  - vm_compute in Hdir. discriminate Hdir.
Qed.

Lemma replay_equals_last_broadcast_witness :
  let h := run demo_env (visit_a_then_b ++ open_notes) (fresh_hub demo_env "/") in
  exists h',
    register_client demo_env 8 newjsclient h = (Ret tt, h')
    /\ outbox h' = (outbox h ++ [Send 8 (FState (MESSAGE h))])%list
    /\ MESSAGE h' = MESSAGE h
    /\ last_broadcast (outbox h) = Some ({[7]}, FState (MESSAGE h)).
Proof.
  apply (replay_equals_last_broadcast demo_env "/" [Register 7 newjsclient]
           [(0, dir_message "/a/"); (0, dir_message "/b/");
            (0, file_message "/docs/" "notes.md" "# hi" "")] 8).
  - vm_compute. discriminate.
  - discriminate.
  - repeat constructor.
  - vm_compute. repeat split.
Defined.

(** * Further properties *)

(** ** Connections and the registries *)

Section ConnectionFacts.

Variable E : env.

(** Handling a message never touches the two registries, whatever the
    message and whether the call returns or raises. *)
Lemma handle_message_registries (c : nat) (m : msg) (h : hub) :
  JSCLIENTS (snd (handle_message E c m h)) = JSCLIENTS h
  /\ PYCLIENTS (snd (handle_message E c m h)) = PYCLIENTS h.
Proof.
  apply (handle_message_ind E
           (fun h' => JSCLIENTS h' = JSCLIENTS h
                      /\ PYCLIENTS h' = PYCLIENTS h)); [| |done].
  - intros c' m' h0 r h' [HJ0 HP0] Hbody.
    destruct (handle_message_body_cases E c' m' h0) as (h1 & Hsame & Hcases).
    destruct Hsame as (_ & _ & _ & HJ & HP & _).
    rewrite <- HJ0, <- HP0, <- HJ, <- HP. rewrite Hbody in Hcases.
    destruct Hcases
      as [[e ?]|[[_ ?]|[[_ ?]|[[_ Hed]|[(_&_&?)|[Hback|(_&_&Hupd)]]]]]];
      simplify_eq; try done.
    + symmetry in Hed. by apply edit_current_file_frame in Hed as ->.
    + by destruct Hback as (_ & ? & ? & ? & ? & ? & _ & _ & ?).
    + symmetry in Hupd. apply handle_update_spec in Hupd
        as [[-> _]|[[-> _]|(m'' & _ & _ & Hpub)]]; try done.
      by apply publish_spec in Hpub as (_ & _ & ? & ? & _).
  - intros c' m' h0 restored h' [HJ0 HP0] Hbody.
    destruct (handle_message_body_cases E c' m' h0) as (h1 & Hsame & Hcases).
    destruct Hsame as (_ & _ & _ & HJ & HP & _).
    rewrite <- HJ0, <- HP0, <- HJ, <- HP. rewrite Hbody in Hcases.
    destruct Hcases
      as [[e ?]|[[_ ?]|[[_ ?]|[[_ ?]|[(_&_&?)|[Hback|(_&_&?)]]]]]]; try done.
    destruct Hback as (_ & e1 & e2 & rest & restored' & h2 & _ & Hpop & [= -> ->]).
    by apply back_pop_spec in Hpop as (_ & ? & ? & _).
Qed.

Lemma handle_frames_registries (c : nat) (frames : list msg) (h : hub) :
  JSCLIENTS (snd (handle_frames E c frames h)) = JSCLIENTS h
  /\ PYCLIENTS (snd (handle_frames E c frames h)) = PYCLIENTS h.
Proof.
  revert h. induction frames as [|m frames IH]; intros h; [done|].
  simpl. unfold bind.
  destruct (handle_message_registries c m h) as [HJ HP].
  destruct (handle_message E c m h) as [[[]|e] h1]; simpl in *; [|done].
  destruct (IH h1) as [HJ1 HP1]. by rewrite HJ1, HP1.
Qed.

(** What [register_client] does to the registries. *)
Lemma register_client_registries (c : nat) (first : msg) (h : hub) :
  let h' := snd (register_client E c first h) in
  (JSCLIENTS h' = JSCLIENTS h \/ JSCLIENTS h' = {[c]} ∪ JSCLIENTS h)
  /\ (PYCLIENTS h' = PYCLIENTS h \/ PYCLIENTS h' = {[c]} ∪ PYCLIENTS h).
Proof.
  unfold register_client, bind, raise.
  destruct (py_eq _ (VStr "js")); [|destruct (py_eq _ (VStr "py"))];
    cbv beta iota.
  - match goal with |- context [handle_message E c first ?h0] =>
      destruct (handle_message_registries c first h0) as [-> ->] end.
    simpl. auto.
  - match goal with |- context [handle_message E c first ?h0] =>
      destruct (handle_message_registries c first h0) as [-> ->] end.
    simpl. auto.
  - simpl. auto.
Qed.

(** X1. Once the registration of a connection has returned, serving it
    ends with the connection in neither registry, whichever of its
    frames raises, and with every other connection registered as
    before. *)
Theorem serve_client_unregisters (c : nat) (first : msg) (frames : list msg)
    (h : hub) :
  fst (register_client E c first h) = Ret tt ->
  let h' := snd (serve_client E c first frames h) in
  JSCLIENTS h' = JSCLIENTS h ∖ {[c]}
  /\ PYCLIENTS h' = PYCLIENTS h ∖ {[c]}.
Proof.
  intros Hreg. unfold serve_client, bind.
  pose proof (register_client_registries c first h) as Hsets.
  destruct (register_client E c first h) as [r h1]. simpl in Hreg, Hsets.
  subst r. cbv beta iota.
  destruct (handle_frames_registries c frames h1) as [HJ HP].
  destruct (handle_frames E c frames h1) as [r2 h2]. simpl in *.
  rewrite HJ, HP. destruct Hsets as [[->| ->] [->| ->]]; set_solver.
Qed.

(** X2. A connection whose first frame names the role [js] but makes
    [handle_message] raise is registered as a viewer and stays so: the
    registration is outside the [try] of [serve_client], so nothing
    unregisters it and none of its later frames is handled. *)
Theorem failed_viewer_stays_registered (c : nat) (first : msg)
    (frames : list msg) (h : hub) (e : exn) :
  py_get_or first "client" (VStr "") = VStr "js" ->
  fst (register_client E c first h) = Raise e ->
  serve_client E c first frames h = register_client E c first h
  /\ c ∈ JSCLIENTS (snd (serve_client E c first frames h)).
Proof.
  intros Hrole Hraise. unfold serve_client, bind.
  assert (Hin : c ∈ JSCLIENTS (snd (register_client E c first h))).
  { unfold register_client, bind. rewrite Hrole.
    change (py_eq (VStr "js") (VStr "js")) with true. cbv beta iota.
    match goal with |- context [handle_message E c first ?h0] =>
      destruct (handle_message_registries c first h0) as [-> _] end.
    simpl. set_solver. }
  destruct (register_client E c first h) as [r h1]. simpl in *. by subst r.
Qed.

(** X3. A first frame whose [client] is neither ["js"] nor ["py"] -
    or is missing - is refused with [ValueError]: the hub is exactly as
    before, nothing is registered, sent or handled. *)
Theorem unknown_role_is_refused (c : nat) (first : msg) (frames : list msg)
    (h : hub) :
  py_in (py_get_or first "client" (VStr "")) ["js"; "py"] = false ->
  serve_client E c first frames h = (Raise ValueError, h).
Proof.
  unfold py_in. cbn [existsb]. rewrite !orb_false_iff.
  intros (Hjs & Hpy & _). unfold serve_client, register_client, bind, raise.
  by rewrite Hjs, Hpy.
Qed.

(** X4. The count query of [ask_num_js_clients], served on a connection
    of its own: the hub replies with the number of registered viewers
    and is otherwise exactly as before - the querying connection does
    not count as a viewer and leaves no trace in the registries. *)
Theorem count_query_is_pure (c : nat) (h : hub) :
  c ∉ JSCLIENTS h -> c ∉ PYCLIENTS h ->
  serve_client E c num_js_clients_query [] h
  = (Ret tt, emit (Send c (FCount (size (JSCLIENTS h)))) h).
Proof.
  intros HJ HP. unfold serve_client, register_client, bind.
  change (py_eq (py_get_or num_js_clients_query "client" (VStr "")) (VStr "js"))
    with false.
  change (py_eq (py_get_or num_js_clients_query "client" (VStr "")) (VStr "py"))
    with true.
  cbv beta iota. rewrite handle_message_unfold. unfold handle_message_body.
  change (validate_message (delete "nvimAddress" num_js_clients_query))
    with (Ret tt).
  unfold chdir_to_cwd.
  change (delete "nvimAddress" num_js_clients_query !! "cwd")
    with (@None value).
  change (py_get num_js_clients_query "func") with (VStr "numJSClients").
  cbn [truthy negb String.eqb Ascii.eqb Bool.eqb py_eq].
  cbv beta iota. simpl handle_frames. unfold ret, unregister_client.
  destruct h as [M B F J P nv wd out]. unfold emit, set_clients,
    set_nvim_address, py_get_or. simpl in *. f_equal. f_equal; set_solver.
Qed.

(** X5. An [editFile] request never changes the canonical state, the
    stacks, the registries or the outbox; and while [MESSAGE] has no
    [fileCwd] - as on a fresh hub - it raises [KeyError]. *)
Theorem edit_file_changes_nothing (c : nat) (m : msg) (h : hub) :
  py_get m "func" = VStr "editFile" ->
  same_canonical h (snd (handle_message E c m h))
  /\ (m !! "cwd" = None ->
      py_in (py_get_or m "client" (VStr "func")) ["dir"; "file"] = false ->
      MESSAGE h !! "fileCwd" = None ->
      fst (handle_message E c m h) = Raise KeyError).
Proof.
  intros Hfunc. split.
  - rewrite handle_message_unfold.
    destruct (handle_message_body_cases E c m h) as (h1 & Hsame & Hcases).
    rewrite Hfunc in Hcases.
    destruct Hcases
      as [[e ->]|[[? _]|[[? _]|[[_ ->]|[(?&_)|[(?&_)|(_&?&_)]]]]]];
      try done.
    destruct (edit_current_file E h1) as [r h2] eqn:Hed.
    by apply edit_current_file_frame in Hed as ->.
  - intros Hcwd Hclient Hnone. rewrite handle_message_unfold.
    unfold handle_message_body.
    rewrite validate_message_by_client by by rewrite py_get_or_delete.
    unfold chdir_to_cwd. rewrite lookup_delete_ne by done. rewrite Hcwd.
    rewrite Hfunc.
    cbn [truthy negb String.eqb Ascii.eqb Bool.eqb py_eq].
    unfold edit_current_file. simpl. by rewrite Hnone.
Qed.

(** X6. A message whose [cwd] is not a text, or names a directory that
    [os.chdir] refuses, is rejected whatever its [func]: the call raises
    and the canonical state, the stacks, the registries and the outbox
    are as before. *)
Theorem unreachable_cwd_is_rejected (c : nat) (m : msg) (h : hub)
    (cwd : value) :
  m !! "cwd" = Some cwd ->
  (forall d, cwd = VStr d -> os_chdir E (ARGS_home E ++ d) = None) ->
  (exists e, fst (handle_message E c m h) = Raise e)
  /\ same_canonical h (snd (handle_message E c m h)).
Proof.
  intros Hcwd Hbad. rewrite handle_message_unfold. unfold handle_message_body.
  destruct (validate_message _) as [[]|e]; [|split; [by eexists|by repeat split]].
  unfold chdir_to_cwd. rewrite lookup_delete_ne by done. rewrite Hcwd.
  destruct cwd as [| | |d]; try (split; [by eexists|by repeat split]).
  rewrite (Hbad d eq_refl). split; [by eexists|by repeat split].
Qed.

End ConnectionFacts.

(** ** The history stacks *)

Section HistoryFacts.

Variable E : env.

Lemma py_eq_refl (v : value) : py_eq v v = true.
Proof.
  destruct v as [|b|n|s]; simpl; auto.
  - by destruct b.
  - apply Z.eqb_refl.
  - apply String.eqb_refl.
Qed.

Lemma cap_20_head (x : msg) (l : list msg) :
  exists l', cap_20 (x :: l) = x :: l'.
Proof.
  unfold cap_20. destruct (20 <? length (x :: l))%nat eqn:Hfull; [|by eexists].
  destruct l as [|y l]; [done|]. by eexists.
Qed.

Lemma no_repeat_tail (e : msg) (l : list msg) :
  no_repeat (e :: l) -> no_repeat l.
Proof. destruct l; [done|]. by intros [_ ?]. Qed.

Lemma no_repeat_take (n : nat) (l : list msg) :
  no_repeat l -> no_repeat (take n l).
Proof.
  revert n. induction l as [|e1 l IH]; intros n Hl; [by destruct n|].
  destruct n as [|n]; [done|]. destruct l as [|e2 l]; [by destruct n|].
  destruct Hl as [Hne Hl]. specialize (IH n Hl).
  destruct n as [|n]; [done|]. by split.
Qed.

Lemma no_repeat_cap_20 (l : list msg) : no_repeat l -> no_repeat (cap_20 l).
Proof.
  intros Hl. unfold cap_20. destruct (20 <? length l)%nat; [|done].
  rewrite removelast_firstn_len. by apply no_repeat_take.
Qed.

(** How a merge moves the back stack. *)
Lemma publish_back_stack (m : msg) (h h' : hub) (r : result unit) :
  publish E m h = (r, h') ->
  (BACKMESSAGES h' = BACKMESSAGES h
   \/ exists cwd cwdBody cwdEncoded,
        BACKMESSAGES h'
        = appendleft_capped (history_entry cwd cwdBody cwdEncoded)
                            (BACKMESSAGES h)
        /\ MESSAGE h' !! "cwd" = Some cwd
        /\ forall top rest, BACKMESSAGES h = top :: rest ->
                            py_eq cwd (py_get top "cwd") = false)
  /\ (r = Ret tt ->
      exists top rest cwd,
        BACKMESSAGES h' = top :: rest
        /\ MESSAGE h' !! "cwd" = Some cwd
        /\ py_eq cwd (py_get top "cwd") = true).
Proof.
  intros [(e & -> & ->)|Hsend]%publish_send; [by split; [left|]|].
  apply send_message_to_all_js_clients_spec in Hsend
    as (HM & _ & _ & _ & _ & _ & Hsend).
  set (h1 := set_MESSAGE (py_update (MESSAGE h) m) h) in *.
  change (BACKMESSAGES h) with (BACKMESSAGES h1).
  destruct Hsend as [(e & -> & ->)|(-> & _ & Hpush)]; [by split; [left|]|].
  destruct Hpush as [[Hsame HB]|(cwd & cwdBody & cwdEncoded & Hch & Hcwd & _ & _ & HB)].
  - split; [by left|]. intros _. rewrite HB, HM.
    unfold cwd_changed in Hsame.
    destruct (BACKMESSAGES h1) as [|top rest]; [done|].
    unfold py_item in Hsame.
    destruct (MESSAGE h1 !! "cwd") as [cwd|]; [|done]. simpl in Hsame.
    destruct (top !! "cwd") as [last|] eqn:Hlast; [|done]. simpl in Hsame.
    exists top, rest, cwd. repeat split; try done.
    unfold py_get. rewrite Hlast. simpl.
    injection Hsame as Hsame. by apply negb_false_iff in Hsame.
  - split.
    + right. exists cwd, cwdBody, cwdEncoded. rewrite HM.
      repeat split; try done.
      intros top rest Hstack. unfold cwd_changed in Hch.
      rewrite Hstack in Hch. unfold py_item in Hch. rewrite Hcwd in Hch.
      simpl in Hch.
      destruct (top !! "cwd") as [last|] eqn:Hlast; [|done]. simpl in Hch.
      unfold py_get. rewrite Hlast. simpl.
      injection Hch as Hch. by apply negb_true_iff in Hch.
    + intros _. rewrite HB, HM. unfold appendleft_capped.
      destruct (cap_20_head (history_entry cwd cwdBody cwdEncoded)
                  (BACKMESSAGES h1)) as [l' ->].
      exists (history_entry cwd cwdBody cwdEncoded), l', cwd.
      repeat split; try done. apply py_eq_refl.
Qed.

Lemma handle_message_no_repeat (c : nat) (m : msg) (h : hub) :
  no_repeat (BACKMESSAGES h) ->
  no_repeat (BACKMESSAGES (snd (handle_message E c m h))).
Proof.
  apply (handle_message_ind E (fun h' => no_repeat (BACKMESSAGES h'))).
  - intros c' m' h0 r h' Hinv Hbody.
    destruct (handle_message_body_cases E c' m' h0) as (h1 & Hsame & Hcases).
    destruct Hsame as (_ & HB & _). rewrite <- HB in Hinv.
    rewrite Hbody in Hcases.
    destruct Hcases
      as [[e ?]|[[_ ?]|[[_ ?]|[[_ Hed]|[(_&_&?)|[Hback|(_&_&Hupd)]]]]]];
      simplify_eq; try done.
    + symmetry in Hed. by apply edit_current_file_frame in Hed as ->.
    + by destruct Hback as (_ & ? & ? & ? & ? & ? & _ & _ & ?).
    + symmetry in Hupd. apply handle_update_spec in Hupd
        as [[-> _]|[[-> _]|(m'' & _ & _ & Hpub)]]; try done.
      apply publish_back_stack in Hpub as [[->|Hpush] _]; [done|].
      destruct Hpush as (cwd & cwdBody & cwdEncoded & -> & _ & Hne).
      apply no_repeat_cap_20.
      destruct (BACKMESSAGES h1) as [|top rest] eqn:Hstack; [done|].
      split; [|done]. by apply (Hne top rest).
  - intros c' m' h0 restored h' Hinv Hbody.
    destruct (handle_message_body_cases E c' m' h0) as (h1 & Hsame & Hcases).
    rewrite Hbody in Hcases.
    destruct Hcases
      as [[e ?]|[[_ ?]|[[_ ?]|[[_ ?]|[(_&_&?)|[Hback|(_&_&?)]]]]]]; try done.
    destruct Hback
      as (_ & e1 & e2 & rest & restored' & h2 & Hstack & Hpop & [= -> ->]).
    rewrite Hstack in Hinv.
    apply back_pop_spec in Hpop as (_&_&_&_&_&_&Hpop).
    destruct Hpop as [(_&_&->&_)|(_&_&->&_)].
    + by apply no_repeat_tail in Hinv.
    + by do 2 apply no_repeat_tail in Hinv.
Qed.

(** X7. In every state the hub can reach from its start, whatever the
    operations and whether they return or raise, no two neighbouring
    entries of the back stack show the same directory. *)
Theorem back_stack_never_repeats (startdir : string) (ops : list op) :
  no_repeat (BACKMESSAGES (run E ops (fresh_hub E startdir))).
Proof.
  assert (Hrun : forall ops h, no_repeat (BACKMESSAGES h) ->
                               no_repeat (BACKMESSAGES (run E ops h))).
  { clear ops. intros ops. induction ops as [|o ops IH]; intros h Hh; [done|].
    simpl. apply IH. destruct o as [c m|c m|c]; simpl.
    - unfold register_client, bind.
      destruct (py_eq _ (VStr "js")); [|destruct (py_eq _ (VStr "py"))];
        simpl; try done; by apply handle_message_no_repeat.
    - by apply handle_message_no_repeat.
    - done. }
  by apply Hrun.
Qed.

(** X8. After a [dir] or [file] message whose handling returns, the
    back stack is not empty and its top shows the directory of
    [MESSAGE]. *)
Theorem back_stack_top_is_current (c : nat) (m : msg) (h h' : hub) :
  py_in (py_get m "func") ["dir"; "file"] = true ->
  handle_message E c m h = (Ret tt, h') ->
  exists top rest cwd,
    BACKMESSAGES h' = top :: rest
    /\ MESSAGE h' !! "cwd" = Some cwd
    /\ py_eq cwd (py_get top "cwd") = true.
Proof.
  intros Hfunc Hrun. rewrite handle_message_unfold in Hrun.
  destruct (handle_message_body_cases E c m h) as (h1 & Hsame & Hcases).
  assert (Hdirfile : py_get m "func" = VStr "dir"
                     \/ py_get m "func" = VStr "file").
  { unfold py_in in Hfunc. cbn [existsb] in Hfunc.
    rewrite !orb_true_iff in Hfunc.
    destruct Hfunc as [?%py_eq_str|[?%py_eq_str|?]]; auto. done. }
  destruct Hcases
    as [[e He]|[[Hf _]|[[Hf _]|[[Hf _]|[(Hf&_)|[(Hf&_)|(_&_&Hbody)]]]]]];
    try (by rewrite He in Hrun);
    try (by destruct Hdirfile as [Hd|Hd]; rewrite Hd in Hf).
  rewrite Hbody in Hrun.
  apply handle_update_spec in Hrun
    as [[_ [e [_ ?]]]|[(_ & _ & Hno)|(m' & _ & _ & Hpub)]]; try done.
  { by rewrite Hfunc in Hno. }
  apply publish_back_stack in Hpub as [_ Htop]. by apply Htop.
Qed.

(** X9. Nothing ever takes an entry off the forward stack to show it:
    an operation leaves the forward stack as it is, unless it is a
    [back] request, which may push the top of the back stack on it (the
    entry beyond the twentieth is dropped). *)
Theorem forward_stack_only_grows (c : nat) (m : msg) (h : hub) :
  stacks_ok h ->
  let h' := snd (handle_message E c m h) in
  FORWARDMESSAGES h' = FORWARDMESSAGES h
  \/ (py_get m "func" = VStr "back"
      /\ exists e rest,
           BACKMESSAGES h = e :: rest
           /\ FORWARDMESSAGES h' = appendleft_capped e (FORWARDMESSAGES h)).
Proof.
  intros Hok h'. subst h'.
  assert (Hdone : forall c0 m0 h0 r0,
            handle_message_body E c0 m0 h0 = Done r0 ->
            FORWARDMESSAGES (snd r0) = FORWARDMESSAGES h0).
  { intros c0 m0 h0 r0 Hbody.
    destruct (handle_message_body_cases E c0 m0 h0) as (h1 & Hsame & Hcases).
    destruct Hsame as (_ & _ & HF & _). rewrite <- HF.
    rewrite Hbody in Hcases.
    destruct Hcases
      as [[e ?]|[[_ ?]|[[_ ?]|[[_ Hed]|[(_&_&?)|[Hback|(_&_&Hupd)]]]]]];
      simplify_eq; try done.
    - destruct (edit_current_file E h1) as [r2 h2] eqn:Hed.
      by apply edit_current_file_frame in Hed as ->.
    - by destruct Hback as (_ & ? & ? & ? & ? & ? & _ & _ & ?).
    - destruct (handle_update E _ _ h1) as [r2 h2] eqn:Hupd.
      apply handle_update_spec in Hupd
        as [[-> _]|[[-> _]|(m'' & _ & _ & Hpub)]]; try done.
      by apply publish_spec in Hpub as (_ & ? & _). }
  rewrite handle_message_unfold.
  destruct (handle_message_body E c m h) as [r|restored h2] eqn:Hbody.
  { left. by eapply Hdone. }
  destruct (handle_message_body_cases E c m h) as (h1 & Hsame & Hcases).
  destruct Hsame as (_ & HB & HF & _).
  rewrite Hbody in Hcases.
  destruct Hcases
    as [[e ?]|[[_ ?]|[[_ ?]|[[_ ?]|[(_&_&?)|[Hback|(_&_&?)]]]]]]; try done.
  destruct Hback
    as (Hfunc & e1 & e2 & rest & restored' & h2' & Hstack & Hpop & [= <- <-]).
  destruct Hok as (_ & Hlen & Hsnap & _).
  rewrite Hstack in Hsnap.
  apply Forall_cons in Hsnap as [He1 [He2 _]%Forall_cons].
  apply back_pop_spec in Hpop as (_&_&_&_&_&_&Hpop).
  assert (Hcap : cap_20 (FORWARDMESSAGES h) = FORWARDMESSAGES h).
  { unfold cap_20. destruct (20 <? _)%nat eqn:Hfull; [|done].
    apply Nat.ltb_lt in Hfull. lia. }
  assert (Hsnapshot : forall e h3, is_snapshot e ->
            FORWARDMESSAGES (snd (handle_message E c e h3))
            = FORWARDMESSAGES h3).
  { intros e h3 (cwd & cwdBody & cwdEncoded & ->).
    rewrite handle_message_unfold.
    destruct (handle_message_body E c _ h3) as [r3|restored3 h4] eqn:Hbody3.
    { by eapply Hdone. }
    destruct (handle_message_body_cases E c
                (history_entry cwd cwdBody cwdEncoded) h3)
      as (h5 & _ & Hcases).
    rewrite Hbody3 in Hcases.
    change (py_get (history_entry cwd cwdBody cwdEncoded) "func")
      with (VStr "dir") in Hcases.
    by destruct Hcases
      as [[e ?]|[[_ ?]|[[_ ?]|[[_ ?]|[(_&_&?)|[(?&_)|(_&_&?)]]]]]]. }
  destruct Hpop as [(_ & -> & _ & HF2)|(_ & -> & _ & HF2)].
  - left. rewrite Hsnapshot by done. by rewrite HF2, HF, Hcap.
  - right. split; [done|]. exists e1, (e2 :: rest). split; [done|].
    rewrite Hsnapshot by done. by rewrite HF2, HF.
Qed.

End HistoryFacts.

(** ** More on the renderer dispatch *)

Section MoreEncodeFacts.

Variable E : env.
Variable cwd : string.

Lemma encode_keeps_key (m m' : msg) (k : string) :
  encode E cwd m = Ret m' ->
  k <> "fileBody" -> k <> "fileEncoding" -> k <> "fileEncoded" ->
  m' !! k = m !! k.
Proof.
  unfold encode. pose proof (encode_run_body E cwd m) as Hrun.
  destruct (encode_run E cwd m) as [frames r]. simpl. intros -> Hk1 Hk2 Hk3.
  unfold encode_body in Hrun.
  destruct (truthy (py_get_or m "fileEncoded" (VBool false))).
  { simplify_eq. reflexivity. }
  destruct (encode_infer E _) as [[m1 encoding]|] eqn:Hinfer; [|done].
  assert (Hm1 : m1 !! k = m !! k).
  { rewrite (encode_infer_frame E _ _ _ k Hinfer) by done.
    by rewrite lookup_insert_ne. }
  assert (Hrender : forall f m2, m2 !! k = m !! k ->
            render_body f m2 = Ret m' -> m' !! k = m !! k).
  { intros f m2 Hm2 (body & html & _ & _ & ->)%render_body_ret.
    by rewrite lookup_insert_ne. }
  rewrite !encode_tail_1 in Hrun.
  repeat (case_match; simplify_eq; try done);
    try (by rewrite lookup_insert_ne);
    try (eapply Hrender; [|eassumption]; by rewrite ?lookup_insert_ne).
Qed.

(** X10. [encode] writes no key but [fileBody], [fileEncoding] and
    [fileEncoded]: every other key of the message it returns - the
    directory fields, [func], [client], [filename] - is as it was. *)
Theorem encode_frame (m m' : msg) (k : string) :
  encode E cwd m = Ret m' ->
  k <> "fileBody" -> k <> "fileEncoding" -> k <> "fileEncoded" ->
  m' !! k = m !! k.
Proof. apply encode_keeps_key. Qed.


Lemma rfind_from_absent (c : ascii) (s : string) (i last : Z) :
  str_mem c s = false -> rfind_from c s i last = last.
Proof.
  revert i last. induction s as [|a s IH]; intros i last; simpl; [done|].
  intros [Ha Hs]%orb_false_iff. rewrite Ha. by apply IH.
Qed.

Lemma rfind_from_app (c : ascii) (s1 s2 : string) (i last : Z) :
  rfind_from c (s1 ++ s2) i last
  = rfind_from c s2 (i + Z.of_nat (String.length s1)) (rfind_from c s1 i last).
Proof.
  revert i last. induction s1 as [|a s1 IH]; intros i last; simpl.
  - by rewrite Z.add_0_r.
  - rewrite IH. f_equal. lia.
Qed.

Lemma rfind_from_lower (c : ascii) (s : string) (i last : Z) :
  (-1 <= last)%Z -> (0 <= i)%Z -> (-1 <= rfind_from c s i last)%Z.
Proof.
  revert i last. induction s as [|a s IH]; intros i last Hlast Hi; simpl;
    [done|].
  apply IH; [|lia]. destruct (Ascii.eqb a c); lia.
Qed.

Lemma str_mem_app (c : ascii) (s1 s2 : string) :
  str_mem c (s1 ++ s2) = str_mem c s1 || str_mem c s2.
Proof.
  induction s1 as [|a s1 IH]; simpl; [done|]. by rewrite IH, orb_assoc.
Qed.

Lemma str_take_app (s1 s2 : string) :
  str_take (String.length s1) (s1 ++ s2) = s1.
Proof. induction s1 as [|a s1 IH]; simpl; [by destruct s2|by rewrite IH]. Qed.

Lemma str_drop_app (s1 s2 : string) :
  str_drop (String.length s1) (s1 ++ s2) = s2.
Proof. induction s1 as [|a s1 IH]; simpl; [done|by rewrite IH]. Qed.

(** [os.path.splitext] on a file name whose last dot is not among its
    leading dots. *)
Lemma splitext_extension (base ext : string) :
  str_mem "/" base = false -> str_mem "/" ext = false ->
  str_mem "." ext = false -> str_all "." base = false ->
  splitext (base ++ String "." ext) = (base, String "." ext).
Proof.
  intros Hb Hs He Hbase. unfold splitext, rfind.
  rewrite (rfind_from_absent "/")
    by (rewrite str_mem_app; simpl; by rewrite Hb, Hs).
  rewrite rfind_from_app. simpl.
  rewrite (rfind_from_absent "." ext) by done.
  rewrite Z.add_0_l.
  replace (-1 <? Z.of_nat (String.length base))%Z with true
    by (symmetry; apply Z.ltb_lt; lia).
  replace (Z.to_nat (Z.of_nat (String.length base) - (-1 + 1)))
    with (String.length base) by lia.
  replace (Z.to_nat (-1 + 1)) with 0%nat by lia.
  replace (Z.to_nat (Z.of_nat (String.length base)))
    with (String.length base) by lia.
  change (str_drop 0 (base ++ String "." ext)) with (base ++ String "." ext).
  rewrite str_take_app, Hbase. by rewrite str_drop_app.
Qed.

Lemma splitext_no_dot (fn : string) :
  str_mem "." fn = false -> splitext fn = (fn, "").
Proof.
  intros Hdot. unfold splitext, rfind.
  rewrite (rfind_from_absent "." fn) by done.
  pose proof (rfind_from_lower "/" fn 0 (-1) ltac:(lia) ltac:(lia)) as Hsep.
  replace (rfind_from "/" fn 0 (-1) <? -1)%Z with false; [done|].
  symmetry. apply Z.ltb_ge. lia.
Qed.

(** X11. With no encoding declared, a file name [base.ext] - [ext]
    without a dot, [base] not made of dots only, no slash in either -
    gives the encoding [ext], and the default [ARGS.stdin] when [ext] is
    empty; the inferred encoding is written into the message. *)
Theorem encode_infers_extension (m : msg) (base ext : string) :
  truthy (py_get m "fileEncoding") = false ->
  py_get m "filename" = VStr (base ++ String "." ext) ->
  str_mem "/" base = false -> str_mem "/" ext = false ->
  str_mem "." ext = false -> str_all "." base = false ->
  let encoding := if String.eqb ext "" then ARGS_stdin E else ext in
  encode_infer E m
  = Ret (<["fileEncoding" := VStr encoding]> m, VStr encoding).
Proof.
  intros Hnone Hname Hb Hs He Hbase encoding. unfold encode_infer.
  rewrite Hnone, Hname.
  destruct (base ++ String "." ext) as [|c rest] eqn:Hfn.
  { by destruct base. }
  assert (Hsplit : str_drop 1 (snd (splitext (String c rest))) = ext).
  { rewrite <- Hfn, splitext_extension by done. reflexivity. }
  rewrite Hsplit.
  assert (Hdotfile : Ascii.eqb c "." && negb (str_mem "." rest) = false).
  { destruct base as [|b base]; [done|]. simpl in Hfn.
    injection Hfn as -> <-. rewrite str_mem_app. simpl.
    rewrite orb_true_r. apply andb_false_r. }
  by rewrite Hdotfile.
Qed.

(** X12. With no encoding declared, a name that starts with a dot and
    has no other dot (a dot-file) is rendered as [txt], and a name
    without any dot falls back on the default [ARGS.stdin]. *)
Theorem encode_infers_without_extension (m : msg) (name : string) :
  truthy (py_get m "fileEncoding") = false ->
  str_mem "." name = false ->
  (py_get m "filename" = VStr (String "." name) ->
   encode_infer E m
   = Ret (<["fileEncoding" := VStr "txt"]> m, VStr "txt"))
  /\ (py_get m "filename" = VStr name -> name <> "" ->
      encode_infer E m
      = Ret (<["fileEncoding" := VStr (ARGS_stdin E)]> m,
             VStr (ARGS_stdin E))).
Proof.
  intros Hnone Hdot. unfold encode_infer. rewrite Hnone. split.
  - intros ->. rewrite Ascii.eqb_refl, Hdot. reflexivity.
  - intros -> Hne. destruct name as [|c rest]; [done|].
    simpl in Hdot. apply orb_false_iff in Hdot as [Hc Hrest].
    rewrite Hc. simpl.
    rewrite splitext_no_dot by (simpl; by rewrite Hc, Hrest). reflexivity.
Qed.



(** X14. A notebook that is not yet encoded: the HTML of [nbconvert]
    becomes the body; when [nbconvert] cannot be imported the message is
    degraded to [txt] and its body rendered in a fenced code block, an
    exception of that rendering reaching the caller; any other exception
    of the notebook renderer reaches the caller. *)
Theorem encode_notebook (m : msg) (body : value) :
  truthy (py_get_or m "fileEncoded" (VBool false)) = false ->
  m !! "fileEncoding" = Some (VStr "ipynb") ->
  m !! "fileBody" = Some body ->
  encode E cwd m
  = match ipynb2body E body with
    | Ret html =>
        Ret (<["fileBody" := VStr html]> (<["fileEncoded" := VBool true]> m))
    | Raise ImportError =>
        match md2body_text E cwd (fence body) with
        | Ret html =>
            Ret (<["fileBody" := VStr html]>
                   (<["fileEncoding" := VStr "txt"]>
                      (<["fileEncoded" := VBool true]> m)))
        | Raise e => Raise e
        end
    | Raise e => Raise e
    end.
Proof.
  intros Hfresh Hdeclared Hbody. unfold encode.
  pose proof (encode_run_body E cwd m) as Hrun.
  unfold encode_body in Hrun. rewrite Hfresh in Hrun.
  assert (Hinfer : encode_infer E (<["fileEncoded" := VBool true]> m)
                   = Ret (<["fileEncoded" := VBool true]> m, VStr "ipynb")).
  { unfold encode_infer, py_get. rewrite lookup_insert_ne by done.
    by rewrite Hdeclared. }
  rewrite Hinfer in Hrun.
  change (py_eq (VStr "ipynb") (VStr "md")) with false in Hrun.
  change (py_eq (VStr "ipynb") (VStr "ipynb")) with true in Hrun.
  cbv iota in Hrun. unfold py_item at 1 in Hrun.
  rewrite lookup_insert_ne in Hrun by done. rewrite Hbody in Hrun.
  rewrite encode_tail_1 in Hrun.
  change (py_eq (VStr "txt") (VStr "txt")) with true in Hrun.
  cbv iota in Hrun.
  assert (Hdegraded :
            render_body (txt2body E cwd)
              (<["fileEncoding" := VStr "txt"]>
                 (<["fileEncoded" := VBool true]> m))
            = match md2body_text E cwd (fence body) with
              | Ret html =>
                  Ret (<["fileBody" := VStr html]>
                         (<["fileEncoding" := VStr "txt"]>
                            (<["fileEncoded" := VBool true]> m)))
              | Raise e => Raise e
              end).
  { unfold render_body, py_item. rewrite !lookup_insert_ne by done.
    rewrite Hbody. unfold txt2body, md2body. simpl.
    by destruct (md2body_text E cwd (fence body)). }
  rewrite Hdegraded in Hrun.
  destruct (ipynb2body E body) as [html|e].
  { by injection Hrun as <-. }
  destruct e; by injection Hrun as <-.
Qed.

End MoreEncodeFacts.

(** ** What reaches the canonical state *)

Section MergeFacts.

Variable E : env.

Lemma merge_open_file_frame (canonical m m' : msg) (k : string) :
  merge_open_file canonical m = Ret m' ->
  k ∉ file_keys -> k <> "forceClose" -> m' !! k = m !! k.
Proof.
  unfold merge_open_file. intros Hmerge Hk Hforce.
  destruct (_ && _); [|by simplify_eq].
  destruct (negb _).
  - apply copy_file_fields_spec in Hmerge as [_ Hrest].
    rewrite Hrest by done. by apply lookup_delete_ne.
  - simplify_eq. by apply lookup_delete_ne.
Qed.

(** The message that [prepare] hands to the merge differs from the one
    received in the file fields, the listing and [forceClose] only. *)
Lemma prepare_frame (func : value) (m m' : msg) (h : hub) (k : string) :
  prepare E func m h = Ret m' ->
  k ∉ file_keys -> k <> "cwdBody" -> k <> "cwdEncoded" ->
  k <> "forceClose" -> m' !! k = m !! k.
Proof.
  unfold prepare. intros Hprep Hk Hb He Hf.
  assert (Hkeys : k <> "fileBody" /\ k <> "fileEncoding"
                  /\ k <> "fileEncoded").
  { repeat split; intros ->; apply Hk; key_in_list. }
  destruct Hkeys as (? & ? & ?).
  destruct (py_eq func (VStr "dir")).
  - destruct (merge_open_file (MESSAGE h) m) as [m1|] eqn:Hmerge; [|done].
    simpl in Hprep.
    destruct (render_cwd E m1) as [m2|] eqn:Hrender; [|done]. simpl in Hprep.
    assert (Hm2 : m2 !! k = m !! k).
    { rewrite (render_cwd_frame E _ _ k Hrender) by done.
      by apply (merge_open_file_frame _ _ _ _ Hmerge). }
    destruct (py_eq func (VStr "file")); [|by simplify_eq].
    by rewrite (encode_keeps_key E _ _ _ k Hprep).
  - simpl in Hprep. destruct (py_eq func (VStr "file")); [|by simplify_eq].
    by apply (encode_keeps_key E _ _ _ k Hprep).
Qed.

(** The end of a [dir] or [file] message whose handling returns. *)
Lemma handle_message_merges (c : nat) (m : msg) (h h' : hub) :
  py_in (py_get m "func") ["dir"; "file"] = true ->
  handle_message E c m h = (Ret tt, h') ->
  exists h1 m',
    MESSAGE h1 = MESSAGE h /\ oscwd h1 = oscwd h'
    /\ prepare E (py_get m "func") (delete "nvimAddress" m) h1 = Ret m'
    /\ MESSAGE h' = py_update (MESSAGE h) m'.
Proof.
  intros Hfunc Hrun. rewrite handle_message_unfold in Hrun.
  destruct (handle_message_body_cases E c m h) as (h1 & Hsame & Hcases).
  destruct Hsame as (HM & _).
  assert (Hdirfile : py_get m "func" = VStr "dir"
                     \/ py_get m "func" = VStr "file").
  { unfold py_in in Hfunc. cbn [existsb] in Hfunc.
    rewrite !orb_true_iff in Hfunc.
    destruct Hfunc as [?%py_eq_str|[?%py_eq_str|?]]; auto. done. }
  destruct Hcases
    as [[e He]|[[Hf _]|[[Hf _]|[[Hf _]|[(Hf&_)|[(Hf&_)|(_&_&Hbody)]]]]]];
    try (by rewrite He in Hrun);
    try (by destruct Hdirfile as [Hd|Hd]; rewrite Hd in Hf).
  rewrite Hbody in Hrun.
  apply handle_update_spec in Hrun
    as [[_ [e [_ ?]]]|[(_ & _ & Hno)|(m' & Hprep & _ & Hpub)]]; try done.
  { by rewrite Hfunc in Hno. }
  apply publish_spec in Hpub as (HM' & _ & _ & _ & _ & HO & _).
  exists h1, m'. repeat split; try done. by rewrite HM', HM.
Qed.

(** X15. A [dir] message whose [cwdEncoded] is false, once handled: its
    [cwd] is a text, [dir2body] has been run on it, and [MESSAGE] holds
    the listing with [cwdEncoded] true - whatever [cwdBody] the message
    carried. *)
Theorem dir_message_renders_listing (c : nat) (m : msg) (h h' : hub)
    (encoded : value) :
  py_get m "func" = VStr "dir" ->
  m !! "cwdEncoded" = Some encoded -> truthy encoded = false ->
  handle_message E c m h = (Ret tt, h') ->
  exists d listing,
    m !! "cwd" = Some (VStr d)
    /\ dir2body E d = Ret listing
    /\ MESSAGE h' !! "cwdBody" = Some (VStr listing)
    /\ MESSAGE h' !! "cwdEncoded" = Some (VBool true).
Proof.
  intros Hfunc Henc Hfalse Hrun.
  apply handle_message_merges in Hrun
    as (h1 & m' & HM & _ & Hprep & ->); [|by rewrite Hfunc].
  rewrite Hfunc in Hprep. unfold prepare in Hprep.
  change (py_eq (VStr "dir") (VStr "dir")) with true in Hprep.
  change (py_eq (VStr "dir") (VStr "file")) with false in Hprep.
  destruct (merge_open_file (MESSAGE h1) (delete "nvimAddress" m))
    as [m1|] eqn:Hmerge; [|done].
  simpl in Hprep.
  destruct (render_cwd E m1) as [m2|] eqn:Hrender; [|done].
  simpl in Hprep. injection Hprep as ->.
  assert (Hsame : forall k, k ∉ file_keys -> k <> "forceClose" ->
                            k <> "nvimAddress" -> m1 !! k = m !! k).
  { intros k ? ? ?. rewrite (merge_open_file_frame _ _ _ k Hmerge) by done.
    by apply lookup_delete_ne. }
  unfold render_cwd, py_item in Hrender.
  rewrite (Hsame "cwdEncoded"), Henc in Hrender by (try done; key_in_list).
  simpl in Hrender. rewrite Hfalse in Hrender. simpl in Hrender.
  rewrite (Hsame "cwd") in Hrender by (try done; key_in_list).
  destruct (m !! "cwd") as [[| | |d]|]; simpl in Hrender; try done.
  destruct (dir2body E d) as [listing|] eqn:Hlisting; simpl in Hrender;
    [|done].
  injection Hrender as <-. exists d, listing. repeat split; try done.
  - rewrite py_update_lookup_new by by simplify_map_eq. by simplify_map_eq.
  - rewrite py_update_lookup_new by by simplify_map_eq. by simplify_map_eq.
Qed.

Lemma handle_file_message (c : nat) (m : msg) (h h' : hub) :
  py_get m "func" = VStr "file" ->
  handle_message E c m h = (Ret tt, h') ->
  exists m',
    encode E (oscwd h') (delete "nvimAddress" m) = Ret m'
    /\ MESSAGE h' = py_update (MESSAGE h) m'
    /\ truthy (py_get (MESSAGE h') "fileEncoded") = true.
Proof.
  intros Hfunc Hrun.
  apply handle_message_merges in Hrun
    as (h1 & m' & HM & HO & Hprep & HM'); [|by rewrite Hfunc].
  rewrite Hfunc in Hprep. unfold prepare in Hprep.
  change (py_eq (VStr "file") (VStr "dir")) with false in Hprep.
  change (py_eq (VStr "file") (VStr "file")) with true in Hprep.
  simpl in Hprep. rewrite HO in Hprep.
  exists m'. repeat split; try done.
  apply encode_marks_encoded in Hprep. unfold py_get_or in Hprep.
  unfold py_get. rewrite HM'.
  destruct (m' !! "fileEncoded") as [v|] eqn:Hv; [|done].
  rewrite py_update_lookup_new by by rewrite Hv. by rewrite Hv.
Qed.

(** X16. A [file] message, once handled, is in [MESSAGE] as [encode]
    returned it, encoded against the working directory the message
    named; [MESSAGE] is marked as encoded. *)
Theorem file_message_is_merged_encoded (c : nat) (m : msg) (h h' : hub) :
  py_get m "func" = VStr "file" ->
  handle_message E c m h = (Ret tt, h') ->
  exists m',
    encode E (oscwd h') (delete "nvimAddress" m) = Ret m'
    /\ MESSAGE h' = py_update (MESSAGE h) m'
    /\ truthy (py_get (MESSAGE h') "fileEncoded") = true.
Proof. apply handle_file_message. Qed.

(** X17. The key [forceClose] of a [dir] message is removed only when
    the message names no file while [MESSAGE] names one.  Otherwise the
    key is merged into [MESSAGE], and so sent to every viewer from then
    on. *)
Theorem force_close_reaches_state (c : nat) (m : msg) (h h' : hub)
    (force : value) :
  py_get m "func" = VStr "dir" ->
  m !! "forceClose" = Some force ->
  handle_message E c m h = (Ret tt, h') ->
  MESSAGE h' !! "forceClose"
  = if negb (truthy (py_get m "filename"))
       && truthy (py_get (MESSAGE h) "filename")
    then MESSAGE h !! "forceClose" else Some force.
Proof.
  intros Hfunc Hforce Hrun.
  apply handle_message_merges in Hrun
    as (h1 & m' & HM & _ & Hprep & ->); [|by rewrite Hfunc].
  rewrite Hfunc in Hprep. unfold prepare in Hprep.
  change (py_eq (VStr "dir") (VStr "dir")) with true in Hprep.
  change (py_eq (VStr "dir") (VStr "file")) with false in Hprep.
  destruct (merge_open_file (MESSAGE h1) (delete "nvimAddress" m))
    as [m1|] eqn:Hmerge; [|done].
  simpl in Hprep.
  destruct (render_cwd E m1) as [m2|] eqn:Hrender; [|done].
  simpl in Hprep. injection Hprep as <-.
  assert (Hm2 : m2 !! "forceClose" = m1 !! "forceClose").
  { by apply (render_cwd_frame E _ _ _ Hrender). }
  unfold merge_open_file in Hmerge.
  rewrite py_get_delete, HM in Hmerge by done.
  destruct (negb (truthy (py_get m "filename"))
            && truthy (py_get (MESSAGE h) "filename")).
  - assert (Hgone : m1 !! "forceClose" = None).
    { destruct (negb _).
      - apply copy_file_fields_spec in Hmerge as [_ Hrest].
        rewrite Hrest by key_in_list. apply lookup_delete_eq.
      - injection Hmerge as <-. apply lookup_delete_eq. }
    apply py_update_lookup_old. by rewrite Hm2.
  - injection Hmerge as <-.
    rewrite lookup_delete_ne in Hm2 by done. rewrite Hforce in Hm2.
    rewrite py_update_lookup_new by by rewrite Hm2. done.
Qed.

(** X18. The address of the editor that a producer attaches to a
    message ([nvimAddress]) is never part of the canonical state: no
    state the hub reaches from its start has the key, so no viewer is
    ever sent it. *)
Theorem nvim_address_never_stored (startdir : string) (ops : list op) :
  MESSAGE (run E ops (fresh_hub E startdir)) !! "nvimAddress" = None.
Proof.
  assert (Hhandle : forall c m h,
            MESSAGE h !! "nvimAddress" = None ->
            MESSAGE (snd (handle_message E c m h)) !! "nvimAddress" = None).
  { intros c m h.
    apply (handle_message_ind E
             (fun h' => MESSAGE h' !! "nvimAddress" = None)).
    - intros c' m' h0 r h' Hinv Hbody.
      destruct (handle_message_body_cases E c' m' h0) as (h1 & Hsame & Hcases).
      destruct Hsame as (HM & _). rewrite <- HM in Hinv.
      rewrite Hbody in Hcases.
      destruct Hcases
        as [[e ?]|[[_ ?]|[[_ ?]|[[_ Hed]|[(_&_&?)|[Hback|(_&_&Hupd)]]]]]];
        simplify_eq; try done.
      + symmetry in Hed. by apply edit_current_file_frame in Hed as ->.
      + by destruct Hback as (_ & ? & ? & ? & ? & ? & _ & _ & ?).
      + symmetry in Hupd. apply handle_update_spec in Hupd
          as [[-> _]|[[-> _]|(m'' & Hprep & _ & Hpub)]]; try done.
        apply publish_spec in Hpub as (-> & _).
        rewrite py_update_lookup_old; [done|].
        rewrite (prepare_frame _ _ _ _ "nvimAddress" Hprep)
          by (try done; key_in_list).
        apply lookup_delete_eq.
    - intros c' m' h0 restored h' Hinv Hbody.
      destruct (handle_message_body_cases E c' m' h0) as (h1 & Hsame & Hcases).
      destruct Hsame as (HM & _). rewrite <- HM in Hinv.
      rewrite Hbody in Hcases.
      destruct Hcases
        as [[e ?]|[[_ ?]|[[_ ?]|[[_ ?]|[(_&_&?)|[Hback|(_&_&?)]]]]]];
        try done.
      destruct Hback
        as (_ & e1 & e2 & rest & restored' & h2 & _ & Hpop & [= -> ->]).
      apply back_pop_spec in Hpop as (HM2 & _). by rewrite HM2. }
  assert (Hrun : forall ops h, MESSAGE h !! "nvimAddress" = None ->
                   MESSAGE (run E ops h) !! "nvimAddress" = None).
  { clear ops. intros ops. induction ops as [|o ops IH]; intros h Hh; [done|].
    simpl. apply IH. destruct o as [c m|c m|c]; simpl.
    - unfold register_client, bind.
      destruct (py_eq _ (VStr "js")); [|destruct (py_eq _ (VStr "py"))];
        simpl; try done; by apply Hhandle.
    - by apply Hhandle.
    - done. }
  by apply Hrun.
Qed.

End MergeFacts.

(** ** The producers *)

Section ProducerFacts.

Variable E : env.

(** X19. Each of the three messages the HTTP layer sends - a file on
    GET, a directory on GET, the body of a PUT - goes out with exactly
    the eleven keys that [validate_message] lists, no more and no
    fewer. *)
Theorem index_messages_have_the_listed_keys
    (cwd listing filename content : string) :
  dom (send_as_pyclient (index_file_message cwd listing filename content))
  = list_to_set message_keys
  /\ dom (send_as_pyclient (index_dir_message cwd listing filename))
     = list_to_set message_keys
  /\ dom (send_as_pyclient (index_put_message cwd listing content))
     = list_to_set message_keys.
Proof. repeat split; vm_compute; reflexivity. Qed.


Lemma encode_markdown (wd : string) (m : msg) (body : string) :
  truthy (py_get_or m "fileEncoded" (VBool false)) = false ->
  m !! "fileEncoding" = Some (VStr "md") ->
  m !! "fileBody" = Some (VStr body) ->
  encode E wd m
  = match md2body_text E wd body with
    | Ret html =>
        Ret (<["fileBody" := VStr html]> (<["fileEncoded" := VBool true]> m))
    | Raise e => Raise e
    end.
Proof.
  intros Hfresh Hdeclared Hbody. unfold encode.
  pose proof (encode_run_body E wd m) as Hrun.
  unfold encode_body in Hrun. rewrite Hfresh in Hrun.
  assert (Hinfer : encode_infer E (<["fileEncoded" := VBool true]> m)
                   = Ret (<["fileEncoded" := VBool true]> m, VStr "md")).
  { unfold encode_infer, py_get. rewrite lookup_insert_ne by done.
    by rewrite Hdeclared. }
  rewrite Hinfer in Hrun.
  change (py_eq (VStr "md") (VStr "md")) with true in Hrun.
  cbv iota in Hrun. injection Hrun as <-. simpl.
  unfold render_body, py_item. rewrite lookup_insert_ne by done.
  rewrite Hbody. simpl. by destruct (md2body_text E wd body).
Qed.

(** X21. A text piped into a markdown-default [smdv], once its message
    is handled by the hub: [MESSAGE] shows the file [@pipe] with the
    text rendered as markdown, but its [fileCwd] is the one it had
    before - that of the file shown previously, or none. *)
Theorem piped_text_keeps_old_fileCwd (cwd content : string) (c : nat)
    (m : msg) (h h' : hub) :
  ARGS_stdin E = "md" ->
  send_message_from_stdin E cwd (StdinText content) = Ret m ->
  handle_message E c m h = (Ret tt, h') ->
  MESSAGE h' !! "filename" = Some (VStr "@pipe")
  /\ (exists html, md2body_text E (oscwd h') content = Ret html
                   /\ MESSAGE h' !! "fileBody" = Some (VStr html))
  /\ MESSAGE h' !! "fileOpen" = Some (VBool true)
  /\ MESSAGE h' !! "cwdCwd" = Some (VStr cwd)
  /\ MESSAGE h' !! "fileCwd" = MESSAGE h !! "fileCwd".
Proof.
  intros Hmd Hsend Hrun.
  unfold send_message_from_stdin, send_as_pyclient in Hsend. simpl in Hsend.
  destruct (dir2body E cwd) as [listing|]; simpl in Hsend; [|done].
  injection Hsend as <-. rewrite Hmd in *.
  apply handle_file_message in Hrun as (m' & Henc & -> & _);
    [|reflexivity].
  rewrite (encode_markdown _ _ content) in Henc; try reflexivity.
  destruct (md2body_text E (oscwd h') content) as [html|] eqn:Hhtml; [|done].
  injection Henc as <-.
  split; [|split; [exists html; split; [done|]|repeat split]];
    try (rewrite py_update_lookup_new; by simplify_map_eq).
  apply py_update_lookup_old. reflexivity.
Qed.

(** X22. The message of [update_filename] spells its last key
    [NvimAddress]: once handled, that key is in [MESSAGE] - and replayed
    to the viewers - and [ARGS.nvim_address] of the hub is what it
    was. *)
Theorem update_filename_address_is_misplaced
    (cwd listing filename content address : string) (c : nat) (h h' : hub) :
  let m := send_as_pyclient
             (update_filename_message cwd listing filename content address) in
  handle_message E c m h = (Ret tt, h') ->
  MESSAGE h' !! "NvimAddress" = Some (VStr address)
  /\ nvim_address h' = nvim_address h
  /\ dom m = list_to_set message_keys ∪ {["NvimAddress"]}.
Proof.
  intros m Hrun. split; [|split].
  - apply handle_file_message in Hrun as (m' & Henc & -> & _);
      [|reflexivity].
    rewrite py_update_lookup_new;
      rewrite (encode_keeps_key E _ _ _ "NvimAddress" Henc) by done;
      by subst m.
  - rewrite handle_message_unfold in Hrun. unfold handle_message_body in Hrun.
    change (py_get_or m "nvimAddress" (nvim_address h)) with (nvim_address h)
      in Hrun.
    destruct (validate_message _) as [[]|]; [|done].
    destruct (chdir_to_cwd E _ _) as [[[]|] h1] eqn:Hchdir; [|done].
    apply chdir_to_cwd_frame in Hchdir as [_ Hnvim]. simpl in Hnvim.
    change (py_get m "func") with (VStr "file") in Hrun.
    cbn [truthy negb String.eqb Ascii.eqb Bool.eqb py_eq] in Hrun.
    apply handle_update_spec in Hrun
      as [[_ [e [_ ?]]]|[(_ & _ & ?)|(m' & _ & _ & Hpub)]]; try done.
    apply publish_spec in Hpub as (_ & _ & _ & _ & -> & _). done.
  - subst m. vm_compute. reflexivity.
Qed.

End ProducerFacts.

(** ** Readiness polling *)

Section PollingFacts.

Variable connect : string -> nat -> connect_result.

Lemma wait_for_server_loop_probes (attempts : nat) (server : string) (k : nat) :
  snd (wait_for_server_loop connect attempts server k) <= k + attempts.
Proof.
  revert k. induction attempts as [|n IH]; intros k; simpl; [lia|].
  destruct (request_server_status connect server k) as [status|e]; simpl;
    [|lia].
  destruct (String.eqb status "running"); simpl; [lia|].
  specialize (IH (S k)). lia.
Qed.

Lemma wait_for_server_loop_refused (attempts : nat) (server : string) (k : nat) :
  String.eqb server "websocket" || String.eqb server "flask" = true ->
  (forall i, k <= i < k + attempts -> connect server i = Refused) ->
  wait_for_server_loop connect attempts server k
  = (Raise ConnectionRefusedError, k + attempts).
Proof.
  intros Hserver. revert k.
  induction attempts as [|n IH]; intros k Hdown; simpl.
  - by rewrite Nat.add_0_r.
  - unfold request_server_status. rewrite Hserver.
    rewrite Hdown by lia. simpl.
    rewrite IH by (intros i Hi; apply Hdown; lia). f_equal. lia.
Qed.

Lemma wait_for_server_loop_running (attempts j : nat) (server : string) (k : nat) :
  String.eqb server "websocket" || String.eqb server "flask" = true ->
  j < attempts ->
  connect server (k + j) = Connected ->
  (forall i, k <= i < k + j -> connect server i = Refused) ->
  wait_for_server_loop connect attempts server k = (Ret tt, S (k + j)).
Proof.
  intros Hserver. revert attempts k.
  induction j as [|j IH]; intros attempts k Hj Hup Hdown;
    (destruct attempts as [|n]; [lia|]); simpl;
    unfold request_server_status; rewrite Hserver.
  - rewrite Nat.add_0_r in *. by rewrite Hup.
  - rewrite Hdown by lia. simpl.
    rewrite (IH n (S k)); [f_equal; lia|lia| |].
    + by replace (S k + j) with (k + S j) by lia.
    + intros i Hi. apply Hdown. lia.
Qed.

(** X23. [wait_for_server] polls at most [max_attempts] times.  For
    either accepted value of [status] - ["stopped"] as well as
    ["running"] - it returns at the first probe that finds the server
    running, and raises [ConnectionRefusedError] after [max_attempts]
    probes that find the connection refused: asked to wait for a server
    to stop, it waits for it to run.  Any other [status] raises
    [ValueError] before the first probe. *)
Theorem wait_for_server_is_bounded (max_attempts : nat) (server status : string) :
  snd (wait_for_server connect max_attempts server status) <= max_attempts
  /\ (String.eqb status "running" || String.eqb status "stopped" = false ->
      wait_for_server connect max_attempts server status
      = (Raise ValueError, 0))
  /\ (String.eqb status "running" || String.eqb status "stopped" = true ->
      String.eqb server "websocket" || String.eqb server "flask" = true ->
      (forall j, j < max_attempts ->
                 connect server j = Connected ->
                 (forall i, i < j -> connect server i = Refused) ->
                 wait_for_server connect max_attempts server status
                 = (Ret tt, S j))
      /\ ((forall i, i < max_attempts -> connect server i = Refused) ->
          wait_for_server connect max_attempts server status
          = (Raise ConnectionRefusedError, max_attempts))).
Proof.
  unfold wait_for_server.
  destruct (String.eqb status "running" || String.eqb status "stopped").
  - split; [|split; [done|]].
    + apply (wait_for_server_loop_probes max_attempts server 0).
    + intros _ Hserver. split.
      * intros j Hj Hup Hdown.
        apply (wait_for_server_loop_running max_attempts j server 0);
          try done. intros i Hi. apply Hdown. lia.
      * intros Hdown.
        apply (wait_for_server_loop_refused max_attempts server 0);
          try done. intros i Hi. apply Hdown. lia.
  - simpl. split; [lia|]. split; [done|done].
Qed.

Variable jsclients : nat -> result nat.

Lemma wait_for_connected_jsclient_loop_spec (attempts k : nat) :
  snd (wait_for_connected_jsclient_loop jsclients attempts k) <= k + attempts
  /\ ((forall i, k <= i < k + attempts -> jsclients i = Ret 0) ->
      wait_for_connected_jsclient_loop jsclients attempts k
      = (Raise ConnectionRefusedError, k + attempts))
  /\ (forall j n, j < attempts -> jsclients (k + j) = Ret (S n) ->
        (forall i, k <= i < k + j -> jsclients i = Ret 0) ->
        wait_for_connected_jsclient_loop jsclients attempts k
        = (Ret tt, S (k + j))).
Proof.
  revert k. induction attempts as [|a IH]; intros k; simpl.
  { split; [lia|]. split; [by rewrite Nat.add_0_r|]. intros; lia. }
  destruct (IH (S k)) as (Hbound & Hnone & Hsome).
  split; [|split].
  - destruct (jsclients k) as [n|e]; simpl; [|lia].
    destruct (0 <? n)%nat; simpl; lia.
  - intros Hzero. rewrite Hzero by lia. simpl.
    rewrite Hnone by (intros i Hi; apply Hzero; lia). f_equal. lia.
  - intros j n Hj Hup Hzero. destruct j as [|j].
    + rewrite Nat.add_0_r in *. by rewrite Hup.
    + rewrite Hzero by lia. simpl.
      rewrite (Hsome j n); [f_equal; lia|lia| |].
      * by replace (S k + j) with (k + S j) by lia.
      * intros i Hi. apply Hzero. lia.
Qed.

(** X24. [wait_for_connected_jsclient] asks the hub for the number of
    viewers at most [max_attempts] times: it returns at the first answer
    above zero, and raises [ConnectionRefusedError] after [max_attempts]
    answers of zero. *)
Theorem wait_for_connected_jsclient_is_bounded (max_attempts : nat) :
  snd (wait_for_connected_jsclient jsclients max_attempts) <= max_attempts
  /\ ((forall i, i < max_attempts -> jsclients i = Ret 0) ->
      wait_for_connected_jsclient jsclients max_attempts
      = (Raise ConnectionRefusedError, max_attempts))
  /\ (forall j n, j < max_attempts -> jsclients j = Ret (S n) ->
        (forall i, i < j -> jsclients i = Ret 0) ->
        wait_for_connected_jsclient jsclients max_attempts = (Ret tt, S j)).
Proof.
  unfold wait_for_connected_jsclient.
  destruct (wait_for_connected_jsclient_loop_spec max_attempts 0)
    as (Hbound & Hnone & Hsome).
  split; [done|]. split.
  - intros Hzero. apply Hnone. intros i Hi. apply Hzero. lia.
  - intros j n Hj Hup Hzero. apply (Hsome j n); try done.
    intros i Hi. apply Hzero. lia.
Qed.

End PollingFacts.

(** ** Binary files *)



(** ** The directory projector *)

Section DirectoryFacts.

Variable home port : string.
Variable listdir : string -> result (list string).
Variable isdir : string -> bool.
Variable upper : string -> string.

Lemma string_compare_refl (a : string) : String.compare a a = Eq.
Proof. by apply OrderedTypeEx.String_as_OT.cmp_eq. Qed.

Lemma string_leb_trans (a b c : string) :
  String.leb a b = true -> String.leb b c = true -> String.leb a c = true.
Proof.
  unfold String.leb. intros Hab Hbc.
  destruct (String.compare a b) eqn:Cab; [| |done].
  { apply String.compare_eq_iff in Cab as ->. done. }
  destruct (String.compare b c) eqn:Cbc; [| |done].
  { apply String.compare_eq_iff in Cbc as <-. by rewrite Cab. }
  apply OrderedTypeEx.String_as_OT.cmp_lt in Cab, Cbc.
  pose proof (OrderedTypeEx.String_as_OT.lt_trans _ _ _ Cab Cbc) as Cac.
  apply OrderedTypeEx.String_as_OT.cmp_lt in Cac.
  unfold OrderedTypeEx.String_as_OT.cmp in Cac. by rewrite Cac.
Qed.

Lemma string_ltb_leb (a b : string) :
  String.ltb a b = true -> String.leb a b = true.
Proof. unfold String.ltb, String.leb. by destruct (String.compare a b). Qed.

Lemma string_ltb_false (a b : string) :
  String.ltb a b = false -> String.leb b a = true.
Proof.
  unfold String.ltb, String.leb. rewrite (String.compare_antisym a b).
  by destruct (String.compare b a).
Qed.

Lemma insert_by_key_perm (x : string) (l : list string) :
  insert_by_key upper x l ≡ₚ x :: l.
Proof.
  induction l as [|y l IH]; simpl; [done|].
  destruct (String.ltb (upper y) (upper x)); [|done].
  rewrite IH. apply Permutation_swap.
Qed.

Lemma sorted_by_key_perm (l : list string) : sorted_by_key upper l ≡ₚ l.
Proof.
  induction l as [|x l IH]; simpl; [done|].
  by rewrite insert_by_key_perm, IH.
Qed.

Lemma insert_by_key_sorted (x : string) (l : list string) :
  StronglySorted (key_le upper) l ->
  StronglySorted (key_le upper) (insert_by_key upper x l).
Proof.
  induction 1 as [|y l Hl IH Hy]; simpl.
  { constructor; constructor. }
  destruct (String.ltb (upper y) (upper x)) eqn:Hlt.
  - constructor; [done|].
    rewrite insert_by_key_perm. constructor; [|done].
    by apply string_ltb_leb.
  - apply string_ltb_false in Hlt.
    constructor; [by constructor|]. constructor; [done|].
    eapply Forall_impl; [exact Hy|]. intros z Hz.
    unfold key_le in *. by eapply string_leb_trans.
Qed.

Lemma sorted_by_key_sorted (l : list string) :
  StronglySorted (key_le upper) (sorted_by_key upper l).
Proof.
  induction l as [|x l IH]; simpl; [constructor|].
  by apply insert_by_key_sorted.
Qed.

Lemma filter_sorted (f : string -> bool) (l : list string) :
  StronglySorted (key_le upper) l ->
  StronglySorted (key_le upper) (List.filter f l).
Proof.
  induction 1 as [|y l Hl IH Hy]; simpl; [constructor|].
  destruct (f y); [|done]. constructor; [done|].
  apply Forall_forall. intros z [Hz _]%list_elem_of_In%filter_In.
  rewrite Forall_forall in Hy. by apply Hy, list_elem_of_In.
Qed.

Lemma filter_split (f : string -> bool) (l : list string) :
  List.filter f l ++ List.filter (fun x => negb (f x)) l ≡ₚ l.
Proof.
  induction l as [|x l IH]; simpl; [done|].
  destruct (f x); simpl.
  - by rewrite IH.
  - rewrite <- Permutation_middle. by rewrite IH.
Qed.

(** X26. The listing of a directory holds one anchor for each name
    [os.listdir] gave, no name twice or missing: first those of the
    sub-directories, then those of the other entries, each group in the
    order of the upper-cased names. *)
Theorem dir2body_lists_directories_first (cwd : string)
    (names : list string) :
  let path := dir2body_path home cwd in
  listdir path = Ret names ->
  exists dirs files,
    dir2body_fs home port listdir isdir upper (VStr cwd)
    = Ret (str_join ("<br>" ++ line_feed)
             (map (fun n => dir_anchor home port (path_join path n)) dirs
              ++ map (fun n => file_anchor home port (path_join path n))
                   files))
    /\ dirs ++ files ≡ₚ names
    /\ Forall (fun n => isdir (path_join path n) = true) dirs
    /\ Forall (fun n => isdir (path_join path n) = false) files
    /\ StronglySorted (key_le upper) dirs
    /\ StronglySorted (key_le upper) files.
Proof.
  intros path Hlist.
  exists (List.filter (fun n => isdir (path_join path n))
            (sorted_by_key upper names)),
         (List.filter (fun n => negb (isdir (path_join path n)))
            (sorted_by_key upper names)).
  split; [|split; [|split; [|split; [|split]]]].
  - unfold dir2body_fs. fold path. rewrite Hlist. simpl.
    unfold dir2body_anchors. rewrite !filter_map_swap, !map_map. done.
  - rewrite (filter_split (fun n => isdir (path_join path n))).
    apply sorted_by_key_perm.
  - apply Forall_forall. by intros n [_ ?]%list_elem_of_In%filter_In.
  - apply Forall_forall. intros n [_ Hn]%list_elem_of_In%filter_In.
    by apply negb_true_iff in Hn.
  - apply filter_sorted, sorted_by_key_sorted.
  - apply filter_sorted, sorted_by_key_sorted.
Qed.

(** X27. The directory [dir2body] lists is its argument without the
    first slash, joined to [ARGS.home]: for a [cwd] that starts with one
    slash it is [ARGS.home + cwd], the directory the hub has changed to;
    for a [cwd] that starts with two slashes the join drops [ARGS.home],
    and the directory listed is the absolute path that follows the first
    slash. *)
Theorem dir2body_path_cases (rest : string) :
  (String.prefix "/" rest = false ->
   home <> "" -> ends_with_slash home = false ->
   dir2body_path home (String "/" rest) = home ++ String "/" rest)
  /\ dir2body_path home (String "/" (String "/" rest)) = String "/" rest.
Proof.
  unfold dir2body_path, path_join. simpl. split; [|by destruct rest].
  intros -> Hhome ->. apply String.eqb_neq in Hhome. by rewrite Hhome.
Qed.

Lemma prefix_app (a b : string) : String.prefix a (a ++ b) = true.
Proof.
  induction a as [|c a IH]; simpl; [by destruct b|].
  rewrite IH. by destruct (ascii_dec c c).
Qed.

Lemma replace_from_skip (old new a b : string) :
  replace_from old new (String.length a) (a ++ b) = replace_from old new 0 b.
Proof. induction a as [|c a IH]; simpl; [done|exact IH]. Qed.

(** X28. The address of an entry below [ARGS.home] starts with the
    address of the server: [ARGS.home] at the head of the path is
    replaced by [http://127.0.0.1:<port>] - and so is every later
    occurrence of [ARGS.home] in the path. *)
Theorem dir2body_url_is_rooted (rest : string) :
  home <> "" ->
  dir2body_url home port (home ++ rest)
  = ("http://127.0.0.1:" ++ port)
    ++ str_replace home ("http://127.0.0.1:" ++ port) rest.
Proof.
  intros Hhome. unfold dir2body_url, str_replace.
  apply String.eqb_neq in Hhome. rewrite Hhome.
  destruct home as [|c tail] eqn:Hh; [done|].
  change (String c tail ++ rest) with (String c (tail ++ rest)).
  cbn [replace_from].
  change (String c (tail ++ rest)) with (String c tail ++ rest).
  rewrite prefix_app. f_equal.
  replace (String.length (String c tail) - 1) with (String.length tail)
    by (simpl; lia).
  apply replace_from_skip.
Qed.

End DirectoryFacts.

(** ** Further scenarios *)

Lemma serve_client_unregisters_witness :
  let h' := snd (serve_client demo_env 7 newjsclient
                   [dir_message "/a/"; edit_request; back_request]
                   (fresh_hub demo_env "/")) in
  JSCLIENTS h' = JSCLIENTS (fresh_hub demo_env "/") ∖ {[7]}
  /\ PYCLIENTS h' = PYCLIENTS (fresh_hub demo_env "/") ∖ {[7]}.
Proof.
  apply (serve_client_unregisters demo_env 7 newjsclient
           [dir_message "/a/"; edit_request; back_request]
           (fresh_hub demo_env "/")).
  vm_compute. reflexivity.
Defined.

Lemma failed_viewer_stays_registered_witness :
  serve_client demo_env 7 edit_request [newjsclient] (fresh_hub demo_env "/")
  = register_client demo_env 7 edit_request (fresh_hub demo_env "/")
  /\ 7 ∈ JSCLIENTS (snd (serve_client demo_env 7 edit_request [newjsclient]
                           (fresh_hub demo_env "/"))).
Proof.
  apply (failed_viewer_stays_registered demo_env 7 edit_request [newjsclient]
           (fresh_hub demo_env "/") KeyError).
  - reflexivity.
  - vm_compute. reflexivity.
Defined.

Lemma unknown_role_is_refused_witness :
  serve_client demo_env 7 robot_hello [dir_message "/a/"]
    (fresh_hub demo_env "/")
  = (Raise ValueError, fresh_hub demo_env "/").
Proof.
  apply (unknown_role_is_refused demo_env 7 robot_hello [dir_message "/a/"]
           (fresh_hub demo_env "/")).
  reflexivity.
Defined.

Lemma count_query_is_pure_witness :
  let h := run demo_env visit_a_then_b (fresh_hub demo_env "/") in
  serve_client demo_env 9 num_js_clients_query [] h
  = (Ret tt, emit (Send 9 (FCount 1)) h).
Proof.
  intros h.
  assert (Hcount : size (JSCLIENTS h) = 1) by (vm_compute; reflexivity).
  rewrite <- Hcount.
  apply (count_query_is_pure demo_env 9 h);
    apply (bool_decide_unpack _); vm_compute; exact I.
Defined.

Lemma edit_file_changes_nothing_witness :
  same_canonical (fresh_hub demo_env "/")
    (snd (handle_message demo_env 7 edit_request (fresh_hub demo_env "/")))
  /\ fst (handle_message demo_env 7 edit_request (fresh_hub demo_env "/"))
     = Raise KeyError.
Proof.
  destruct (edit_file_changes_nothing demo_env 7 edit_request
              (fresh_hub demo_env "/") eq_refl) as [Hsame Hraise].
  split; [exact Hsame|]. apply Hraise; reflexivity.
Defined.

Lemma unreachable_cwd_is_rejected_witness :
  let h := run closed_env visit_a_then_b (fresh_hub closed_env "/") in
  (exists e, fst (handle_message closed_env 0 (dir_message "/gone/") h)
             = Raise e)
  /\ same_canonical h
       (snd (handle_message closed_env 0 (dir_message "/gone/") h)).
Proof.
  intros h.
  apply (unreachable_cwd_is_rejected closed_env 0 (dir_message "/gone/") h
           (VStr "/gone/")).
  - reflexivity.
  - intros d [= <-]. reflexivity.
Defined.

Lemma back_stack_top_is_current_witness :
  let h' := snd (handle_message demo_env 0 (dir_message "/a/")
                   (fresh_hub demo_env "/")) in
  exists top rest cwd,
    BACKMESSAGES h' = top :: rest
    /\ MESSAGE h' !! "cwd" = Some cwd
    /\ py_eq cwd (py_get top "cwd") = true.
Proof.
  intros h'.
  apply (back_stack_top_is_current demo_env 0 (dir_message "/a/")
           (fresh_hub demo_env "/") h').
  - reflexivity.
  - vm_compute. reflexivity.
Defined.

Lemma forward_stack_only_grows_witness :
  let h := run demo_env visit_a_then_b (fresh_hub demo_env "/") in
  let h' := snd (handle_message demo_env 7 back_request h) in
  FORWARDMESSAGES h' = FORWARDMESSAGES h
  \/ (py_get back_request "func" = VStr "back"
      /\ exists e rest,
           BACKMESSAGES h = e :: rest
           /\ FORWARDMESSAGES h' = appendleft_capped e (FORWARDMESSAGES h)).
Proof.
  intros h.
  apply (forward_stack_only_grows demo_env 7 back_request h).
  apply run_stacks_ok, fresh_hub_stacks_ok.
Defined.

Lemma encode_frame_witness :
  exists m', encode demo_env "/" weird_message = Ret m'
             /\ m' !! "filename" = weird_message !! "filename".
Proof.
  eexists. split; [reflexivity|].
  apply (encode_frame demo_env "/" weird_message _ "filename");
    [reflexivity | discriminate..].
Defined.

Lemma encode_infers_extension_witness :
  encode_infer demo_env (file_message "/" "notes.tar.gz" "raw" "")
  = Ret (<["fileEncoding" := VStr "gz"]>
           (file_message "/" "notes.tar.gz" "raw" ""), VStr "gz").
Proof.
  apply (encode_infers_extension demo_env
           (file_message "/" "notes.tar.gz" "raw" "") "notes.tar" "gz");
    reflexivity.
Defined.

Lemma encode_infers_without_extension_witness :
  encode_infer demo_env (file_message "/" ".bashrc" "raw" "")
  = Ret (<["fileEncoding" := VStr "txt"]>
           (file_message "/" ".bashrc" "raw" ""), VStr "txt")
  /\ encode_infer demo_env (file_message "/" "bashrc" "raw" "")
     = Ret (<["fileEncoding" := VStr "md"]>
              (file_message "/" "bashrc" "raw" ""), VStr "md").
Proof.
  split.
  - apply (proj1 (encode_infers_without_extension demo_env
                    (file_message "/" ".bashrc" "raw" "") "bashrc"
                    eq_refl eq_refl)).
    reflexivity.
  - apply (proj2 (encode_infers_without_extension demo_env
                    (file_message "/" "bashrc" "raw" "") "bashrc"
                    eq_refl eq_refl)).
    + reflexivity.
    + discriminate.
Defined.


Lemma encode_notebook_witness :
  encode demo_env "/" notebook_message
  = Ret (<["fileBody" := VStr ("<md>" ++ fence (VStr "{}") ++ "</md>")]>
           (<["fileEncoding" := VStr "txt"]>
              (<["fileEncoded" := VBool true]> notebook_message))).
Proof.
  apply (encode_notebook demo_env "/" notebook_message (VStr "{}"));
    reflexivity.
Defined.

Lemma dir_message_renders_listing_witness :
  let h' := snd (handle_message demo_env 0 unrendered_dir_message
                   (fresh_hub demo_env "/")) in
  exists d listing,
    unrendered_dir_message !! "cwd" = Some (VStr d)
    /\ dir2body demo_env d = Ret listing
    /\ MESSAGE h' !! "cwdBody" = Some (VStr listing)
    /\ MESSAGE h' !! "cwdEncoded" = Some (VBool true).
Proof.
  intros h'.
  apply (dir_message_renders_listing demo_env 0 unrendered_dir_message
           (fresh_hub demo_env "/") h' (VBool false)).
  - reflexivity.
  - reflexivity.
  - reflexivity.
  - vm_compute. reflexivity.
Defined.

Lemma file_message_is_merged_encoded_witness :
  let h := fresh_hub demo_env "/" in
  let h' := snd (handle_message demo_env 0 weird_message h) in
  exists m',
    encode demo_env (oscwd h') (delete "nvimAddress" weird_message) = Ret m'
    /\ MESSAGE h' = py_update (MESSAGE h) m'
    /\ truthy (py_get (MESSAGE h') "fileEncoded") = true.
Proof.
  intros h h'.
  apply (file_message_is_merged_encoded demo_env 0 weird_message h h').
  - reflexivity.
  - vm_compute. reflexivity.
Defined.

Lemma force_close_reaches_state_witness :
  let h := fresh_hub demo_env "/" in
  MESSAGE (snd (handle_message demo_env 7 close_file h)) !! "forceClose"
  = Some (VBool true).
Proof.
  intros h.
  apply (force_close_reaches_state demo_env 7 close_file h
           (snd (handle_message demo_env 7 close_file h)) (VBool true)).
  - reflexivity.
  - reflexivity.
  - vm_compute. reflexivity.
Defined.

Lemma piped_text_keeps_old_fileCwd_witness :
  let h := run demo_env open_notes (fresh_hub demo_env "/") in
  let h' := snd (handle_message demo_env 0 piped_text_message h) in
  MESSAGE h' !! "filename" = Some (VStr "@pipe")
  /\ (exists html, md2body_text demo_env (oscwd h') "# piped" = Ret html
                   /\ MESSAGE h' !! "fileBody" = Some (VStr html))
  /\ MESSAGE h' !! "fileOpen" = Some (VBool true)
  /\ MESSAGE h' !! "cwdCwd" = Some (VStr "/tmp/")
  /\ MESSAGE h' !! "fileCwd" = MESSAGE h !! "fileCwd".
Proof.
  intros h h'.
  apply (piped_text_keeps_old_fileCwd demo_env "/tmp/" "# piped" 0
           piped_text_message h h').
  - reflexivity.
  - reflexivity.
  - vm_compute. reflexivity.
Defined.

Lemma update_filename_address_is_misplaced_witness :
  let m := send_as_pyclient
             (update_filename_message "/docs/" "<ls>" "notes.md" "# hi"
                "/tmp/nvim.sock") in
  let h := fresh_hub demo_env "/" in
  let h' := snd (handle_message demo_env 0 m h) in
  MESSAGE h' !! "NvimAddress" = Some (VStr "/tmp/nvim.sock")
  /\ nvim_address h' = nvim_address h
  /\ dom m = list_to_set message_keys ∪ {["NvimAddress"]}.
Proof.
  intros m h h'.
  apply (update_filename_address_is_misplaced demo_env "/docs/" "<ls>"
           "notes.md" "# hi" "/tmp/nvim.sock" 0 h h').
  vm_compute. reflexivity.
Defined.

Lemma wait_for_server_is_bounded_witness :
  wait_for_server up_after_three 10 "websocket" "stopped" = (Ret tt, 4)
  /\ wait_for_server (fun _ _ => Refused) 10 "websocket" "stopped"
     = (Raise ConnectionRefusedError, 10)
  /\ wait_for_server up_after_three 10 "websocket" "gone"
     = (Raise ValueError, 0).
Proof.
  split; [|split].
  - apply (proj1 (proj2 (proj2 (wait_for_server_is_bounded up_after_three 10
                                  "websocket" "stopped")) eq_refl eq_refl) 3).
    + lia.
    + reflexivity.
    + intros i Hi. unfold up_after_three.
      by replace (i <? 3)%nat with true by (symmetry; apply Nat.ltb_lt; lia).
  - apply (proj2 (proj2 (proj2 (wait_for_server_is_bounded
                                  (fun _ _ => Refused) 10
                                  "websocket" "stopped")) eq_refl eq_refl)).
    reflexivity.
  - apply (proj1 (proj2 (wait_for_server_is_bounded up_after_three 10
                           "websocket" "gone"))).
    reflexivity.
Defined.

Lemma wait_for_connected_jsclient_is_bounded_witness :
  wait_for_connected_jsclient viewer_after_two 6 = (Ret tt, 3)
  /\ wait_for_connected_jsclient (fun _ => Ret 0) 6
     = (Raise ConnectionRefusedError, 6).
Proof.
  split.
  - apply (proj2 (proj2 (wait_for_connected_jsclient_is_bounded
                           viewer_after_two 6)) 2 0).
    + lia.
    + reflexivity.
    + intros i Hi. unfold viewer_after_two.
      by replace (i <? 2)%nat with true by (symmetry; apply Nat.ltb_lt; lia).
  - apply (proj1 (proj2 (wait_for_connected_jsclient_is_bounded
                           (fun _ => Ret 0) 6))).
    reflexivity.
Defined.


Lemma dir2body_lists_directories_first_witness :
  exists dirs files,
    dir2body_fs "/home/u" "9876" docs_listdir docs_isdir letters_upper
      (VStr "/docs/")
    = Ret (str_join ("<br>" ++ line_feed)
             (map (fun n => dir_anchor "/home/u" "9876"
                              (path_join "/home/u/docs/" n)) dirs
              ++ map (fun n => file_anchor "/home/u" "9876"
                                 (path_join "/home/u/docs/" n)) files))
    /\ dirs ++ files ≡ₚ ["b.txt"; "Zed"; "a.md"; "src"]
    /\ Forall (fun n => docs_isdir (path_join "/home/u/docs/" n) = true) dirs
    /\ Forall (fun n => docs_isdir (path_join "/home/u/docs/" n) = false) files
    /\ StronglySorted (key_le letters_upper) dirs
    /\ StronglySorted (key_le letters_upper) files.
Proof.
  apply (dir2body_lists_directories_first "/home/u" "9876" docs_listdir
           docs_isdir letters_upper "/docs/" ["b.txt"; "Zed"; "a.md"; "src"]).
  reflexivity.
Defined.

Lemma dir2body_path_cases_witness :
  dir2body_path "/home/u" "/docs/" = "/home/u/docs/"
  /\ dir2body_path "/home/u" "//etc/" = "/etc/".
Proof.
  split.
  - apply (proj1 (dir2body_path_cases "/home/u" "docs/")).
    + reflexivity.
    + discriminate.
    + reflexivity.
  - apply (proj2 (dir2body_path_cases "/home/u" "etc/")).
Defined.

Lemma dir2body_url_is_rooted_witness :
  dir2body_url "/home/u" "9876" "/home/u/docs/a.md"
  = "http://127.0.0.1:9876/docs/a.md".
Proof.
  etransitivity.
  - apply (dir2body_url_is_rooted "/home/u" "9876" "/docs/a.md"). discriminate.
  - reflexivity.
Defined.
